(** * Roster manager: models, queries and views of the [students] app

    A shallow embedding of [students/models.py] and [students/views.py].

    - Tables are lists of rows in storage (rowid) order.  Primary and
      foreign keys are integers ([Z]); text columns are [string]s whose
      characters are read as code points below U+0100.
    - The datastore is SQLite ([illinois/settings/production.py]): text is
      ordered by code point (the BINARY collation) and [LIKE], which backs
      [__icontains], folds the case of the ASCII letters only.
    - A queryset is the list of rows its SQL statement returns: joins,
      [GROUP BY], [COUNT] and [ORDER BY] are written out.  Rows that tie
      under an [ORDER BY] keep their scan order.
    - A view maps the request and the database to its response. *)

From Stdlib Require Import List String Ascii ZArith Bool Arith Lia.
From Stdlib Require Import Sorting.Sorted Sorting.Permutation.
From Stdlib Require Import DecimalString DecimalPos DecimalZ.
Import ListNotations.

Local Open Scope string_scope.
Local Open Scope Z_scope.
Local Open Scope list_scope.

(* ================================================================== *)
(** ** students/models.py *)

Module Models.

(** [class Section(models.Model)] *)
Record Section : Type := mkSection {
  section_id : Z;        (* AutoField(primary_key=True) *)
  code       : string;   (* CharField(max_length=10, unique=True) *)
  name       : string;   (* CharField(max_length=60) *)
  term       : string    (* CharField(max_length=16, blank=True) *)
}.

(** [class Student(models.Model)]; [section] holds the key of the
    referenced Section. *)
Record Student : Type := mkStudent {
  student_id : Z;
  first_name : string;
  last_name  : string;
  nickname   : string;   (* blank=True, default="" *)
  email      : string;   (* EmailField(unique=True) *)
  section    : Z         (* ForeignKey(Section, on_delete=PROTECT) *)
}.

(** [class Enrollment(models.Model)]; [enrolled_on] is a day number. *)
Record Enrollment : Type := mkEnrollment {
  enroll_id    : Z;
  student      : Z;      (* ForeignKey(Student, on_delete=CASCADE) *)
  enr_section  : Z;      (* ForeignKey(Section, on_delete=PROTECT) *)
  enrolled_on  : Z;      (* DateField(auto_now_add=True) *)
  is_active    : bool    (* BooleanField(default=True) *)
}.

(** The three tables. *)
Record Database : Type := mkDatabase {
  Section_objects    : list Section;
  Student_objects    : list Student;
  Enrollment_objects : list Enrollment
}.

Definition Section_eq_dec (a b : Section) : {a = b} + {a <> b}.
Proof. decide equality; first [apply string_dec | apply Z.eq_dec]. Defined.

End Models.
Import Models.

(* ================================================================== *)
(** ** Text: Python [str] and SQLite text operations *)

Module Text.

(** [str.isspace] on one character, for the code points below U+0100:
    TAB..CR, FS..US, SPACE, NEL and NBSP. *)
Definition isspace (c : ascii) : bool :=
  let n := N_of_ascii c in
  ((9 <=? n) && (n <=? 13) || (28 <=? n) && (n <=? 32)
   || (n =? 133) || (n =? 160))%N.

Fixpoint lstrip (s : string) : string :=
  match s with
  | String c r => if isspace c then lstrip r else s
  | EmptyString => EmptyString
  end.

(** Drops the trailing whitespace: a character is kept when it is not
    whitespace or when something is kept after it. *)
Fixpoint rstrip (s : string) : string :=
  match s with
  | EmptyString => EmptyString
  | String c r =>
      match rstrip r with
      | EmptyString => if isspace c then EmptyString else String c EmptyString
      | r' => String c r'
      end
  end.

(** [str.strip()] *)
Definition strip (s : string) : string := rstrip (lstrip s).

(** Python truthiness of a [str]. *)
Definition truthy (s : string) : bool :=
  match s with EmptyString => false | _ => true end.

(** SQLite's case folding in [LIKE]: ASCII letters only. *)
Definition fold_char (c : ascii) : ascii :=
  let n := N_of_ascii c in
  if ((65 <=? n) && (n <=? 90))%N then ascii_of_N (n + 32) else c.

Fixpoint fold_case (s : string) : string :=
  match s with
  | EmptyString => EmptyString
  | String c r => String (fold_char c) (fold_case r)
  end.

Fixpoint starts_with (p s : string) : bool :=
  match p, s with
  | EmptyString, _ => true
  | String a p', String b s' => Ascii.eqb a b && starts_with p' s'
  | String _ _, EmptyString => false
  end.

(** [needle] occurs in [hay]: at its start or further on. *)
Fixpoint contains (needle hay : string) : bool :=
  starts_with needle hay ||
  match hay with
  | EmptyString => false
  | String _ r => contains needle r
  end.

(** [column__icontains=q], i.e. [column LIKE '%q%' ESCAPE '\'] with the
    wildcards of [q] escaped. *)
Definition icontains (column q : string) : bool :=
  contains (fold_case q) (fold_case column).

(** Text comparison of [ORDER BY] under the BINARY collation. *)
Definition text_le (a b : string) : bool := String.leb a b.

(** [str(n)] for an integer. *)
Definition str_of_int (n : Z) : string :=
  NilZero.string_of_int (Z.to_int n).

End Text.

(* ================================================================== *)
(** ** The SQL that the ORM calls compile to *)

Module Orm.

Section Joins.
Context {A B : Type}.
Variable on : A -> B -> bool.

(** The rows that the left row [a] contributes to an outer join: one
    per match, or a single row with NULL on the right. *)
Definition joined_rows (r : list B) (a : A) : list (A * option B) :=
  match filter (on a) r with
  | [] => [(a, None)]
  | m => map (fun b => (a, Some b)) m
  end.

(** [a LEFT OUTER JOIN b ON on] *)
Definition left_join (l : list A) (r : list B) : list (A * option B) :=
  flat_map (joined_rows r) l.

(** [a INNER JOIN b ON on] *)
Definition inner_join (l : list A) (r : list B) : list (A * B) :=
  flat_map (fun a => map (fun b => (a, b)) (filter (on a) r)) l.
End Joins.

Section Grouping.
Context {R K : Type}.
Variable K_eq_dec : forall x y : K, {x = y} + {x <> y}.

Definition has_key (key : R -> K) (k : K) (r : R) : bool :=
  if K_eq_dec (key r) k then true else false.

(** [GROUP BY key]: one group per distinct key, holding the rows
    with that key. *)
Definition group_by (key : R -> K) (rows : list R) : list (K * list R) :=
  map (fun k => (k, filter (has_key key k) rows))
      (nodup K_eq_dec (map key rows)).
End Grouping.

(** [COUNT(col)]: the rows where [col] is not NULL. *)
Definition Count {R C : Type} (col : R -> option C) (rows : list R) : nat :=
  List.length (filter (fun r => match col r with Some _ => true | None => false end) rows).

(** [COUNT(col) FILTER (WHERE q)], from [Count(col, filter=Q(...))]:
    the rows are restricted to [q] before they are counted. *)
Definition Count_filter {R C : Type} (col : R -> option C) (q : R -> bool)
           (rows : list R) : nat :=
  Count col (filter q rows).

Section Ordering.
Context {R : Type}.
Variable le : R -> R -> bool.

Fixpoint insert_row (x : R) (l : list R) : list R :=
  match l with
  | [] => [x]
  | y :: t => if le x y then x :: l else y :: insert_row x t
  end.

(** [ORDER BY]: a stable sort; [insert_row] puts a row before the
    first row that is not below it, so the fold goes right to left. *)
Definition order_by (rows : list R) : list R :=
  fold_right insert_row [] rows.
End Ordering.

End Orm.

(* ================================================================== *)
(** ** JSON values and HTTP messages *)

Module Http.

(** A JSON value; a Python [dict] keeps the order of its keys, so an
    object is a list of members.  A number that is not an integer is
    kept as its literal. *)
#[local] Set Warnings "-register-all".
Inductive JSON : Type :=
| JNull
| JBool (b : bool)
| JInt (n : Z)
| JFloat (literal : string)
| JStr (s : string)
| JList (items : list JSON)
| JDict (members : list (string * JSON)).

(** [d.get(key)] on the members of a [dict]. *)
Fixpoint assoc {V : Type} (key : string) (members : list (string * V)) : option V :=
  match members with
  | [] => None
  | (k, v) :: rest => if String.eqb k key then Some v else assoc key rest
  end.

(** [request.GET]: the query parameters in the order they were given. *)
Record HttpRequest : Type := mkRequest {
  GET : list (string * string)
}.

(** [QueryDict.get(key)]: the last value given for [key], or [None]. *)
Definition QueryDict_get (key : string) (params : list (string * string))
  : option string :=
  assoc key (rev params).

(** A response that carries JSON: [JsonResponse(payload, status=...)],
    with the [Content-Disposition] header when one is set. *)
Record JsonResponse : Type := mkJsonResponse {
  status_code : Z;
  payload : JSON;
  json_disposition : option string
}.

Definition JsonResponse_ok (data : JSON) : JsonResponse :=
  mkJsonResponse 200 data None.

End Http.
Import Http.

(* ================================================================== *)
(** ** students/views.py: the aggregation queries *)

Module Queries.
Import Text Orm.

(** [Section] joined to [Student] through [section_related_name]:
    [LEFT OUTER JOIN student ON student.section_id = section.section_id]. *)
Definition section_related_name (db : Database) : list (Section * option Student) :=
  left_join (fun sec st => section st =? section_id sec)
            (Section_objects db) (Student_objects db).

(** [Section] joined to [Enrollment] through [enrollments_related_name]. *)
Definition enrollments_related_name (db : Database) : list (Section * option Enrollment) :=
  left_join (fun sec e => enr_section e =? section_id sec)
            (Section_objects db) (Enrollment_objects db).

(** The joined student's key, NULL on an unmatched row. *)
Definition joined_student (r : Section * option Student) : option Z :=
  option_map student_id (snd r).

Definition joined_enrollment (r : Section * option Enrollment) : option Z :=
  option_map enroll_id (snd r).

(** [Q(enrollments_related_name__is_active=True)]; NULL is not true. *)
Definition Q_is_active (r : Section * option Enrollment) : bool :=
  match snd r with
  | Some e => is_active e
  | None => false
  end.

(** [Section.objects.annotate(n_students=Count("section_related_name"))
      .values("code", "n_students").order_by("code")]:
    [annotate] on the model groups by every column of [Section]. *)
Definition students_per_section_code (db : Database) : list (string * nat) :=
  order_by (fun a b => text_le (fst a) (fst b))
    (map (fun g => (code (fst g), Count joined_student (snd g)))
         (group_by Section_eq_dec fst (section_related_name db))).

(** [Section.objects.annotate(n_all=Count("enrollments_related_name"),
      n_active=Count("enrollments_related_name", filter=Q(...)))
      .values("code", "n_all", "n_active").order_by("code")]:
    both counts read the one join. *)
Definition enrollments_per_section (db : Database) : list (string * nat * nat) :=
  order_by (fun a b => text_le (fst (fst a)) (fst (fst b)))
    (map (fun g => (code (fst g),
                    Count joined_enrollment (snd g),
                    Count_filter joined_enrollment Q_is_active (snd g)))
         (group_by Section_eq_dec fst (enrollments_related_name db))).

(** [Section.objects.values("code").annotate(n_enrolls=Count(...),
      n_active=Count(..., filter=Q(...))).order_by("code")]:
    grouped by the code alone. *)
Definition enrollments_per_code (db : Database) : list (string * nat * nat) :=
  order_by (fun a b => text_le (fst (fst a)) (fst (fst b)))
    (map (fun g => (fst g,
                    Count joined_enrollment (snd g),
                    Count_filter joined_enrollment Q_is_active (snd g)))
         (group_by string_dec (fun r => code (fst r)) (enrollments_related_name db))).

Definition code_name_eq_dec (a b : string * string) : {a = b} + {a <> b}.
Proof. decide equality; apply string_dec. Defined.

(** [Section.objects.values("code", "name")
      .annotate(n_students=Count("section_related_name")).order_by("code")]:
    [values] before [annotate] groups by the named columns. *)
Definition students_per_section (db : Database) : list (string * string * nat) :=
  order_by (fun a b => text_le (fst (fst a)) (fst (fst b)))
    (map (fun g => (fst (fst g), snd (fst g), Count joined_student (snd g)))
         (group_by code_name_eq_dec (fun r => (code (fst r), name (fst r)))
                   (section_related_name db))).

(** [Section.objects.values("term")
      .annotate(n_students=Count("section_related_name")).order_by("term")] *)
Definition students_per_term (db : Database) : list (string * nat) :=
  order_by (fun a b => text_le (fst a) (fst b))
    (map (fun g => (fst g, Count joined_student (snd g)))
         (group_by string_dec (fun r => term (fst r)) (section_related_name db))).

(** [order_by("last_name", "first_name")], also [Student.Meta.ordering]. *)
Definition by_name (a b : Student) : bool :=
  match String.compare (last_name a) (last_name b) with
  | Lt => true
  | Gt => false
  | Eq => text_le (first_name a) (first_name b)
  end.

(** [Q(first_name__icontains=q) | Q(last_name__icontains=q) |
     Q(nickname__icontains=q)] *)
Definition Q_name_icontains (q : string) (st : Student) : bool :=
  icontains (first_name st) q || icontains (last_name st) q
  || icontains (nickname st) q.

End Queries.

(* ================================================================== *)
(** ** students/views.py: the views *)

Module Views.
Import Text Orm Queries.

(** A row of [Student.objects....values(..., "section__code")]: the
    student and the Section reached through the foreign key
    ([INNER JOIN section ON student.section_id = section.section_id]). *)
Definition with_section (db : Database) (students : list Student)
  : list (Student * Section) :=
  inner_join (fun st sec => section_id sec =? section st)
             students (Section_objects db).

Definition by_student_name (a b : Student * Section) : bool :=
  by_name (fst a) (fst b).

(** [.values("student_id", "first_name", "last_name", "nickname",
             "email", "section__code")] *)
Definition values_roster (r : Student * Section) : JSON :=
  JDict [("student_id", JInt (student_id (fst r)));
         ("first_name", JStr (first_name (fst r)));
         ("last_name", JStr (last_name (fst r)));
         ("nickname", JStr (nickname (fst r)));
         ("email", JStr (email (fst r)));
         ("section__code", JStr (code (snd r)))].

Definition JInt_of_nat (n : nat) : JSON := JInt (Z.of_nat n).

(** [(request.GET.get("q") or "").strip()] *)
Definition stripped_q (request : HttpRequest) : string :=
  strip (match QueryDict_get "q" (GET request) with
         | Some v => if truthy v then v else ""
         | None => ""
         end).

(** The first [def api_students(request)] (views.py, line 307). *)
Definition api_students_shadowed (request : HttpRequest) (db : Database)
  : JsonResponse :=
  let q := stripped_q request in
  let qs := with_section db (Student_objects db) in
  let qs := if truthy q
            then with_section db (filter (Q_name_icontains q) (Student_objects db))
            else qs in
  let data := map values_roster (order_by by_student_name qs) in
  JsonResponse_ok (JDict [("count", JInt_of_nat (List.length data));
                          ("results", JList data)]).

(** The second [def api_students(request)] (views.py, line 330), the one
    the module exposes. *)
Definition api_students (request : HttpRequest) (db : Database)
  : JsonResponse :=
  let q := stripped_q request in
  let qs := with_section db (Student_objects db) in
  let qs := if truthy q
            then with_section db (filter (Q_name_icontains q) (Student_objects db))
            else qs in
  let data := map values_roster (order_by by_student_name qs) in
  JsonResponse_ok (JDict [("count", JInt_of_nat (List.length data));
                          ("results", JList data)]).

(** [StudentsAPI.get]: the filter is applied to [Student.objects.all()]
    and [values] is called once. *)
Definition StudentsAPI_get (request : HttpRequest) (db : Database)
  : JsonResponse :=
  let q := stripped_q request in
  let qs := Student_objects db in
  let qs := if truthy q then filter (Q_name_icontains q) qs else qs in
  let data := map values_roster (order_by by_student_name (with_section db qs)) in
  JsonResponse_ok (JDict [("count", JInt_of_nat (List.length data));
                          ("results", JList data)]).

(** [api_students_per_section] *)
Definition api_students_per_section (request : HttpRequest) (db : Database)
  : JsonResponse :=
  let rows := students_per_section_code db in
  let labels := map fst rows in
  let counts := map snd rows in
  JsonResponse_ok (JDict [("labels", JList (map JStr labels));
                          ("counts", JList (map JInt_of_nat counts))]).

(** A row of [.values("code", "n_all", "n_active")]. *)
Definition values_enrollments (r : string * nat * nat) : JSON :=
  JDict [("code", JStr (fst (fst r)));
         ("n_all", JInt_of_nat (snd (fst r)));
         ("n_active", JInt_of_nat (snd r))].

(** [api_enrollments_per_section] *)
Definition api_enrollments_per_section (request : HttpRequest) (db : Database)
  : JsonResponse :=
  let rows := enrollments_per_section db in
  JsonResponse_ok (JDict [("results", JList (map values_enrollments rows))]).

(** The function views of [views.py] that answer with JSON, under the
    names their [def]s bind, in the order of the [def]s. *)
Definition module_defs : list (string * (HttpRequest -> Database -> JsonResponse)) :=
  [("api_students", api_students_shadowed);
   ("api_students", api_students);
   ("api_students_per_section", api_students_per_section);
   ("api_enrollments_per_section", api_enrollments_per_section)].

(** [views.<name>], as [urls.py] reads it once the module is loaded: a
    later [def] has rebound the name. *)
Definition views_attr (name : string)
  : option (HttpRequest -> Database -> JsonResponse) :=
  assoc name (rev module_defs).

(** The template context of [StudentListView]; the entries that
    [ListView] adds itself are left out. *)
Record StudentListContext : Type := mkStudentListContext {
  ctx_q : option string;
  ctx_search_results : option (list Student);
  ctx_total_students : nat;
  ctx_total_enrollments : nat;
  ctx_students_per_section : list (string * string * nat);
  ctx_enrollments_per_section : list (string * nat * nat);
  ctx_students_per_term : list (string * nat)
}.

(** [StudentListView.get_context_data]; a queryset of [Student]
    instances comes in [Student.Meta.ordering]. *)
Definition StudentListView_get_context_data (request : HttpRequest) (db : Database)
  : StudentListContext :=
  let q := QueryDict_get "q" (GET request) in
  let search_qs :=
    match q with
    | Some v =>
        if truthy v
        then Some (order_by by_name
                     (filter (fun st => icontains (first_name st) v) (Student_objects db)))
        else None
    | None => None
    end in
  {| ctx_q := q;
     ctx_search_results := search_qs;
     ctx_total_students := List.length (Student_objects db);
     ctx_total_enrollments := List.length (Enrollment_objects db);
     ctx_students_per_section := students_per_section db;
     ctx_enrollments_per_section := enrollments_per_code db;
     ctx_students_per_term := students_per_term db |}.

(** The template context of [SectionListView]. *)
Record SectionListContext : Type := mkSectionListContext {
  sctx_students_per_section : list (string * string * nat);
  sctx_students_per_term : list (string * nat);
  sctx_enrollments_per_section : list (string * nat * nat)
}.

(** [SectionListView.get_context_data]: here [annotate] comes before
    [values], so the groups are the Section rows. *)
Definition SectionListView_get_context_data (request : HttpRequest) (db : Database)
  : SectionListContext :=
  {| sctx_students_per_section :=
       order_by (fun a b => text_le (fst (fst a)) (fst (fst b)))
         (map (fun g => (code (fst g), name (fst g), Count joined_student (snd g)))
              (group_by Section_eq_dec fst (section_related_name db)));
     sctx_students_per_term := students_per_term db;
     sctx_enrollments_per_section := enrollments_per_section db |}.

End Views.

(* ================================================================== *)
(** ** students/views.py: the export views *)

Module Exports.
Import Text Orm Queries Views.

(** What [datetime.now()] returned. *)
Record datetime : Type := mkDatetime {
  year : Z; month : Z; day : Z; hour : Z; minute : Z; second : Z
}.

(** A number in at least two digits, as [%m], [%d], [%H], [%M] print it. *)
Definition two_digits (n : Z) : string :=
  String.append (if n <? 10 then "0" else "") (str_of_int n).

(** [strftime("%Y-%m-%d_%H-%M")] *)
Definition strftime_Ymd_HM (t : datetime) : string :=
  (str_of_int (year t) ++ "-" ++ two_digits (month t) ++ "-" ++ two_digits (day t)
   ++ "_" ++ two_digits (hour t) ++ "-" ++ two_digits (minute t))%string.

(** [isoformat(timespec="seconds")] *)
Definition isoformat_seconds (t : datetime) : string :=
  (str_of_int (year t) ++ "-" ++ two_digits (month t) ++ "-" ++ two_digits (day t)
   ++ "T" ++ two_digits (hour t) ++ ":" ++ two_digits (minute t)
   ++ ":" ++ two_digits (second t))%string.

(** [f'attachment; filename="{filename}"'] *)
Definition attachment (filename : string) : string :=
  ("attachment; filename=" ++ String (ascii_of_N 34) filename
   ++ String (ascii_of_N 34) EmptyString)%string.

(** The CSV response: the records handed to [writer.writerow], each
    cell as [str] of its value, in the order they were written. *)
Record CsvResponse : Type := mkCsvResponse {
  csv_content_type : string;
  csv_disposition : string;
  csv_records : list (list string)
}.

(** A row of [.values_list("student_id", "first_name", "last_name",
    "email", "section__code")]. *)
Definition values_list_export (r : Student * Section)
  : Z * string * string * string * string :=
  (student_id (fst r), first_name (fst r), last_name (fst r),
   email (fst r), code (snd r)).

(** [writer.writerow(row)] on such a row. *)
Definition writerow (row : Z * string * string * string * string) : list string :=
  let '(sid, first, last, mail, sec_code) := row in
  [str_of_int sid; first; last; mail; sec_code].

(** [export_students_csv]; [now] is the clock reading. *)
Definition export_students_csv (request : HttpRequest) (now : datetime)
           (db : Database) : CsvResponse :=
  let timestamp := strftime_Ymd_HM now in
  let filename := ("students_" ++ timestamp ++ ".csv")%string in
  let header := ["student_id"; "first_name"; "last_name"; "email"; "section_code"] in
  let rows := map values_list_export
                  (order_by by_student_name (with_section db (Student_objects db))) in
  {| csv_content_type := "text/csv";
     csv_disposition := attachment filename;
     csv_records := header :: map writerow rows |}.

(** A row of [.values("student_id", "first_name", "last_name", "email",
    "section__code")]. *)
Definition values_export (r : Student * Section) : JSON :=
  JDict [("student_id", JInt (student_id (fst r)));
         ("first_name", JStr (first_name (fst r)));
         ("last_name", JStr (last_name (fst r)));
         ("email", JStr (email (fst r)));
         ("section__code", JStr (code (snd r)))].

(** [export_students_json]; the clock is read twice, for the envelope
    and for the file name. *)
Definition export_students_json (request : HttpRequest) (now now' : datetime)
           (db : Database) : JsonResponse :=
  let data := map values_export
                  (order_by by_student_name (with_section db (Student_objects db))) in
  let json_content :=
    JDict [("generated_at", JStr (isoformat_seconds now));
           ("record_count", JInt_of_nat (List.length data));
           ("students", JList data)] in
  let timestamp := strftime_Ymd_HM now' in
  let filename := ("students_" ++ timestamp ++ ".json")%string in
  mkJsonResponse 200 json_content (Some (attachment filename)).

End Exports.

(* ================================================================== *)
(** ** students/views.py: [WeatherNow] and the [requests] calls it makes *)

Module Weather.

(** The exceptions that can reach the [try] block. *)
Inductive RequestExceptionKind : Type :=
| ConnectionError | Timeout | TooManyRedirects | HTTPError | JSONDecodeError.

Inductive Exception : Type :=
| RequestException (kind : RequestExceptionKind) (message : string)
| AttributeError (message : string).

(** A computation that returns or raises. *)
Inductive Exc (A : Type) : Type :=
| Return (a : A)
| Raise (e : Exception).
Arguments Return {A} a.
Arguments Raise {A} e.

Definition bind {A B : Type} (m : Exc A) (k : A -> Exc B) : Exc B :=
  match m with
  | Return a => k a
  | Raise e => Raise e
  end.

Notation "x <- m ;; k" := (bind m (fun x => k))
  (at level 61, m at next level, right associativity).

(** [try: body except requests.exceptions.RequestException as e: handler] *)
Definition try_except_RequestException {A : Type}
           (body : Exc A) (handler : string -> Exc A) : Exc A :=
  match body with
  | Raise (RequestException _ message) => handler message
  | other => other
  end.

(** The response object of [requests]: the status line and the body,
    [None] when the body is not JSON text. *)
Record Response : Type := mkResponse {
  resp_status : Z;
  resp_reason : string;
  resp_url : string;
  resp_json : option JSON
}.

(** [Response.raise_for_status()]: raises for the 4xx and 5xx codes. *)
Definition raise_for_status (r : Response) : Exc unit :=
  if (400 <=? resp_status r) && (resp_status r <? 500) then
    Raise (RequestException HTTPError
             (Text.str_of_int (resp_status r) ++ " Client Error: " ++ resp_reason r
              ++ " for url: " ++ resp_url r)%string)
  else if (500 <=? resp_status r) && (resp_status r <? 600) then
    Raise (RequestException HTTPError
             (Text.str_of_int (resp_status r) ++ " Server Error: " ++ resp_reason r
              ++ " for url: " ++ resp_url r)%string)
  else Return tt.

(** [Response.json()]: [requests.exceptions.JSONDecodeError] is a
    [RequestException]. *)
Definition json (r : Response) : Exc JSON :=
  match resp_json r with
  | Some v => Return v
  | None => Raise (RequestException JSONDecodeError "Expecting value")
  end.

(** [obj.get("current_weather", {})]: only a [dict] answers it this way. *)
Definition get_current_weather (obj : JSON) : Exc JSON :=
  match obj with
  | JDict members =>
      Return (match assoc "current_weather" members with
              | Some v => v
              | None => JDict []
              end)
  | _ => Raise (AttributeError "object has no attribute 'get'")
  end.

(** [WeatherNow.get]; [fetched] is what
    [requests.get(url, params=params, timeout=5)] did. *)
Definition WeatherNow_get (request : HttpRequest) (fetched : Exc Response)
  : Exc JsonResponse :=
  try_except_RequestException
    (output_raw_all <- fetched ;;
     _ <- raise_for_status output_raw_all ;;
     output_polished_all <- json output_raw_all ;;
     output_polished_cw_only <- get_current_weather output_polished_all ;;
     Return (JsonResponse_ok (JDict [("ok", JBool true);
                                     ("weather", output_polished_cw_only)])))
    (fun e => Return (mkJsonResponse 502
                        (JDict [("ok", JBool false); ("error", JStr e)]) None)).

End Weather.

(* ================================================================== *)
(** ** The datastore's answer to writes, from the constraints and the
       [on_delete] policies of students/models.py *)

Module Store.

Inductive DbError : Type :=
| IntegrityError (message : string)
| ProtectedError (message : string).

Inductive WriteResult : Type :=
| Written (db : Database)
| Rejected (e : DbError).

(** The tables after the write was attempted. *)
Definition state_after (db : Database) (w : WriteResult) : Database :=
  match w with
  | Written db' => db'
  | Rejected _ => db
  end.

(** The key an [AutoField] gives to a new row of a table that has not
    lost the row with its largest key: one more than the largest key of
    the table.  [Writes.allot] is the rule for every table, under which
    the key of a deleted row is not given out again. *)
Definition next_key (keys : list Z) : Z := 1 + fold_right Z.max 0 keys.

(** [email = models.EmailField(unique=True)] *)
Definition email_taken (db : Database) (st : Student) : bool :=
  existsb (fun x => String.eqb (email x) (email st)) (Student_objects db).

(** [UniqueConstraint(fields=["first_name", "last_name", "section"],
    name="uniq_student_name_in_section")] *)
Definition name_in_section_taken (db : Database) (st : Student) : bool :=
  existsb (fun x => String.eqb (first_name x) (first_name st)
                    && String.eqb (last_name x) (last_name st)
                    && (section x =? section st))
          (Student_objects db).

(** [UniqueConstraint(fields=["student", "section"],
    name="uniq_enrollment_per_student_per_section")] *)
Definition enrollment_taken (db : Database) (e : Enrollment) : bool :=
  existsb (fun x => (student x =? student e) && (enr_section x =? enr_section e))
          (Enrollment_objects db).

Definition section_exists (db : Database) (pk : Z) : bool :=
  existsb (fun s => section_id s =? pk) (Section_objects db).

Definition student_exists (db : Database) (pk : Z) : bool :=
  existsb (fun s => student_id s =? pk) (Student_objects db).

(** Saving a new Student; the key of [st] is not read. *)
Definition Student_insert (db : Database) (st : Student) : WriteResult :=
  if email_taken db st then
    Rejected (IntegrityError "UNIQUE constraint failed: students_student.email")
  else if name_in_section_taken db st then
    Rejected (IntegrityError "UNIQUE constraint failed: uniq_student_name_in_section")
  else if negb (section_exists db (section st)) then
    Rejected (IntegrityError "FOREIGN KEY constraint failed")
  else
    let pk := next_key (map student_id (Student_objects db)) in
    Written {| Section_objects := Section_objects db;
               Student_objects :=
                 Student_objects db ++
                 [mkStudent pk (first_name st) (last_name st) (nickname st)
                            (email st) (section st)];
               Enrollment_objects := Enrollment_objects db |}.

(** Saving a new Enrollment; the key of [e] is not read. *)
Definition Enrollment_insert (db : Database) (e : Enrollment) : WriteResult :=
  if enrollment_taken db e then
    Rejected (IntegrityError
                "UNIQUE constraint failed: uniq_enrollment_per_student_per_section")
  else if negb (student_exists db (student e) && section_exists db (enr_section e)) then
    Rejected (IntegrityError "FOREIGN KEY constraint failed")
  else
    let pk := next_key (map enroll_id (Enrollment_objects db)) in
    Written {| Section_objects := Section_objects db;
               Student_objects := Student_objects db;
               Enrollment_objects :=
                 Enrollment_objects db ++
                 [mkEnrollment pk (student e) (enr_section e) (enrolled_on e)
                               (is_active e)] |}.

(** Deleting the Section with key [pk]: both foreign keys to Section are
    [on_delete=models.PROTECT]. *)
Definition Section_delete (db : Database) (pk : Z) : WriteResult :=
  if existsb (fun st => section st =? pk) (Student_objects db) then
    Rejected (ProtectedError
                "Cannot delete some instances of model 'Section': Student.section")
  else if existsb (fun e => enr_section e =? pk) (Enrollment_objects db) then
    Rejected (ProtectedError
                "Cannot delete some instances of model 'Section': Enrollment.section")
  else
    Written {| Section_objects :=
                 filter (fun s => negb (section_id s =? pk)) (Section_objects db);
               Student_objects := Student_objects db;
               Enrollment_objects := Enrollment_objects db |}.

(** Deleting the Student with key [pk]: [Enrollment.student] is
    [on_delete=models.CASCADE], and nothing refers to an Enrollment. *)
Definition Student_delete (db : Database) (pk : Z) : WriteResult :=
  Written {| Section_objects := Section_objects db;
             Student_objects :=
               filter (fun st => negb (student_id st =? pk)) (Student_objects db);
             Enrollment_objects :=
               filter (fun e => negb (student e =? pk)) (Enrollment_objects db) |}.

End Store.

(* ================================================================== *)
(** ** The counts as the specification words them *)

Module Spec.

(** The Students whose [section] is the given Section. *)
Definition n_students_of (db : Database) (s : Section) : nat :=
  List.length (filter (fun st => section st =? section_id s) (Student_objects db)).

(** The Enrollments whose [section] is the given Section. *)
Definition n_all_of (db : Database) (s : Section) : nat :=
  List.length (filter (fun e => enr_section e =? section_id s) (Enrollment_objects db)).

(** Those of them whose [is_active] is true. *)
Definition n_active_of (db : Database) (s : Section) : nat :=
  List.length (filter is_active
                 (filter (fun e => enr_section e =? section_id s) (Enrollment_objects db))).

(** The Students of all the Sections whose term is [t], Section by
    Section. *)
Definition students_in_term (db : Database) (t : string) : nat :=
  list_sum (map (n_students_of db)
                (filter (fun s => String.eqb (term s) t) (Section_objects db))).

(** Ascending order of text. *)
Definition ascending (a b : string) : Prop := Text.text_le a b = true.





Section UpTo.
Variable same_char : ascii -> ascii -> Prop.


End UpTo.







(** Every Student row refers to exactly one Section row: the Section keys
    are distinct and each [section] is one of them. *)
Definition students_have_sections (db : Database) : Prop :=
  NoDup (map section_id (Section_objects db)) /\
  forall st, In st (Student_objects db) ->
             exists sec, In sec (Section_objects db) /\ section_id sec = section st.

(** Ordered by last name, then by first name. *)
Definition last_then_first (last_a first_a last_b first_b : string) : Prop :=
  String.ltb last_a last_b = true \/ (last_a = last_b /\ ascending first_a first_b).

(** The exported tuple of a student: id, first name, last name, email and
    section code. *)
Definition roster_tuple : Type := Z * string * string * string * string.

Definition tuple_order (a b : roster_tuple) : Prop :=
  let '(_, first_a, last_a, _, _) := a in
  let '(_, first_b, last_b, _, _) := b in
  last_then_first last_a first_a last_b first_b.

(** The tuple as a CSV record and as a JSON object. *)
Definition csv_record_of (t : roster_tuple) : list string :=
  let '(sid, first, last, mail, sec_code) := t in
  [Text.str_of_int sid; first; last; mail; sec_code].

Definition json_object_of (t : roster_tuple) : JSON :=
  let '(sid, first, last, mail, sec_code) := t in
  JDict [("student_id", JInt sid); ("first_name", JStr first);
         ("last_name", JStr last); ("email", JStr mail);
         ("section__code", JStr sec_code)].

(** The Students that the roster endpoints select for the query [q]. *)
Definition selected (q : string) (db : Database) : list Student :=
  if Text.truthy q then filter (Queries.Q_name_icontains q) (Student_objects db)
  else Student_objects db.

(** The payload of the roster endpoints for the joined rows [rows]. *)
Definition roster_payload (rows : list (Student * Section)) : JSON :=
  JDict [("count", JInt (Z.of_nat (List.length rows)));
         ("results", JList (map Views.values_roster rows))].

(** The answer of the weather endpoint to a failed fetch. *)
Definition bad_gateway (message : string) : JsonResponse :=
  mkJsonResponse 502 (JDict [("ok", JBool false); ("error", JStr message)]) None.

(** Its answer to a fetch that brought the current weather [weather]. *)
Definition weather_ok (weather : JSON) : JsonResponse :=
  mkJsonResponse 200 (JDict [("ok", JBool true); ("weather", weather)]) None.

End Spec.

(* ================================================================== *)
(** ** students/views.py: the list pages and the detail page *)

Module Pages.
Import Text Orm Queries Views.

(** [Student.objects.all()], the object list of [StudentListView], under
    [Student.Meta.ordering = ["last_name", "first_name"]]. *)
Definition StudentListView_object_list (db : Database) : list Student :=
  order_by by_name (Student_objects db).

(** [Section.objects.all()], the object list of [SectionListView], under
    [Section.Meta.ordering = ["code"]]. *)
Definition SectionListView_object_list (db : Database) : list Section :=
  order_by (fun a b => text_le (code a) (code b)) (Section_objects db).

(** An Enrollment with the Student its ordering reads
    ([INNER JOIN student ON enrollment.student_id = student.student_id]). *)
Definition with_student (db : Database) (enrollments : list Enrollment)
  : list (Enrollment * Student) :=
  inner_join (fun e st => student_id st =? student e)
             enrollments (Student_objects db).

(** [Enrollment.Meta.ordering =
      ["-enroll_id", "student__last_name", "student__first_name"]] *)
Definition by_enrollment_meta (a b : Enrollment * Student) : bool :=
  if enroll_id (fst b) <? enroll_id (fst a) then true
  else if enroll_id (fst a) <? enroll_id (fst b) then false
  else by_name (snd a) (snd b).

(** A queryset of Enrollments, as it is read out. *)
Definition Enrollment_ordered (db : Database) (enrollments : list Enrollment)
  : list Enrollment :=
  map fst (order_by by_enrollment_meta (with_student db enrollments)).

(** [Enrollment.objects.all()], the object list of [EnrollmentListView]. *)
Definition EnrollmentListView_object_list (db : Database) : list Enrollment :=
  Enrollment_ordered db (Enrollment_objects db).

(** Newest first: by descending key. *)
Definition newest_first (a b : Enrollment) : Prop := enroll_id b <= enroll_id a.

(** What [Model.objects.get(...)] does with the rows it finds. *)
Inductive Lookup (A : Type) : Type :=
| Got (row : A)
| DoesNotExist
| MultipleObjectsReturned.
Arguments Got {A} row.
Arguments DoesNotExist {A}.
Arguments MultipleObjectsReturned {A}.

(** [Student.objects.get(pk=primary_key)] *)
Definition Student_get (db : Database) (primary_key : Z) : Lookup Student :=
  match filter (fun st => student_id st =? primary_key) (Student_objects db) with
  | [] => DoesNotExist
  | [st] => Got st
  | _ => MultipleObjectsReturned
  end.

(** The context that [StudentDetail.get] hands to [render]. *)
Record StudentDetailContext : Type := mkStudentDetailContext {
  single_student_var_for_looping : Student;
  enrollments_var_for_looping : list Enrollment
}.

(** What a page view does: it renders a template with a context, answers
    404, or lets an exception through. *)
Inductive PageResult (C : Type) : Type :=
| Rendered (template : string) (context : C)
| Http404
| Uncaught (exception : string).
Arguments Rendered {C} template context.
Arguments Http404 {C}.
Arguments Uncaught {C} exception.

(** [StudentDetail.get]: [get_object_or_404] turns [DoesNotExist] into a
    404 and nothing else; [student.enrollments_related_name.all()] is the
    Enrollments whose [student] is the Student found. *)
Definition StudentDetail_get (request : HttpRequest) (db : Database)
           (primary_key : Z) : PageResult StudentDetailContext :=
  match Student_get db primary_key with
  | Got found =>
      let enrollments :=
        Enrollment_ordered db
          (filter (fun e => student e =? student_id found) (Enrollment_objects db)) in
      Rendered "students/student_detail.html"
               {| single_student_var_for_looping := found;
                  enrollments_var_for_looping := enrollments |}
  | DoesNotExist => Http404
  | MultipleObjectsReturned => Uncaught "MultipleObjectsReturned"
  end.

(** The template context of [ReportsView]. *)
Record ReportsContext : Type := mkReportsContext {
  rctx_students_per_section : list (string * string * nat);
  rctx_enrolls_per_section : list (string * nat * nat)
}.

(** [ReportsView.get_context_data] *)
Definition ReportsView_get_context_data (db : Database) : ReportsContext :=
  {| rctx_students_per_section := students_per_section db;
     rctx_enrolls_per_section := enrollments_per_section db |}.

End Pages.

(* ================================================================== *)
(** ** Python values at run time: lookups that can raise *)

Module Py.

Inductive Error : Type :=
| KeyError (key : string)
| TypeError (message : string)
| AttributeError (message : string).

Inductive Result (A : Type) : Type :=
| Ok (a : A)
| Raised (e : Error).
Arguments Ok {A} a.
Arguments Raised {A} e.

Definition bind {A B : Type} (m : Result A) (k : A -> Result B) : Result B :=
  match m with
  | Ok a => k a
  | Raised e => Raised e
  end.

(** A list comprehension [[f(r) for r in items]]: the first element on
    which [f] raises ends it. *)
Fixpoint comprehension {A B : Type} (f : A -> Result B) (items : list A)
  : Result (list B) :=
  match items with
  | [] => Ok []
  | r :: rest =>
      bind (f r) (fun b => bind (comprehension f rest) (fun bs => Ok (b :: bs)))
  end.

(** [obj.get(key, default)] *)
Definition get_default (key : string) (default : JSON) (obj : JSON) : Result JSON :=
  match obj with
  | JDict members =>
      Ok (match assoc key members with Some v => v | None => default end)
  | _ => Raised (AttributeError "object has no attribute 'get'")
  end.

Fixpoint characters (s : string) : list JSON :=
  match s with
  | EmptyString => []
  | String c r => JStr (String c EmptyString) :: characters r
  end.

(** What [for r in obj] goes through: the items of a list, the keys of a
    [dict], the characters of a [str]. *)
Definition iterate (obj : JSON) : Result (list JSON) :=
  match obj with
  | JList items => Ok items
  | JDict members => Ok (map (fun kv => JStr (fst kv)) members)
  | JStr s => Ok (characters s)
  | _ => Raised (TypeError "object is not iterable")
  end.

(** [r[key]] for a [str] key. *)
Definition getitem (key : string) (r : JSON) : Result JSON :=
  match r with
  | JDict members =>
      match assoc key members with
      | Some v => Ok v
      | None => Raised (KeyError key)
      end
  | JStr _ => Raised (TypeError "string indices must be integers")
  | JList _ => Raised (TypeError "list indices must be integers or slices, not str")
  | _ => Raised (TypeError "object is not subscriptable")
  end.

End Py.

(* ================================================================== *)
(** ** students/views.py: the data of the enrollments chart *)

Module Charts.
Import Py.

(** The three series that [enrollments_chart_png] draws. *)
Record Series : Type := mkSeries {
  labels : list JSON;
  all_counts : list JSON;
  active_counts : list JSON
}.

(** Step 2 of [enrollments_chart_png]: from the payload of the JSON API
    to the lists handed to matplotlib (the drawing itself is not
    modelled).  [payload] is what [json.load(resp)] returned. *)
Definition enrollments_chart_series (payload : JSON) : Result Series :=
  bind (get_default "results" (JList []) payload) (fun rows =>
  bind (bind (iterate rows) (comprehension (getitem "code"))) (fun labels =>
  bind (bind (iterate rows) (comprehension (getitem "n_all"))) (fun all_counts =>
  bind (bind (iterate rows) (comprehension (getitem "n_active"))) (fun active_counts =>
  Ok (mkSeries labels all_counts active_counts))))).

End Charts.

(* ================================================================== *)
(** ** students/forms.py *)

Module Forms.

(** [StudentForm.clean_first_name]: [self.cleaned_data["first_name"].strip()],
    on the value the field validation left in [cleaned_data]. *)
Definition clean_first_name (first_name : string) : string := Text.strip first_name.

(** [StudentForm.clean_last_name] *)
Definition clean_last_name (last_name : string) : string := Text.strip last_name.

End Forms.

(* ================================================================== *)
(** ** illinois/urls.py and students/urls.py *)

Module Urls.

(** The views that the URL patterns name. *)
Inductive View : Type :=
| V_redirect_root_view | V_admin
| V_StudentListView | V_SectionListView | V_EnrollmentListView | V_StudentDetail
| V_section_counts_chart | V_feedback_view | V_add_student | V_StudentCreateView
| V_api_ping_jsonresponse_1 | V_api_ping_jsonresponse_2 | V_api_ping_httpresponse_1
| V_api_students | V_api_students_per_section | V_api_enrollments_per_section
| V_StudentsAPI | V_EnrollmentsChartPage | V_enrollments_chart_png | V_WeatherNow
| V_ReportsView | V_export_students_csv | V_export_students_json | V_VegaLiteAPI.

(** A route is text with converters in it; the only converter used is
    [<int:name>]. *)
Inductive Segment : Type :=
| Literal (text : string)
| IntConverter (parameter : string).

(** [path(route, view, name=...)] *)
Record URLPattern : Type := path {
  route : list Segment;
  callback : View;
  pattern_name : string
}.

(** [urlpatterns] of students/urls.py. *)
Definition urlpatterns : list URLPattern :=
  [path [Literal "student/"] V_StudentListView "student-list-url";
   path [Literal "section/"] V_SectionListView "section-list-url";
   path [Literal "enrollment/"] V_EnrollmentListView "enrollment-list-url";
   path [Literal "student/"; IntConverter "primary_key"; Literal "/"]
        V_StudentDetail "student-detail-url";
   path [Literal "charts/sections.png"] V_section_counts_chart "chart-sections";
   path [Literal "feedback/"] V_feedback_view "feedback-url";
   path [Literal "function-add-student/"] V_add_student "function-add-student-url";
   path [Literal "class-add-student/"] V_StudentCreateView "class-add-student-url";
   path [Literal "api/ping-json1/"] V_api_ping_jsonresponse_1 "api-ping-json";
   path [Literal "api/ping-json2/"] V_api_ping_jsonresponse_2 "api-ping-json2";
   path [Literal "api/ping-http1/"] V_api_ping_httpresponse_1 "api-ping-http1";
   path [Literal "api/function-students/"] V_api_students "api-students";
   path [Literal "api/sections/students/"] V_api_students_per_section
        "api-students-per-section";
   path [Literal "api/sections/enrollments/"] V_api_enrollments_per_section
        "api-enrollments-per-section";
   path [Literal "api/class-students/"] V_StudentsAPI "api-students";
   path [Literal "charts/enrollments/"] V_EnrollmentsChartPage "enrollments-chart-page";
   path [Literal "charts/enrollments.png"] V_enrollments_chart_png
        "enrollments-chart-png";
   path [Literal "api/weather/"] V_WeatherNow "api-weather";
   path [Literal "reports/"] V_ReportsView "export-reports-url";
   path [Literal "export/students.csv"] V_export_students_csv "export-students-csv";
   path [Literal "export/students.json"] V_export_students_json "export-students-json";
   path [Literal "charts/vega-lite/"] V_VegaLiteAPI "chart-vega-lite"].

(** [[0-9]] *)
Definition is_digit (c : ascii) : bool :=
  ((48 <=? N_of_ascii c) && (N_of_ascii c <=? 57))%N.

(** A run of digits. *)
Fixpoint all_digits (s : string) : bool :=
  match s with
  | EmptyString => true
  | String c r => is_digit c && all_digits r
  end.

(** What follows the digits does not go on with a digit. *)
Definition no_digit_ahead (rest : string) : Prop :=
  match rest with
  | EmptyString => True
  | String c _ => is_digit c = false
  end.

(** [int(value)] on the text that [[0-9]+] matched. *)
Definition int_of_digits (digits : string) : option Z :=
  option_map Z.of_uint (NilEmpty.uint_of_string digits).

(** What is left of [s] after the literal [text], when [s] starts with it. *)
Fixpoint after_literal (text s : string) : option string :=
  match text, s with
  | EmptyString, _ => Some s
  | String a text', String b s' =>
      if Ascii.eqb a b then after_literal text' s' else None
  | String _ _, EmptyString => None
  end.

Section IntGroup.
Context {R : Type}.
(** What matching goes on with, given the converted value and the rest. *)
Variable continue : Z -> string -> option R.

(** [(?P<name>[0-9]+)] followed by the rest of the pattern: as many
    digits as possible are taken first, fewer if the rest does not match
    after them.  [taken] is the digits consumed so far. *)
Fixpoint after_digits (taken s : string) : option R :=
  match s with
  | String c s' =>
      if is_digit c then
        let taken' := (taken ++ String c EmptyString)%string in
        match after_digits taken' s' with
        | Some r => Some r
        | None =>
            match int_of_digits taken' with
            | Some n => continue n s'
            | None => None
            end
        end
      else None
  | EmptyString => None
  end.
End IntGroup.

(** The route against the whole of [s]: the keyword arguments captured,
    or [None]. *)
Fixpoint match_route (segments : list Segment) (s : string)
  : option (list (string * Z)) :=
  match segments with
  | [] => match s with EmptyString => Some [] | _ => None end
  | Literal text :: rest =>
      match after_literal text s with
      | Some s' => match_route rest s'
      | None => None
      end
  | IntConverter parameter :: rest =>
      after_digits (fun n s' => option_map (cons (parameter, n)) (match_route rest s'))
                   EmptyString s
  end.

(** The first pattern that matches wins. *)
Fixpoint first_match (patterns : list URLPattern) (s : string)
  : option (View * list (string * Z)) :=
  match patterns with
  | [] => None
  | p :: more =>
      match match_route (route p) s with
      | Some kwargs => Some (callback p, kwargs)
      | None => first_match more s
      end
  end.

(** [resolve(path)] under illinois/urls.py: the empty route goes to
    [redirect_root_view], everything under [admin/] to the admin site,
    the rest to students/urls.py.  [None] is [Resolver404]. *)
Definition resolve (url : string) : option (View * list (string * Z)) :=
  match url with
  | String "/" rest =>
      match rest with
      | EmptyString => Some (V_redirect_root_view, [])
      | _ => if Text.starts_with "admin/" rest then Some (V_admin, [])
             else first_match urlpatterns rest
      end
  | _ => None
  end.

(** The route with the keyword arguments filled in, [str] of each. *)
Fixpoint fill (segments : list Segment) (kwargs : list (string * Z)) : option string :=
  match segments with
  | [] => Some EmptyString
  | Literal text :: rest => option_map (String.append text) (fill rest kwargs)
  | IntConverter parameter :: rest =>
      match assoc parameter kwargs with
      | Some n => option_map (String.append (Text.str_of_int n)) (fill rest kwargs)
      | None => None
      end
  end.

Fixpoint parameters (segments : list Segment) : list string :=
  match segments with
  | [] => []
  | Literal _ :: rest => parameters rest
  | IntConverter parameter :: rest => parameter :: parameters rest
  end.

(** The keyword arguments name exactly the parameters of the route. *)
Definition same_names (params : list string) (kwargs : list (string * Z)) : bool :=
  forallb (fun n => existsb (String.eqb n) (map fst kwargs)) params
  && forallb (fun k => existsb (String.eqb k) params) (map fst kwargs).

(** One candidate of [reverse]: the filled-in route, kept when the
    pattern matches it. *)
Definition reverse_with (p : URLPattern) (kwargs : list (string * Z)) : option string :=
  if same_names (parameters (route p)) kwargs then
    match fill (route p) kwargs with
    | Some candidate =>
        match match_route (route p) candidate with
        | Some _ => Some (String "/" candidate)
        | None => None
        end
    | None => None
    end
  else None.

Fixpoint first_reverse (patterns : list URLPattern) (kwargs : list (string * Z))
  : option string :=
  match patterns with
  | [] => None
  | p :: more =>
      match reverse_with p kwargs with
      | Some url => Some url
      | None => first_reverse more kwargs
      end
  end.

(** [reverse(name, kwargs=kwargs)]: the patterns of that name are tried
    from the last one defined to the first.  [None] is [NoReverseMatch]. *)
Definition reverse (name : string) (kwargs : list (string * Z)) : option string :=
  first_reverse
    (rev (filter (fun p => String.eqb (pattern_name p) name) urlpatterns)) kwargs.

(** [Student.get_absolute_url] of students/models.py. *)
Definition Student_get_absolute_url (st : Student) : option string :=
  reverse "student-detail-url" [("primary_key", student_id st)].

End Urls.

(* ================================================================== *)
(** ** More writes, and writes in sequence *)

Module Writes.
Import Store.

(** [code = models.CharField(max_length=10, unique=True)] *)
Definition code_taken (db : Database) (s : Section) : bool :=
  existsb (fun x => String.eqb (code x) (code s)) (Section_objects db).

(** Saving a new Section; the key of [s] is not read. *)
Definition Section_insert (db : Database) (s : Section) : WriteResult :=
  if code_taken db s then
    Rejected (IntegrityError "UNIQUE constraint failed: students_section.code")
  else
    let pk := next_key (map section_id (Section_objects db)) in
    Written {| Section_objects :=
                 Section_objects db ++ [mkSection pk (code s) (name s) (term s)];
               Student_objects := Student_objects db;
               Enrollment_objects := Enrollment_objects db |}.

(** Deleting the Enrollment with key [pk]: nothing refers to it. *)
Definition Enrollment_delete (db : Database) (pk : Z) : WriteResult :=
  Written {| Section_objects := Section_objects db;
             Student_objects := Student_objects db;
             Enrollment_objects :=
               filter (fun e => negb (enroll_id e =? pk)) (Enrollment_objects db) |}.

Inductive Write : Type :=
| InsertSection (s : Section)
| InsertStudent (st : Student)
| InsertEnrollment (e : Enrollment)
| DeleteSection (pk : Z)
| DeleteStudent (pk : Z)
| DeleteEnrollment (pk : Z).

Definition attempt (db : Database) (w : Write) : WriteResult :=
  match w with
  | InsertSection s => Section_insert db s
  | InsertStudent st => Student_insert db st
  | InsertEnrollment e => Enrollment_insert db e
  | DeleteSection pk => Section_delete db pk
  | DeleteStudent pk => Student_delete db pk
  | DeleteEnrollment pk => Enrollment_delete db pk
  end.

(** The tables after a sequence of writes, the rejected ones leaving them
    as they were. *)
Definition run (db : Database) (ws : list Write) : Database :=
  fold_left (fun d w => state_after d (attempt d w)) ws db.

Definition empty_db : Database :=
  {| Section_objects := []; Student_objects := []; Enrollment_objects := [] |}.

(** Django declares the [AutoField] of an SQLite table [integer PRIMARY
    KEY AUTOINCREMENT]: SQLite records in [sqlite_sequence] the largest
    key the table has held, and a new row gets one more than the larger
    of that and the largest key present. *)
Definition allot (seq : Z) (keys : list Z) : Z :=
  1 + Z.max seq (fold_right Z.max 0 keys).

(** Saving a new Student under the key [pk]: the constraints of
    [students/models.py], then the new row. *)
Definition Student_insert_under (db : Database) (pk : Z) (st : Student)
  : WriteResult :=
  if email_taken db st then
    Rejected (IntegrityError "UNIQUE constraint failed: students_student.email")
  else if name_in_section_taken db st then
    Rejected (IntegrityError "UNIQUE constraint failed: uniq_student_name_in_section")
  else if negb (section_exists db (section st)) then
    Rejected (IntegrityError "FOREIGN KEY constraint failed")
  else
    Written {| Section_objects := Section_objects db;
               Student_objects :=
                 Student_objects db ++
                 [mkStudent pk (first_name st) (last_name st) (nickname st)
                            (email st) (section st)];
               Enrollment_objects := Enrollment_objects db |}.

(** The tables with the entry of [sqlite_sequence] for the Student
    table. *)
Record Sequenced : Type := mkSequenced {
  tables : Database;
  student_seq : Z
}.

Inductive SaveResult : Type :=
| Saved (s : Sequenced)
| NotSaved (e : DbError).

(** Saving a new Student; the key of [st] is not read.  A rejected save
    is rolled back, [sqlite_sequence] included. *)
Definition Student_save (s : Sequenced) (st : Student) : SaveResult :=
  let pk := allot (student_seq s) (map student_id (Student_objects (tables s))) in
  match Student_insert_under (tables s) pk st with
  | Written db => Saved (mkSequenced db pk)
  | Rejected e => NotSaved e
  end.

(** Deleting the Student with key [pk]; [sqlite_sequence] stays. *)
Definition Student_remove (s : Sequenced) (pk : Z) : Sequenced :=
  mkSequenced (state_after (tables s) (Student_delete (tables s) pk))
              (student_seq s).

End Writes.

(* ================================================================== *)
(** ** What the schema of students/models.py promises of the tables *)

Module Integrity.

Definition name_in_section (st : Student) : string * string * Z :=
  (first_name st, last_name st, section st).

Definition student_in_section (e : Enrollment) : Z * Z :=
  (student e, enr_section e).

(** Primary keys, [unique=True], the two [UniqueConstraint]s and the
    three foreign keys. *)
Record consistent (db : Database) : Prop := mkConsistent {
  section_keys : NoDup (map section_id (Section_objects db));
  section_codes : NoDup (map code (Section_objects db));
  student_keys : NoDup (map student_id (Student_objects db));
  student_emails : NoDup (map email (Student_objects db));
  student_names : NoDup (map name_in_section (Student_objects db));
  student_sections :
    forall st, In st (Student_objects db) ->
               exists sec, In sec (Section_objects db) /\ section_id sec = section st;
  enrollment_keys : NoDup (map enroll_id (Enrollment_objects db));
  enrollment_pairs : NoDup (map student_in_section (Enrollment_objects db));
  enrollment_students :
    forall e, In e (Enrollment_objects db) ->
              exists st, In st (Student_objects db) /\ student_id st = student e;
  enrollment_sections :
    forall e, In e (Enrollment_objects db) ->
              exists sec, In sec (Section_objects db) /\ section_id sec = enr_section e
}.

(** Every Enrollment row refers to exactly one Section row. *)
Definition enrollments_have_sections (db : Database) : Prop :=
  NoDup (map section_id (Section_objects db)) /\
  forall e, In e (Enrollment_objects db) ->
            exists sec, In sec (Section_objects db) /\ section_id sec = enr_section e.

(** Every Enrollment row refers to exactly one Student row. *)
Definition enrollments_have_students (db : Database) : Prop :=
  NoDup (map student_id (Student_objects db)) /\
  forall e, In e (Enrollment_objects db) ->
            exists st, In st (Student_objects db) /\ student_id st = student e.

End Integrity.

(* ================================================================== *)
(** ** Shapes of text *)

Module TextProps.

(** A string of whitespace only. *)
Fixpoint blank (s : string) : bool :=
  match s with
  | EmptyString => true
  | String c r => Text.isspace c && blank r
  end.

(** The text neither starts nor ends with whitespace. *)
Definition trimmed (s : string) : Prop :=
  match s with
  | EmptyString => True
  | String c _ => Text.isspace c = false
  end /\
  forall before c, s = (before ++ String c EmptyString)%string -> Text.isspace c = false.

End TextProps.

(* ================================================================== *)
(** ** Example databases *)

Module Fixtures.

(** The scenario of the specification: Section [CS101-A] with two
    Students, the first with one active and one inactive Enrollment, the
    second with one active Enrollment. *)
Definition scenario_db : Database :=
  {| Section_objects := [mkSection 1 "CS101-A" "Intro to CS - A" "Fall 2025"];
     Student_objects :=
       [mkStudent 1 "Alice" "Johnson" "" "alice@example.com" 1;
        mkStudent 2 "Bob" "Smith" "" "bob@example.com" 1];
     Enrollment_objects :=
       [mkEnrollment 1 1 1 0 true;
        mkEnrollment 2 1 1 0 false;
        mkEnrollment 3 2 1 0 true] |}.

(** A database with a second Section that nothing refers to. *)
Definition scenario_with_empty_section : Database :=
  {| Section_objects := mkSection 2 "CS100-B" "Seminar" "" :: Section_objects scenario_db;
     Student_objects := Student_objects scenario_db;
     Enrollment_objects := Enrollment_objects scenario_db |}.

Definition cs101 : Section := mkSection 1 "CS101-A" "Intro to CS - A" "Fall 2025".

Definition ann : Student := mkStudent 1 "Ann" "Lee" "" "ann@example.com" 1.

Definition bo : Student := mkStudent 2 "Bo" "Adams" "Annie" "bo@example.com" 1.

(** One Section with two Students: the query [ann] finds Ann by her first
    name and Bo by his nickname. *)
Definition roster_db : Database :=
  {| Section_objects := [cs101];
     Student_objects := [ann; bo];
     Enrollment_objects := [mkEnrollment 1 1 1 0 true] |}.

Definition cy : Student := mkStudent 3 "Cy" "Young" "" "cy@example.com" 1.

(** [roster_db] with a third Student, whom the query [ann] does not
    find. *)
Definition search_db : Database :=
  {| Section_objects := [cs101];
     Student_objects := [ann; bo; cy];
     Enrollment_objects := [mkEnrollment 1 1 1 0 true] |}.





(** Three Sections, two of them without a term. *)
Definition term_db : Database :=
  {| Section_objects :=
       [mkSection 1 "A1" "Lab" "";
        mkSection 2 "B1" "Lecture" "Fall 2025";
        mkSection 3 "C1" "Seminar" ""];
     Student_objects :=
       [mkStudent 1 "Ann" "Lee" "" "ann@example.com" 1;
        mkStudent 2 "Bo" "Adams" "" "bo@example.com" 1;
        mkStudent 3 "Cy" "Young" "" "cy@example.com" 3;
        mkStudent 4 "Di" "Zed" "" "di@example.com" 2];
     Enrollment_objects := [] |}.

Definition noon : Exports.datetime := Exports.mkDatetime 2025 10 12 12 0 0.

(** What Open-Meteo answers, cut down to two members. *)
Definition forecast : JSON :=
  JDict [("latitude", JFloat "40.11");
         ("current_weather",
          JDict [("temperature", JFloat "22.0"); ("weathercode", JInt 0)])].

Definition forecast_url : string := "https://api.open-meteo.com/v1/forecast".

End Fixtures.

(* ================================================================== *)
(** ** Facts about the SQL operators *)

Module OrmFacts.
Import Orm.

Section OrderBy.
Context {R : Type}.
Variable le : R -> R -> bool.

Lemma insert_row_perm (x : R) (l : list R) :
  Permutation (insert_row le x l) (x :: l).
Proof.
  induction l as [|y t IH]; simpl.
  - apply Permutation_refl.
  - destruct (le x y).
    + apply Permutation_refl.
    + eapply perm_trans; [apply perm_skip, IH | apply perm_swap].
Qed.

Lemma order_by_perm (l : list R) : Permutation (order_by le l) l.
Proof.
  induction l as [|x t IH]; simpl.
  - constructor.
  - eapply perm_trans; [apply insert_row_perm | apply perm_skip, IH].
Qed.

Lemma order_by_In (l : list R) (x : R) : In x (order_by le l) <-> In x l.
Proof.
  split; apply Permutation_in;
    [apply order_by_perm | apply Permutation_sym, order_by_perm].
Qed.

Lemma order_by_length (l : list R) : List.length (order_by le l) = List.length l.
Proof. apply Permutation_length, order_by_perm. Qed.

Hypothesis le_total : forall a b, le a b = true \/ le b a = true.

Let leP (a b : R) : Prop := le a b = true.

Lemma insert_row_hdrel (x a : R) (l : list R) :
  le a x = true -> HdRel leP a l -> HdRel leP a (insert_row le x l).
Proof.
  intros Hax Hl. destruct l as [|y t]; simpl.
  - constructor. exact Hax.
  - destruct (le x y); constructor; [exact Hax|].
    inversion Hl; assumption.
Qed.

Lemma insert_row_sorted (x : R) (l : list R) :
  Sorted leP l -> Sorted leP (insert_row le x l).
Proof.
  induction l as [|y t IH]; simpl; intros Hs.
  - repeat constructor.
  - destruct (le x y) eqn:Hxy.
    + constructor; [exact Hs | constructor; exact Hxy].
    + inversion Hs as [|? ? Ht Hhd]; subst.
      constructor; [apply IH; exact Ht|].
      apply insert_row_hdrel; [|exact Hhd].
      destruct (le_total x y) as [H|H]; [congruence | exact H].
Qed.

Lemma order_by_sorted (l : list R) : Sorted leP (order_by le l).
Proof.
  induction l as [|x t IH]; simpl.
  - constructor.
  - apply insert_row_sorted, IH.
Qed.
End OrderBy.

(** A list sorted on a key projects to a sorted list of keys. *)
Lemma Sorted_map {A B : Type} (f : A -> B) (leB : B -> B -> Prop) (l : list A) :
  Sorted (fun a b => leB (f a) (f b)) l -> Sorted leB (map f l).
Proof.
  induction 1 as [|a l Hs IH Hhd]; simpl; constructor; [exact IH|].
  destruct Hhd; simpl; constructor; assumption.
Qed.

Section LeftJoin.
Context {A B : Type}.
Variable on : A -> B -> bool.
Variable A_eq_dec : forall x y : A, {x = y} + {x <> y}.

Lemma left_join_cons (a : A) (l : list A) (r : list B) :
  left_join on (a :: l) r = joined_rows on r a ++ left_join on l r.
Proof. reflexivity. Qed.

Lemma joined_rows_fst (r : list B) (a : A) (x : A * option B) :
  In x (joined_rows on r a) -> fst x = a.
Proof.
  unfold joined_rows. destruct (filter (on a) r) as [|b m].
  - simpl. intros [<-|[]]. reflexivity.
  - intros Hin. apply in_map_iff in Hin. destruct Hin as [b' [<- _]]. reflexivity.
Qed.

Lemma joined_rows_nonempty (r : list B) (a : A) : joined_rows on r a <> [].
Proof.
  unfold joined_rows. destruct (filter (on a) r); simpl; discriminate.
Qed.

Lemma joined_rows_Some (r : list B) (a : A) (x : A) (b : B) :
  In (x, Some b) (joined_rows on r a) -> In b r /\ on a b = true.
Proof.
  unfold joined_rows. destruct (filter (on a) r) as [|b0 m] eqn:Hf.
  - simpl. intros [H|[]]. discriminate H.
  - intros Hin. apply in_map_iff in Hin. destruct Hin as [b' [Heq Hb']].
    inversion Heq; subst. rewrite <- Hf in Hb'.
    apply filter_In in Hb'. exact Hb'.
Qed.

(** [COUNT] of the joined column over the rows of one left row is the
    number of matches. *)
Lemma joined_rows_count {C : Type} (col : B -> C) (r : list B) (a : A) :
  Count (fun x : A * option B => option_map col (snd x)) (joined_rows on r a)
  = List.length (filter (on a) r).
Proof.
  unfold Count, joined_rows. destruct (filter (on a) r) as [|b m].
  - reflexivity.
  - generalize (b :: m). intros l. induction l as [|y t IH]; simpl.
    + reflexivity.
    + f_equal. exact IH.
Qed.

Lemma left_join_fst (l : list A) (r : list B) (x : A * option B) :
  In x (left_join on l r) -> In (fst x) l.
Proof.
  induction l as [|a l IH].
  - intros [].
  - rewrite left_join_cons. intros Hin.
    apply in_app_or in Hin. destruct Hin as [Hin|Hin].
    + left. symmetry. eapply joined_rows_fst. exact Hin.
    + right. apply IH. exact Hin.
Qed.

Lemma left_join_covers (l : list A) (r : list B) (a : A) :
  In a l -> In a (map fst (left_join on l r)).
Proof.
  induction l as [|a0 l IH].
  - intros [].
  - intros [->|Hin]; rewrite left_join_cons, map_app; apply in_or_app.
    + left. pose proof (joined_rows_nonempty r a) as Hne.
      pose proof (joined_rows_fst r a) as Hfst.
      destruct (joined_rows on r a) as [|x t]; [congruence|].
      simpl. left. apply Hfst. left. reflexivity.
    + right. apply IH. exact Hin.
Qed.

Lemma left_join_Some (l : list A) (r : list B) (a : A) (b : B) :
  In (a, Some b) (left_join on l r) -> In a l /\ In b r /\ on a b = true.
Proof.
  induction l as [|a0 l IH].
  - intros [].
  - rewrite left_join_cons. intros Hin.
    apply in_app_or in Hin. destruct Hin as [Hin|Hin].
    + pose proof (joined_rows_fst _ _ _ Hin) as Hfst. simpl in Hfst. subst a0.
      apply joined_rows_Some in Hin. simpl. tauto.
    + apply IH in Hin. simpl. tauto.
Qed.

Lemma filter_key_absent (l : list A) (r : list B) (k : A) :
  ~ In k l -> filter (has_key A_eq_dec fst k) (left_join on l r) = [].
Proof.
  intros Hk.
  assert (H : forall x, In x (left_join on l r) -> has_key A_eq_dec fst k x = false).
  { intros x Hx. unfold has_key. destruct (A_eq_dec (fst x) k) as [e|]; [|reflexivity].
    exfalso. apply Hk. rewrite <- e. eapply left_join_fst. exact Hx. }
  induction (left_join on l r) as [|x t IH]; simpl; [reflexivity|].
  rewrite (H x (or_introl eq_refl)). apply IH.
  intros y Hy. apply H. right. exact Hy.
Qed.

Lemma filter_key_joined_rows_same (r : list B) (k : A) :
  filter (has_key A_eq_dec fst k) (joined_rows on r k) = joined_rows on r k.
Proof.
  pose proof (joined_rows_fst r k) as H.
  induction (joined_rows on r k) as [|x t IH]; simpl; [reflexivity|].
  unfold has_key at 1. destruct (A_eq_dec (fst x) k) as [|n].
  - f_equal. apply IH. intros y Hy. apply H. right. exact Hy.
  - exfalso. apply n, H. left. reflexivity.
Qed.

Lemma filter_key_joined_rows_other (r : list B) (a k : A) :
  a <> k -> filter (has_key A_eq_dec fst k) (joined_rows on r a) = [].
Proof.
  intros Hak. pose proof (joined_rows_fst r a) as H.
  induction (joined_rows on r a) as [|x t IH]; simpl; [reflexivity|].
  unfold has_key at 1. destruct (A_eq_dec (fst x) k) as [e|].
  - exfalso. apply Hak. rewrite <- e. symmetry. apply H. left. reflexivity.
  - apply IH. intros y Hy. apply H. right. exact Hy.
Qed.

(** In a join over distinct left rows, the group of a left row is
    exactly what that row contributed. *)
Lemma filter_key_left_join (l : list A) (r : list B) (k : A) :
  NoDup l -> In k l ->
  filter (has_key A_eq_dec fst k) (left_join on l r) = joined_rows on r k.
Proof.
  induction l as [|a l IH]; intros Hnd Hin.
  - destruct Hin.
  - rewrite left_join_cons, filter_app.
    inversion Hnd as [|? ? Hnotin Hnd']; subst.
    destruct (A_eq_dec a k) as [->|Hne].
    + rewrite filter_key_joined_rows_same, filter_key_absent by exact Hnotin.
      apply app_nil_r.
    + rewrite filter_key_joined_rows_other by exact Hne.
      simpl. apply IH; [exact Hnd'|].
      destruct Hin as [e|Hin]; [contradiction|exact Hin].
Qed.

Lemma joined_rows_count_filter {C : Type} (col : B -> C)
      (Q : A * option B -> bool) (q : B -> bool) (r : list B) (a : A) :
  (forall x b, Q (x, Some b) = q b) -> (forall x, Q (x, None) = false) ->
  Count_filter (fun x : A * option B => option_map col (snd x)) Q (joined_rows on r a)
  = List.length (filter q (filter (on a) r)).
Proof.
  intros HSome HNone. unfold Count_filter, Count, joined_rows.
  destruct (filter (on a) r) as [|b m].
  - simpl. rewrite HNone. reflexivity.
  - generalize (b :: m). intros l. induction l as [|y t IH]; simpl.
    + reflexivity.
    + rewrite HSome. destruct (q y); simpl; [f_equal|]; exact IH.
Qed.

Lemma left_join_keys (l : list A) (r : list B) :
  NoDup l -> Permutation (nodup A_eq_dec (map fst (left_join on l r))) l.
Proof.
  intros Hnd. apply NoDup_Permutation; [apply NoDup_nodup | exact Hnd |].
  intros a. rewrite nodup_In. split.
  - intros Hin. apply in_map_iff in Hin. destruct Hin as [x [<- Hx]].
    eapply left_join_fst. exact Hx.
  - apply left_join_covers.
Qed.

(** Grouping a join over distinct left rows by the left row gives, up
    to order, one group per left row: its own joined rows. *)
Lemma group_by_left_join {X : Type} (F : A -> list (A * option B) -> X)
      (l : list A) (r : list B) :
  NoDup l ->
  Permutation
    (map (fun g => F (fst g) (snd g)) (group_by A_eq_dec fst (left_join on l r)))
    (map (fun a => F a (joined_rows on r a)) l).
Proof.
  intros Hnd. unfold group_by. rewrite map_map. simpl.
  rewrite (map_ext_in _ (fun a => F a (joined_rows on r a))).
  - apply Permutation_map, left_join_keys, Hnd.
  - intros k Hk. f_equal.
    apply (filter_key_left_join l r k Hnd).
    apply nodup_In in Hk. apply in_map_iff in Hk.
    destruct Hk as [x [<- Hx]]. eapply left_join_fst. exact Hx.
Qed.
End LeftJoin.

Section LeftJoinKeyed.
Context {A B K : Type}.
Variable on : A -> B -> bool.
Variable K_eq_dec : forall x y : K, {x = y} + {x <> y}.
Variable k : A -> K.

Let row_key (x : A * option B) : K := k (fst x).

Lemma filter_row_key_joined_rows (r : list B) (a : A) (t : K) :
  filter (has_key K_eq_dec row_key t) (joined_rows on r a)
  = if K_eq_dec (k a) t then joined_rows on r a else [].
Proof.
  pose proof (joined_rows_fst on r a) as H.
  induction (joined_rows on r a) as [|x rows IH].
  - destruct (K_eq_dec (k a) t); reflexivity.
  - pose proof (H x (or_introl eq_refl)) as Hx.
    destruct x as [a' ob]. simpl in Hx. subst a'.
    simpl. rewrite IH by (intros y Hy; apply H; right; exact Hy).
    unfold has_key, row_key. simpl.
    destruct (K_eq_dec (k a) t); reflexivity.
Qed.

Lemma Count_app {R C : Type} (col : R -> option C) (l1 l2 : list R) :
  Count col (l1 ++ l2) = (Count col l1 + Count col l2)%nat.
Proof. unfold Count. rewrite filter_app. apply length_app. Qed.

(** [COUNT] of the joined column over the group of key [t] adds up the
    matches of the left rows with that key. *)
Lemma count_group_of_key {C : Type} (col : B -> C) (l : list A) (r : list B) (t : K) :
  Count (fun x : A * option B => option_map col (snd x))
        (filter (has_key K_eq_dec row_key t) (left_join on l r))
  = list_sum (map (fun a => List.length (filter (on a) r))
                  (filter (fun a => if K_eq_dec (k a) t then true else false) l)).
Proof.
  induction l as [|a l IH].
  - reflexivity.
  - rewrite left_join_cons, filter_app, Count_app, IH, filter_row_key_joined_rows.
    simpl. destruct (K_eq_dec (k a) t).
    + simpl. f_equal. apply joined_rows_count.
    + reflexivity.
Qed.

Lemma left_join_row_keys (l : list A) (r : list B) (t : K) :
  In t (map row_key (left_join on l r)) <-> exists a, In a l /\ k a = t.
Proof.
  split.
  - intros Hin. apply in_map_iff in Hin. destruct Hin as [x [<- Hx]].
    exists (fst x). split; [eapply left_join_fst; exact Hx | reflexivity].
  - intros [a [Ha <-]]. apply (left_join_covers on l r) in Ha.
    apply in_map_iff in Ha. destruct Ha as [x [<- Hx]].
    apply in_map_iff. exists x. split; [reflexivity | exact Hx].
Qed.
End LeftJoinKeyed.

Section GroupBy.
Context {R K : Type}.
Variable K_eq_dec : forall x y : K, {x = y} + {x <> y}.
Variable key : R -> K.

Lemma group_by_keys (rows : list R) :
  map fst (group_by K_eq_dec key rows) = nodup K_eq_dec (map key rows).
Proof.
  unfold group_by. rewrite map_map. simpl. apply map_id.
Qed.

Lemma group_by_In (rows : list R) (k : K) (g : list R) :
  In (k, g) (group_by K_eq_dec key rows) <->
  In k (map key rows) /\
  g = filter (has_key K_eq_dec key k) rows.
Proof.
  unfold group_by. rewrite in_map_iff. split.
  - intros [k' [Heq Hin]]. inversion Heq; subst.
    apply nodup_In in Hin. split; [exact Hin | reflexivity].
  - intros [Hin ->]. exists k. split; [reflexivity|].
    apply nodup_In. exact Hin.
Qed.
End GroupBy.

End OrmFacts.

(* ================================================================== *)
(** ** Per-section aggregation *)

Module Aggregation.
Import Text Orm Queries Views OrmFacts Spec Fixtures.

Lemma text_le_total (a b : string) : text_le a b = true \/ text_le b a = true.
Proof. apply String.leb_total. Qed.

Lemma NoDup_of_keys {A K : Type} (key : A -> K) (l : list A) :
  NoDup (map key l) -> NoDup l.
Proof.
  induction l as [|a l IH]; simpl; intros H; [constructor|].
  inversion H as [|? ? Hn Hnd]; subst. constructor; [|apply IH; exact Hnd].
  intros Hin. apply Hn, in_map. exact Hin.
Qed.

Lemma students_per_section_code_perm (db : Database) :
  NoDup (map section_id (Section_objects db)) ->
  Permutation (students_per_section_code db)
              (map (fun s => (code s, n_students_of db s)) (Section_objects db)).
Proof.
  intros Hpk. apply NoDup_of_keys in Hpk.
  unfold students_per_section_code.
  eapply perm_trans; [apply order_by_perm|].
  unfold section_related_name.
  eapply perm_trans.
  - apply (group_by_left_join _ Section_eq_dec
             (fun s rows => (code s, Count joined_student rows))). exact Hpk.
  - erewrite map_ext; [apply Permutation_refl|].
    intros s. simpl. f_equal. unfold joined_student, n_students_of.
    apply (joined_rows_count (fun sec st => section st =? section_id sec) student_id).
Qed.

Lemma enrollments_per_section_perm (db : Database) :
  NoDup (map section_id (Section_objects db)) ->
  Permutation (enrollments_per_section db)
              (map (fun s => (code s, n_all_of db s, n_active_of db s))
                   (Section_objects db)).
Proof.
  intros Hpk. apply NoDup_of_keys in Hpk.
  unfold enrollments_per_section.
  eapply perm_trans; [apply order_by_perm|].
  unfold enrollments_related_name.
  eapply perm_trans.
  - apply (group_by_left_join _ Section_eq_dec
             (fun s rows => (code s, Count joined_enrollment rows,
                             Count_filter joined_enrollment Q_is_active rows))).
    exact Hpk.
  - erewrite map_ext; [apply Permutation_refl|].
    intros s. simpl. unfold joined_enrollment, n_all_of, n_active_of.
    rewrite (joined_rows_count (fun sec e => enr_section e =? section_id sec) enroll_id).
    rewrite (joined_rows_count_filter (fun sec e => enr_section e =? section_id sec)
               enroll_id Q_is_active is_active); reflexivity.
Qed.

Lemma students_per_section_code_sorted (db : Database) :
  Sorted ascending (map fst (students_per_section_code db)).
Proof.
  apply Sorted_map. unfold students_per_section_code.
  apply (order_by_sorted (fun a b : string * nat => text_le (fst a) (fst b))).
  intros a b. apply text_le_total.
Qed.

Lemma enrollments_per_section_sorted (db : Database) :
  Sorted ascending (map (fun r => fst (fst r)) (enrollments_per_section db)).
Proof.
  apply (Sorted_map (fun r : string * nat * nat => fst (fst r))).
  unfold enrollments_per_section.
  apply (order_by_sorted (fun a b : string * nat * nat => text_le (fst (fst a)) (fst (fst b)))).
  intros a b. apply text_le_total.
Qed.

Lemma Count_none {R C : Type} (col : R -> option C) (rows : list R) :
  (forall r, In r rows -> col r = None) -> Count col rows = 0%nat.
Proof.
  unfold Count. induction rows as [|r t IH]; simpl; intros H; [reflexivity|].
  rewrite (H r (or_introl eq_refl)). apply IH.
  intros x Hx. apply H. right. exact Hx.
Qed.

(** The group of a left row nothing matches holds NULLs only. *)
Lemma unmatched_group_null {B : Type} (on : Section -> B -> bool)
      (secs : list Section) (r : list B) (s : Section) :
  (forall b, In b r -> on s b = false) ->
  forall x, In x (filter (has_key Section_eq_dec fst s) (left_join on secs r)) ->
            snd x = None.
Proof.
  intros Hno [a [b|]] Hx; [exfalso|reflexivity].
  apply filter_In in Hx. destruct Hx as [Hin Hkey].
  unfold has_key in Hkey. simpl in Hkey.
  destruct (Section_eq_dec a s) as [->|]; [|discriminate].
  apply left_join_Some in Hin. destruct Hin as [_ [Hb Hon]].
  rewrite (Hno b Hb) in Hon. discriminate.
Qed.

Lemma group_of_section {B : Type} (on : Section -> B -> bool)
      (secs : list Section) (r : list B) (s : Section) :
  In s secs ->
  In (s, filter (has_key Section_eq_dec fst s) (left_join on secs r))
     (group_by Section_eq_dec fst (left_join on secs r)).
Proof.
  intros Hs. apply group_by_In. split; [|reflexivity].
  apply left_join_covers. exact Hs.
Qed.

(** ** C1 *)

(** C1.  When the Section keys are distinct, the two per-section
    endpoints report one entry per Section, in ascending order of the
    code: [api_students_per_section] pairs each code with the number of
    Students whose [section] is that Section, and
    [api_enrollments_per_section] gives for each code the number of
    Enrollments whose [section] is that Section ([n_all]) and the number
    of those with [is_active] true ([n_active]). *)
Theorem per_section_counts (request : HttpRequest) (db : Database) :
  NoDup (map section_id (Section_objects db)) ->
  exists (rows : list (string * nat)) (erows : list (string * nat * nat)),
    api_students_per_section request db =
      JsonResponse_ok (JDict [("labels", JList (map JStr (map fst rows)));
                              ("counts", JList (map JInt_of_nat (map snd rows)))]) /\
    api_enrollments_per_section request db =
      JsonResponse_ok (JDict [("results", JList (map values_enrollments erows))]) /\
    Permutation rows
      (map (fun s => (code s, n_students_of db s)) (Section_objects db)) /\
    Permutation erows
      (map (fun s => (code s, n_all_of db s, n_active_of db s)) (Section_objects db)) /\
    Sorted ascending (map fst rows) /\
    Sorted ascending (map (fun r => fst (fst r)) erows).
Proof.
  intros Hpk.
  exists (students_per_section_code db), (enrollments_per_section db).
  split; [reflexivity|]. split; [reflexivity|].
  split; [apply students_per_section_code_perm; exact Hpk|].
  split; [apply enrollments_per_section_perm; exact Hpk|].
  split; [apply students_per_section_code_sorted
         | apply enrollments_per_section_sorted].
Qed.

Lemma per_section_counts_scenario :
  api_students_per_section (mkRequest []) scenario_db =
    JsonResponse_ok (JDict [("labels", JList [JStr "CS101-A"]);
                            ("counts", JList [JInt 2])]) /\
  api_enrollments_per_section (mkRequest []) scenario_db =
    JsonResponse_ok (JDict [("results",
                             JList [JDict [("code", JStr "CS101-A");
                                           ("n_all", JInt 3);
                                           ("n_active", JInt 2)]])]) /\
  exists (rows : list (string * nat)) (erows : list (string * nat * nat)),
    api_students_per_section (mkRequest []) scenario_db =
      JsonResponse_ok (JDict [("labels", JList (map JStr (map fst rows)));
                              ("counts", JList (map JInt_of_nat (map snd rows)))]) /\
    api_enrollments_per_section (mkRequest []) scenario_db =
      JsonResponse_ok (JDict [("results", JList (map values_enrollments erows))]) /\
    Permutation rows
      (map (fun s => (code s, n_students_of scenario_db s))
           (Section_objects scenario_db)) /\
    Permutation erows
      (map (fun s => (code s, n_all_of scenario_db s, n_active_of scenario_db s))
           (Section_objects scenario_db)) /\
    Sorted ascending (map fst rows) /\
    Sorted ascending (map (fun r => fst (fst r)) erows).
Proof.
  split; [reflexivity|]. split; [reflexivity|].
  apply (per_section_counts (mkRequest []) scenario_db).
  simpl. constructor; [intros []|constructor].
Defined.

(** ** C2 *)

(** C2.  A Section that no Student and no Enrollment refers to is
    still reported by both per-section endpoints, with [n_students],
    [n_all] and [n_active] equal to 0. *)
Theorem unreferenced_section_reported_with_zero
        (request : HttpRequest) (db : Database) (s : Section) :
  In s (Section_objects db) ->
  (forall st, In st (Student_objects db) -> section st <> section_id s) ->
  (forall e, In e (Enrollment_objects db) -> enr_section e <> section_id s) ->
  exists (rows : list (string * nat)) (erows : list (string * nat * nat)),
    api_students_per_section request db =
      JsonResponse_ok (JDict [("labels", JList (map JStr (map fst rows)));
                              ("counts", JList (map JInt_of_nat (map snd rows)))]) /\
    api_enrollments_per_section request db =
      JsonResponse_ok (JDict [("results", JList (map values_enrollments erows))]) /\
    In (code s, 0%nat) rows /\
    In (code s, 0%nat, 0%nat) erows.
Proof.
  intros Hs Hst He.
  exists (students_per_section_code db), (enrollments_per_section db).
  split; [reflexivity|]. split; [reflexivity|]. split.
  - unfold students_per_section_code. apply order_by_In. apply in_map_iff.
    eexists. split; [|apply group_of_section; exact Hs].
    simpl. f_equal. apply Count_none. intros x Hx. unfold joined_student.
    erewrite unmatched_group_null; [reflexivity| |exact Hx].
    intros st Hin. apply Z.eqb_neq. apply Hst. exact Hin.
  - unfold enrollments_per_section. apply order_by_In. apply in_map_iff.
    eexists. split; [|apply group_of_section; exact Hs].
    assert (Hnull : forall x,
               In x (filter (has_key Section_eq_dec fst s) (enrollments_related_name db)) ->
               snd x = None).
    { apply unmatched_group_null. intros e Hin. apply Z.eqb_neq. apply He. exact Hin. }
    simpl. f_equal; [f_equal|].
    + apply Count_none. intros x Hx. unfold joined_enrollment.
      rewrite (Hnull x Hx). reflexivity.
    + unfold Count_filter. apply Count_none. intros x Hx. unfold joined_enrollment.
      apply filter_In in Hx. rewrite (Hnull x (proj1 Hx)). reflexivity.
Qed.

Lemma unreferenced_section_reported_with_zero_example :
  exists (rows : list (string * nat)) (erows : list (string * nat * nat)),
    api_students_per_section (mkRequest []) scenario_with_empty_section =
      JsonResponse_ok (JDict [("labels", JList (map JStr (map fst rows)));
                              ("counts", JList (map JInt_of_nat (map snd rows)))]) /\
    api_enrollments_per_section (mkRequest []) scenario_with_empty_section =
      JsonResponse_ok (JDict [("results", JList (map values_enrollments erows))]) /\
    In ("CS100-B", 0%nat) rows /\
    In ("CS100-B", 0%nat, 0%nat) erows.
Proof.
  apply (unreferenced_section_reported_with_zero
           (mkRequest []) scenario_with_empty_section
           (mkSection 2 "CS100-B" "Seminar" "")).
  - simpl. left. reflexivity.
  - simpl. intros st [<-|[<-|[]]]; simpl; lia.
  - simpl. intros e [<-|[<-|[<-|[]]]]; simpl; lia.
Defined.

(** ** C8 *)

Lemma students_per_term_keys (db : Database) :
  Permutation (map fst (students_per_term db))
              (nodup string_dec
                     (map (fun r => term (fst r)) (section_related_name db))).
Proof.
  unfold students_per_term.
  eapply perm_trans; [apply Permutation_map, order_by_perm|].
  rewrite map_map. simpl.
  rewrite <- (group_by_keys string_dec (fun r : Section * option Student => term (fst r))).
  apply Permutation_refl.
Qed.

Lemma students_in_term_count (db : Database) (t : string) :
  Count joined_student
        (filter (has_key string_dec (fun r : Section * option Student => term (fst r)) t)
                (section_related_name db))
  = students_in_term db t.
Proof.
  unfold joined_student, section_related_name, students_in_term.
  rewrite (count_group_of_key (fun sec st => section st =? section_id sec)
             string_dec term student_id).
  f_equal. f_equal. apply filter_ext. intros s.
  destruct (string_dec (term s) t) as [e|n].
  - symmetry. apply String.eqb_eq. exact e.
  - symmetry. apply String.eqb_neq. exact n.
Qed.

(** C8.  The per-term aggregation of the student list page, which the
    section list page computes the same way, has one bucket per term
    label that occurs among the Sections, the empty label of the Sections
    without a term being one bucket like any other; the buckets are in
    ascending order of the label, no label occurs twice, and the count of
    a bucket is the total of the Student counts of the Sections with that
    label. *)
Theorem per_term_counts (request : HttpRequest) (db : Database) :
  let rows := ctx_students_per_term (StudentListView_get_context_data request db) in
  sctx_students_per_term (SectionListView_get_context_data request db) = rows /\
  Sorted ascending (map fst rows) /\
  NoDup (map fst rows) /\
  (forall t, In t (map fst rows) <->
             exists s, In s (Section_objects db) /\ term s = t) /\
  (forall t n, In (t, n) rows -> n = students_in_term db t).
Proof.
  simpl. split; [reflexivity|]. split; [|split; [|split]].
  - apply Sorted_map. unfold students_per_term.
    apply (order_by_sorted (fun a b : string * nat => text_le (fst a) (fst b))).
    intros a b. apply text_le_total.
  - eapply Permutation_NoDup.
    + apply Permutation_sym, students_per_term_keys.
    + apply NoDup_nodup.
  - intros t. split.
    + intros Hin. eapply Permutation_in in Hin; [|apply students_per_term_keys].
      apply nodup_In in Hin. unfold section_related_name in Hin.
      apply (left_join_row_keys _ term) in Hin. exact Hin.
    + intros Hs. eapply Permutation_in; [apply Permutation_sym, students_per_term_keys|].
      apply nodup_In. unfold section_related_name.
      apply (left_join_row_keys _ term). exact Hs.
  - intros t n Hin. unfold students_per_term in Hin.
    apply order_by_In in Hin. apply in_map_iff in Hin.
    destruct Hin as [[t' g] [Heq Hg]]. simpl in Heq. inversion Heq; subst t' n.
    apply group_by_In in Hg. destruct Hg as [_ ->].
    apply students_in_term_count.
Qed.

(** On [term_db] the two Sections without a term share the first bucket. *)
Lemma per_term_counts_example :
  ctx_students_per_term (StudentListView_get_context_data (mkRequest []) term_db)
    = [("", 3%nat); ("Fall 2025", 1%nat)] /\
  let rows := ctx_students_per_term
                (StudentListView_get_context_data (mkRequest []) term_db) in
  sctx_students_per_term (SectionListView_get_context_data (mkRequest []) term_db)
    = rows /\
  Sorted ascending (map fst rows) /\
  NoDup (map fst rows) /\
  (forall t, In t (map fst rows) <->
             exists s, In s (Section_objects term_db) /\ term s = t) /\
  (forall t n, In (t, n) rows -> n = students_in_term term_db t).
Proof.
  split; [reflexivity|].
  apply (per_term_counts (mkRequest []) term_db).
Defined.

End Aggregation.

(* ================================================================== *)
(** ** Facts about text *)

Module TextFacts.
Import Text Spec.












Section Folded.
Variable fold : ascii -> ascii.
Variable same_char : ascii -> ascii -> Prop.
Hypothesis fold_same : forall a b, fold a = fold b <-> same_char a b.




End Folded.



End TextFacts.

(* ================================================================== *)
(** ** The roster ordering *)

Module NameOrder.
Import Text Orm Queries Views OrmFacts Spec.

Lemma compare_refl (a : string) : String.compare a a = Eq.
Proof.
  pose proof (String.compare_antisym a a) as H.
  destruct (String.compare a a); simpl in H; congruence.
Qed.

Lemma by_name_total (a b : Student) : by_name a b = true \/ by_name b a = true.
Proof.
  unfold by_name. rewrite (String.compare_antisym (last_name a) (last_name b)).
  destruct (String.compare (last_name b) (last_name a)); simpl; auto.
  apply String.leb_total.
Qed.

Lemma by_name_last_then_first (a b : Student) :
  by_name a b = true <->
  last_then_first (last_name a) (first_name a) (last_name b) (first_name b).
Proof.
  unfold by_name, last_then_first, ascending, String.ltb.
  destruct (String.compare (last_name a) (last_name b)) eqn:Hc.
  - apply String.compare_eq_iff in Hc. split.
    + intros H. right. split; assumption.
    + intros [H|[_ H]]; [discriminate | exact H].
  - split; auto.
  - split; [discriminate|].
    intros [H|[He _]]; [discriminate|].
    rewrite He, compare_refl in Hc. discriminate.
Qed.

Lemma Sorted_weaken {A : Type} (P Q : A -> A -> Prop) (l : list A) :
  (forall a b, P a b -> Q a b) -> Sorted P l -> Sorted Q l.
Proof.
  intros HPQ. induction 1 as [|a l Hs IH Hhd]; constructor; [exact IH|].
  destruct Hhd; constructor. apply HPQ. assumption.
Qed.

Lemma order_by_student_name_sorted (rows : list (Student * Section)) :
  Sorted (fun a b => last_then_first (last_name (fst a)) (first_name (fst a))
                                     (last_name (fst b)) (first_name (fst b)))
         (order_by by_student_name rows).
Proof.
  eapply Sorted_weaken; [|apply (order_by_sorted by_student_name)].
  - intros a b H. apply by_name_last_then_first. exact H.
  - intros a b. apply by_name_total.
Qed.

Lemma order_by_name_sorted (rows : list Student) :
  Sorted (fun a b => last_then_first (last_name a) (first_name a)
                                     (last_name b) (first_name b))
         (order_by by_name rows).
Proof.
  eapply Sorted_weaken; [|apply (order_by_sorted by_name)].
  - intros a b H. apply by_name_last_then_first. exact H.
  - apply by_name_total.
Qed.

End NameOrder.

(* ================================================================== *)
(** ** CSV and JSON exports *)

Module ExportFacts.
Import Text Orm Queries Views Exports OrmFacts Spec NameOrder Fixtures.

(** ** C3 *)

(** C3.  For a database and clock readings whatever they are, there is
    one sequence of (student id, first name, last name, email, section
    code) tuples, ordered by last name then first name, such that the
    CSV export is the header followed by the records of these tuples in
    that order, and the [students] array of the JSON export is the
    objects of the same tuples in the same order, with [record_count]
    their number. *)
Theorem csv_and_json_exports_agree
        (request : HttpRequest) (now_csv now_json now_json' : datetime)
        (db : Database) :
  exists tuples : list roster_tuple,
    csv_records (export_students_csv request now_csv db) =
      ["student_id"; "first_name"; "last_name"; "email"; "section_code"]
        :: map csv_record_of tuples /\
    payload (export_students_json request now_json now_json' db) =
      JDict [("generated_at", JStr (isoformat_seconds now_json));
             ("record_count", JInt_of_nat (List.length tuples));
             ("students", JList (map json_object_of tuples))] /\
    Sorted tuple_order tuples.
Proof.
  exists (map values_list_export
              (order_by by_student_name (with_section db (Student_objects db)))).
  split; [|split].
  - reflexivity.
  - unfold export_students_json. simpl.
    rewrite !length_map, map_map. reflexivity.
  - apply Sorted_map. apply order_by_student_name_sorted.
Qed.

(** The two exports of [roster_db]. *)
Lemma csv_and_json_exports_agree_roster :
  csv_records (export_students_csv (mkRequest []) noon roster_db) =
    [["student_id"; "first_name"; "last_name"; "email"; "section_code"];
     ["2"; "Bo"; "Adams"; "bo@example.com"; "CS101-A"];
     ["1"; "Ann"; "Lee"; "ann@example.com"; "CS101-A"]] /\
  exists tuples : list roster_tuple,
    csv_records (export_students_csv (mkRequest []) noon roster_db) =
      ["student_id"; "first_name"; "last_name"; "email"; "section_code"]
        :: map csv_record_of tuples /\
    payload (export_students_json (mkRequest []) noon noon roster_db) =
      JDict [("generated_at", JStr (isoformat_seconds noon));
             ("record_count", JInt_of_nat (List.length tuples));
             ("students", JList (map json_object_of tuples))] /\
    Sorted tuple_order tuples.
Proof.
  split; [reflexivity|].
  apply (csv_and_json_exports_agree (mkRequest []) noon noon noon roster_db).
Defined.

End ExportFacts.

(* ================================================================== *)
(** ** The roster endpoints and the search of the list page *)

Module Roster.
Import Text Orm Queries Views OrmFacts TextFacts Spec NameOrder Fixtures.

Lemma truthy_nonempty (q : string) : truthy q = true <-> q <> "".
Proof. destruct q; simpl; split; congruence. Qed.




Lemma stripped_q_raw (request : HttpRequest) :
  stripped_q request =
  strip (match QueryDict_get "q" (GET request) with Some v => v | None => "" end).
Proof.
  unfold stripped_q. destruct (QueryDict_get "q" (GET request)) as [[|c v]|]; reflexivity.
Qed.

Lemma with_section_snd (db : Database) (l : list Student) (r : Student * Section) :
  In r (with_section db l) ->
  In (snd r) (Section_objects db) /\ section_id (snd r) = section (fst r).
Proof.
  unfold with_section, inner_join. intros Hin.
  apply in_flat_map in Hin. destruct Hin as [st [_ Hr]].
  apply in_map_iff in Hr. destruct Hr as [sec [<- Hsec]].
  apply filter_In in Hsec. destruct Hsec as [Hin Heq].
  simpl. split; [exact Hin | apply Z.eqb_eq; exact Heq].
Qed.

(** Among rows with distinct keys, one key selects one row. *)
Lemma filter_by_key {A : Type} (key : A -> Z) (l : list A) (x : A) :
  NoDup (map key l) -> In x l -> filter (fun y => key y =? key x) l = [x].
Proof.
  induction l as [|a l IH]; simpl; intros Hnd Hin; [destruct Hin|].
  inversion Hnd as [|? ? Hnotin Hnd']; subst.
  destruct Hin as [->|Hin].
  - rewrite Z.eqb_refl. f_equal.
    assert (H : forall y, In y l -> (key y =? key x) = false).
    { intros y Hy. apply Z.eqb_neq. intros e. apply Hnotin. rewrite <- e.
      apply in_map. exact Hy. }
    clear - H. induction l as [|b l IH]; simpl; [reflexivity|].
    rewrite (H b (or_introl eq_refl)). apply IH.
    intros y Hy. apply H. right. exact Hy.
  - destruct (key a =? key x) eqn:E.
    + exfalso. apply Hnotin. apply Z.eqb_eq in E. rewrite E.
      apply in_map. exact Hin.
    + apply IH; assumption.
Qed.

(** With every Student referring to exactly one Section, the join to
    Section keeps each Student once. *)
Lemma with_section_fst (db : Database) (l : list Student) :
  students_have_sections db ->
  (forall st, In st l -> In st (Student_objects db)) ->
  map fst (with_section db l) = l.
Proof.
  intros [Hnd Hfk] Hl. unfold with_section, inner_join.
  induction l as [|st l IH]; simpl; [reflexivity|].
  rewrite map_app, map_map. simpl.
  destruct (Hfk st (Hl st (or_introl eq_refl))) as [sec [Hsec Hid]].
  rewrite <- Hid. rewrite (filter_by_key section_id _ sec Hnd Hsec). simpl.
  f_equal. apply IH. intros x Hx. apply Hl. right. exact Hx.
Qed.

Lemma selected_subset (q : string) (db : Database) (st : Student) :
  In st (selected q db) -> In st (Student_objects db).
Proof.
  unfold selected. destruct (truthy q); [|tauto].
  intros H. apply filter_In in H. tauto.
Qed.

Lemma api_students_selected (request : HttpRequest) (db : Database) :
  api_students request db =
  let rows := order_by by_student_name
                (with_section db (selected (stripped_q request) db)) in
  JsonResponse_ok (JDict [("count", JInt_of_nat (List.length rows));
                          ("results", JList (map values_roster rows))]).
Proof.
  unfold api_students, selected. simpl.
  destruct (truthy (stripped_q request)); rewrite length_map; reflexivity.
Qed.

Lemma StudentsAPI_get_selected (request : HttpRequest) (db : Database) :
  StudentsAPI_get request db =
  let rows := order_by by_student_name
                (with_section db (selected (stripped_q request) db)) in
  JsonResponse_ok (JDict [("count", JInt_of_nat (List.length rows));
                          ("results", JList (map values_roster rows))]).
Proof.
  unfold StudentsAPI_get, selected. simpl.
  destruct (truthy (stripped_q request)); rewrite length_map; reflexivity.
Qed.

Lemma ordered_rows_students (db : Database) (l : list Student) :
  students_have_sections db ->
  (forall st, In st l -> In st (Student_objects db)) ->
  Permutation (map fst (order_by by_student_name (with_section db l))) l.
Proof.
  intros Hdb Hl.
  rewrite <- (with_section_fst db l Hdb Hl) at 2.
  apply Permutation_map, order_by_perm.
Qed.

(** ** C7 *)




(** ** C9 *)

(** C9, as amended.  [views.py] defines [api_students] twice and the name
    ends up bound to the second definition; the two definitions answer
    every request on every database with the same response. *)
Theorem api_students_defined_twice_alike :
  views_attr "api_students" = Some api_students /\
  forall (request : HttpRequest) (db : Database),
    api_students_shadowed request db = api_students request db.
Proof.
  split; [reflexivity|]. intros request db. reflexivity.
Qed.

(** C9 as stated fails: no database and request tell the two definitions
    apart. *)
Lemma api_students_definitions_never_differ :
  ~ exists (request : HttpRequest) (db : Database),
      api_students_shadowed request db <> api_students request db.
Proof.
  intros [request [db Hne]]. apply Hne. reflexivity.
Qed.

(** ** C10 *)




End Roster.

(* ================================================================== *)
(** ** The weather endpoint *)

Module WeatherFacts.
Import Weather Spec Fixtures.

(** Turns the outcomes of the comparisons of [Z] into inequalities. *)
Ltac comparisons_to_props :=
  repeat match goal with
         | [ E : (_ <=? _) = true |- _ ] => apply Z.leb_le in E
         | [ E : (_ <=? _) = false |- _ ] => apply Z.leb_gt in E
         | [ E : (_ <? _) = true |- _ ] => apply Z.ltb_lt in E
         | [ E : (_ <? _) = false |- _ ] => apply Z.ltb_ge in E
         end.

Lemma raise_for_status_pass (r : Response) :
  ~ 400 <= resp_status r < 600 -> raise_for_status r = Return tt.
Proof.
  intros H. unfold raise_for_status.
  destruct (400 <=? resp_status r) eqn:E1; destruct (resp_status r <? 500) eqn:E2;
    destruct (500 <=? resp_status r) eqn:E3; destruct (resp_status r <? 600) eqn:E4;
    simpl; try reflexivity; exfalso; apply H; comparisons_to_props; lia.
Qed.

Lemma raise_for_status_error (r : Response) :
  400 <= resp_status r < 600 ->
  exists message, raise_for_status r = Raise (RequestException HTTPError message).
Proof.
  intros H. unfold raise_for_status.
  destruct (400 <=? resp_status r) eqn:E1; destruct (resp_status r <? 500) eqn:E2;
    destruct (500 <=? resp_status r) eqn:E3; destruct (resp_status r <? 600) eqn:E4;
    simpl; try (eexists; reflexivity); exfalso; comparisons_to_props; lia.
Qed.

(** ** C4 *)

(** C4, as amended.  When the fetch raises a [RequestException] of any
    kind (connection, timeout, ...), when it brings a response with a 4xx
    or 5xx status, and when it brings a response with another status
    whose body is not JSON, the endpoint returns [{ok: false, error:
    <message>}] with status 502.  When it brings a response with a status
    outside 400..599 whose body is a JSON object, the endpoint returns
    [{ok: true, weather: w}], where [w] is the [current_weather] member
    of the body, or the empty object when the body has none.  In all
    these cases the endpoint returns and does not raise. *)
Theorem weather_endpoint_outcomes (request : HttpRequest) :
  (forall kind message,
      WeatherNow_get request (Raise (RequestException kind message))
      = Return (bad_gateway message)) /\
  (forall r, 400 <= resp_status r < 600 ->
      exists message, WeatherNow_get request (Return r) = Return (bad_gateway message)) /\
  (forall r, ~ 400 <= resp_status r < 600 -> resp_json r = None ->
      exists message, WeatherNow_get request (Return r) = Return (bad_gateway message)) /\
  (forall r members, ~ 400 <= resp_status r < 600 ->
      resp_json r = Some (JDict members) ->
      WeatherNow_get request (Return r)
      = Return (weather_ok (match assoc "current_weather" members with
                            | Some w => w
                            | None => JDict []
                            end))).
Proof.
  split; [|split; [|split]].
  - intros kind message. reflexivity.
  - intros r Hr. destruct (raise_for_status_error r Hr) as [message Hm].
    exists message. unfold WeatherNow_get. simpl. rewrite Hm. reflexivity.
  - intros r Hr Hbody. eexists. unfold WeatherNow_get. simpl.
    rewrite (raise_for_status_pass r Hr). unfold json. rewrite Hbody. reflexivity.
  - intros r members Hr Hbody. unfold WeatherNow_get. simpl.
    rewrite (raise_for_status_pass r Hr). unfold json. rewrite Hbody. reflexivity.
Qed.

(** A timeout, a 503 and a 200 with the forecast. *)
Lemma weather_endpoint_examples :
  WeatherNow_get (mkRequest []) (Raise (RequestException Timeout "Read timed out."))
    = Return (bad_gateway "Read timed out.") /\
  (exists message,
      WeatherNow_get (mkRequest [])
        (Return (mkResponse 503 "Service Unavailable" forecast_url None))
      = Return (bad_gateway message)) /\
  WeatherNow_get (mkRequest []) (Return (mkResponse 200 "OK" forecast_url (Some forecast)))
    = Return (weather_ok (JDict [("temperature", JFloat "22.0");
                                 ("weathercode", JInt 0)])).
Proof.
  pose proof (weather_endpoint_outcomes (mkRequest [])) as [Hraise [Herr [_ Hok]]].
  split; [apply Hraise|]. split.
  - apply Herr. simpl. lia.
  - apply (Hok (mkResponse 200 "OK" forecast_url (Some forecast))
               [("latitude", JFloat "40.11");
                ("current_weather",
                 JDict [("temperature", JFloat "22.0"); ("weathercode", JInt 0)])]).
    + simpl. lia.
    + reflexivity.
Defined.

(** C4 as stated fails: a response with status 300, which is not 2xx,
    and the forecast as its body is answered with [ok: true]. *)
Lemma status_300_answered_as_success :
  ~ 200 <= resp_status (mkResponse 300 "Multiple Choices" forecast_url (Some forecast)) < 300 /\
  WeatherNow_get (mkRequest [])
    (Return (mkResponse 300 "Multiple Choices" forecast_url (Some forecast)))
  = Return (weather_ok (JDict [("temperature", JFloat "22.0");
                               ("weathercode", JInt 0)])).
Proof.
  split; [simpl; lia | reflexivity].
Qed.

End WeatherFacts.

(* ================================================================== *)
(** ** Uniqueness constraints and deletion policies *)

Module StoreFacts.
Import Store Spec Fixtures.

Lemma email_taken_iff (db : Database) (st : Student) :
  email_taken db st = true <->
  exists x, In x (Student_objects db) /\ email x = email st.
Proof.
  unfold email_taken. rewrite existsb_exists.
  split; intros [x [Hin H]]; exists x; (split; [exact Hin|]);
    apply String.eqb_eq; exact H.
Qed.

Lemma name_in_section_taken_iff (db : Database) (st : Student) :
  name_in_section_taken db st = true <->
  exists x, In x (Student_objects db) /\
            first_name x = first_name st /\ last_name x = last_name st /\
            section x = section st.
Proof.
  unfold name_in_section_taken. rewrite existsb_exists.
  split; intros [x [Hin H]]; exists x; (split; [exact Hin|]).
  - rewrite !andb_true_iff, !String.eqb_eq, Z.eqb_eq in H. tauto.
  - rewrite !andb_true_iff, !String.eqb_eq, Z.eqb_eq. tauto.
Qed.

Lemma enrollment_taken_iff (db : Database) (e : Enrollment) :
  enrollment_taken db e = true <->
  exists x, In x (Enrollment_objects db) /\
            student x = student e /\ enr_section x = enr_section e.
Proof.
  unfold enrollment_taken. rewrite existsb_exists.
  split; intros [x [Hin H]]; exists x; (split; [exact Hin|]).
  - rewrite andb_true_iff, !Z.eqb_eq in H. exact H.
  - rewrite andb_true_iff, !Z.eqb_eq. exact H.
Qed.

(** ** C5 *)

(** C5.  On every database, saving a new Student whose first name, last
    name and Section are those of a stored Student is rejected with an
    integrity error, and so is saving one whose email is that of a stored
    Student, and saving a new Enrollment whose Student and Section are
    those of a stored Enrollment; after a rejected write the tables are
    what they were. *)
Theorem duplicates_rejected (db : Database) :
  (forall st,
      (exists x, In x (Student_objects db) /\
                 first_name x = first_name st /\ last_name x = last_name st /\
                 section x = section st) ->
      exists message,
        Student_insert db st = Rejected (IntegrityError message) /\
        state_after db (Student_insert db st) = db) /\
  (forall st,
      (exists x, In x (Student_objects db) /\ email x = email st) ->
      exists message,
        Student_insert db st = Rejected (IntegrityError message) /\
        state_after db (Student_insert db st) = db) /\
  (forall e,
      (exists x, In x (Enrollment_objects db) /\
                 student x = student e /\ enr_section x = enr_section e) ->
      exists message,
        Enrollment_insert db e = Rejected (IntegrityError message) /\
        state_after db (Enrollment_insert db e) = db).
Proof.
  split; [|split].
  - intros st Hdup. apply name_in_section_taken_iff in Hdup.
    unfold Student_insert. rewrite Hdup.
    destruct (email_taken db st); eexists; split; reflexivity.
  - intros st Hdup. apply email_taken_iff in Hdup.
    unfold Student_insert. rewrite Hdup. eexists; split; reflexivity.
  - intros e Hdup. apply enrollment_taken_iff in Hdup.
    unfold Enrollment_insert. rewrite Hdup. eexists; split; reflexivity.
Qed.

(** On [roster_db]: a second Ann Lee in the same Section, a namesake of
    nobody with Ann's email, and a second Enrollment of Ann in her
    Section are all rejected. *)
Lemma duplicates_rejected_roster :
  (exists message,
      Student_insert roster_db (mkStudent 0 "Ann" "Lee" "Nan" "nan@example.com" 1)
      = Rejected (IntegrityError message) /\
      state_after roster_db
        (Student_insert roster_db (mkStudent 0 "Ann" "Lee" "Nan" "nan@example.com" 1))
      = roster_db) /\
  (exists message,
      Student_insert roster_db (mkStudent 0 "Cy" "Young" "" "ann@example.com" 1)
      = Rejected (IntegrityError message) /\
      state_after roster_db
        (Student_insert roster_db (mkStudent 0 "Cy" "Young" "" "ann@example.com" 1))
      = roster_db) /\
  (exists message,
      Enrollment_insert roster_db (mkEnrollment 0 1 1 5 false)
      = Rejected (IntegrityError message) /\
      state_after roster_db (Enrollment_insert roster_db (mkEnrollment 0 1 1 5 false))
      = roster_db).
Proof.
  pose proof (duplicates_rejected roster_db) as [Hname [Hemail Henr]].
  split; [|split].
  - apply Hname. exists ann. simpl. repeat split. left. reflexivity.
  - apply Hemail. exists ann. simpl. split; [left|]; reflexivity.
  - apply Henr. exists (mkEnrollment 1 1 1 0 true). simpl.
    repeat split. left. reflexivity.
Defined.

(** A write that breaks no constraint goes through. *)
Example fresh_student_written :
  Student_insert roster_db (mkStudent 0 "Cy" "Young" "" "cy@example.com" 1)
  = Written {| Section_objects := [cs101];
               Student_objects :=
                 [ann; bo; mkStudent 3 "Cy" "Young" "" "cy@example.com" 1];
               Enrollment_objects := [mkEnrollment 1 1 1 0 true] |}.
Proof. reflexivity. Qed.

(** ** C6 *)

(** C6.  On every database, deleting a Section that a Student or an
    Enrollment refers to is rejected with a protection error and leaves
    the tables as they were; deleting a Student goes through, leaves the
    Sections as they were, and keeps exactly the Students with another
    key and exactly the Enrollments of other Students. *)
Theorem protect_section_cascade_student (db : Database) :
  (forall pk,
      (exists st, In st (Student_objects db) /\ section st = pk) \/
      (exists e, In e (Enrollment_objects db) /\ enr_section e = pk) ->
      exists message,
        Section_delete db pk = Rejected (ProtectedError message) /\
        state_after db (Section_delete db pk) = db) /\
  (forall pk,
      exists db',
        Student_delete db pk = Written db' /\
        Section_objects db' = Section_objects db /\
        (forall st, In st (Student_objects db') <->
                    In st (Student_objects db) /\ student_id st <> pk) /\
        (forall e, In e (Enrollment_objects db') <->
                   In e (Enrollment_objects db) /\ student e <> pk)).
Proof.
  split.
  - intros pk Href. unfold Section_delete.
    destruct (existsb (fun st => section st =? pk) (Student_objects db)) eqn:Est.
    + eexists; split; reflexivity.
    + destruct Href as [[st [Hin Hst]]|[e [Hin He]]].
      * exfalso. assert (H : existsb (fun st => section st =? pk) (Student_objects db) = true).
        { apply existsb_exists. exists st. split; [exact Hin | apply Z.eqb_eq; exact Hst]. }
        congruence.
      * assert (H : existsb (fun e => enr_section e =? pk) (Enrollment_objects db) = true).
        { apply existsb_exists. exists e. split; [exact Hin | apply Z.eqb_eq; exact He]. }
        rewrite H. eexists; split; reflexivity.
  - intros pk. eexists. split; [reflexivity|]. simpl. split; [reflexivity|].
    split; intros x; rewrite filter_In, negb_true_iff, Z.eqb_neq; reflexivity.
Qed.

(** On [roster_db], Section 1 is protected by its Students, and deleting
    Ann takes her Enrollment with her. *)
Lemma protect_section_cascade_student_roster :
  Student_delete roster_db 1
    = Written {| Section_objects := [cs101];
                 Student_objects := [bo];
                 Enrollment_objects := [] |} /\
  (exists message,
      Section_delete roster_db 1 = Rejected (ProtectedError message) /\
      state_after roster_db (Section_delete roster_db 1) = roster_db) /\
  (exists db',
      Student_delete roster_db 1 = Written db' /\
      Section_objects db' = Section_objects roster_db /\
      (forall st, In st (Student_objects db') <->
                  In st (Student_objects roster_db) /\ student_id st <> 1) /\
      (forall e, In e (Enrollment_objects db') <->
                 In e (Enrollment_objects roster_db) /\ student e <> 1)).
Proof.
  pose proof (protect_section_cascade_student roster_db) as [Hprotect Hcascade].
  split; [reflexivity|]. split.
  - apply Hprotect. left. exists ann. split; [left|]; reflexivity.
  - apply Hcascade.
Defined.

(** A Section nothing refers to can be deleted. *)
Example unreferenced_section_deleted :
  Section_delete scenario_with_empty_section 2 = Written scenario_db.
Proof. reflexivity. Qed.

(** ** Writes keep every Student on exactly one Section *)

(** Dropping Section rows leaves the keys of the others distinct. *)
Lemma kept_sections_distinct (keep : Section -> bool) (secs : list Section) :
  NoDup (map section_id secs) -> NoDup (map section_id (filter keep secs)).
Proof.
  intros Hnd. induction secs as [|sec secs IH]; simpl in *.
  - constructor.
  - apply NoDup_cons_iff in Hnd. destruct Hnd as [Hfresh Hrest].
    destruct (keep sec); simpl; [|apply IH; exact Hrest].
    apply NoDup_cons_iff. split; [|apply IH; exact Hrest].
    intros Hin. apply Hfresh.
    apply (incl_map section_id (incl_filter keep secs)). exact Hin.
Qed.

(** The hypothesis of the roster theorem is an invariant of the writes:
    no insertion or deletion, accepted or rejected, makes a Student lose
    its Section or gives two Sections one key. *)
Lemma writes_keep_students_on_sections (db : Database) :
  students_have_sections db ->
  (forall st, students_have_sections (state_after db (Student_insert db st))) /\
  (forall e, students_have_sections (state_after db (Enrollment_insert db e))) /\
  (forall pk, students_have_sections (state_after db (Section_delete db pk))) /\
  (forall pk, students_have_sections (state_after db (Student_delete db pk))).
Proof.
  intros [Hnd Hfk]. split; [|split; [|split]].
  - intros st. unfold Student_insert.
    destruct (email_taken db st); [split; assumption|].
    destruct (name_in_section_taken db st); [split; assumption|].
    destruct (section_exists db (section st)) eqn:Hsec; simpl; [|split; assumption].
    split; [exact Hnd|]. simpl. intros x Hx. apply in_app_or in Hx.
    destruct Hx as [Hx|[<-|[]]]; [apply Hfk; exact Hx|]. simpl.
    unfold section_exists in Hsec. apply existsb_exists in Hsec.
    destruct Hsec as [sec [Hin Heq]]. exists sec.
    split; [exact Hin | apply Z.eqb_eq; exact Heq].
  - intros e. unfold Enrollment_insert.
    destruct (enrollment_taken db e); [split; assumption|].
    destruct (negb _); split; assumption.
  - intros pk. unfold Section_delete.
    destruct (existsb (fun st => section st =? pk) (Student_objects db)) eqn:Est;
      [split; assumption|].
    destruct (existsb _ (Enrollment_objects db)); [split; assumption|].
    split; simpl.
    + apply kept_sections_distinct. exact Hnd.
    + intros st Hst. destruct (Hfk st Hst) as [sec [Hin Heq]].
      exists sec. split; [|exact Heq]. apply filter_In. split; [exact Hin|].
      apply negb_true_iff, Z.eqb_neq. intros Hpk.
      assert (H : existsb (fun st => section st =? pk) (Student_objects db) = true).
      { apply existsb_exists. exists st. split; [exact Hst|].
        apply Z.eqb_eq. congruence. }
      congruence.
  - intros pk. split; simpl; [exact Hnd|].
    intros st Hst. apply filter_In in Hst. apply Hfk. tauto.
Qed.

End StoreFacts.

(* ================================================================== *)
(** ** More on the aggregations: bounds and totals *)

Module AggregationTotals.
Import Text Orm Queries Views Pages OrmFacts Spec Integrity Fixtures.

Lemma list_sum_perm (l l' : list nat) :
  Permutation l l' -> list_sum l = list_sum l'.
Proof.
  induction 1 as [| x l l' _ IH | x y l | l l' l'' _ IH1 _ IH2]; simpl; lia.
Qed.

Lemma list_sum_zero {A : Type} (l : list A) :
  list_sum (map (fun _ => 0%nat) l) = 0%nat.
Proof. induction l as [|a l IH]; simpl; [reflexivity | exact IH]. Qed.

Lemma list_sum_plus {A : Type} (f g : A -> nat) (l : list A) :
  list_sum (map (fun a => (f a + g a)%nat) l)
  = (list_sum (map f l) + list_sum (map g l))%nat.
Proof. induction l as [|a l IH]; simpl; lia. Qed.

Section Partition.
Context {R K C : Type}.
Variable K_eq_dec : forall x y : K, {x = y} + {x <> y}.
Variable key : R -> K.
Variable col : R -> option C.

(** In a list of distinct keys, exactly one is the key [x]. *)
Lemma one_key_hit (x : K) (v : nat) (ks : list K) :
  NoDup ks -> In x ks ->
  list_sum (map (fun k => if K_eq_dec x k then v else 0%nat) ks) = v.
Proof.
  induction ks as [|k ks IH]; intros Hnd Hin; [destruct Hin|].
  apply NoDup_cons_iff in Hnd. destruct Hnd as [Hfresh Hnd]. simpl.
  destruct (K_eq_dec x k) as [->|Hne].
  - rewrite (map_ext_in _ (fun _ => 0%nat)), list_sum_zero; [lia|].
    intros k' Hk'. destruct (K_eq_dec k k') as [->|]; [contradiction | reflexivity].
  - destruct Hin as [e|Hin]; [congruence|]. rewrite (IH Hnd Hin). reflexivity.
Qed.

Lemma count_groups (rows : list R) (ks : list K) :
  NoDup ks -> (forall r, In r rows -> In (key r) ks) ->
  list_sum (map (fun k => Count col (filter (has_key K_eq_dec key k) rows)) ks)
  = Count col rows.
Proof.
  intros Hnd. induction rows as [|r rows IH]; intros Hks.
  - apply list_sum_zero.
  - rewrite (map_ext _ (fun k => ((if K_eq_dec (key r) k then Count col [r] else 0)
                                  + Count col (filter (has_key K_eq_dec key k) rows))%nat)).
    + rewrite list_sum_plus, one_key_hit, IH.
      * change (r :: rows) with ([r] ++ rows). rewrite Count_app. reflexivity.
      * intros x Hx. apply Hks. right. exact Hx.
      * exact Hnd.
      * apply Hks. left. reflexivity.
    + intros k. simpl. unfold has_key at 1.
      destruct (K_eq_dec (key r) k); [|reflexivity].
      change (r :: filter (has_key K_eq_dec key k) rows)
        with ([r] ++ filter (has_key K_eq_dec key k) rows).
      apply Count_app.
Qed.

(** [GROUP BY] splits the rows: the [COUNT]s of the groups add up to the
    [COUNT] over all the rows. *)
Lemma group_by_counts_add_up (rows : list R) :
  list_sum (map (fun g => Count col (snd g)) (group_by K_eq_dec key rows))
  = Count col rows.
Proof.
  unfold group_by. rewrite map_map. simpl.
  apply count_groups; [apply NoDup_nodup|].
  intros r Hr. apply nodup_In. apply in_map. exact Hr.
Qed.
End Partition.

Section JoinTotals.
Context {A B C : Type}.
Variable on : A -> B -> bool.
Variable col : B -> C.

Lemma left_join_count (l : list A) (r : list B) :
  Count (fun x : A * option B => option_map col (snd x)) (left_join on l r)
  = list_sum (map (fun a => List.length (filter (on a) r)) l).
Proof.
  induction l as [|a l IH]; [reflexivity|].
  rewrite left_join_cons, Count_app, IH, joined_rows_count. reflexivity.
Qed.

(** Counting the matching pairs row by row on the left or on the right
    gives the same number. *)
Lemma matches_either_way (l : list A) (r : list B) :
  list_sum (map (fun a => List.length (filter (on a) r)) l)
  = list_sum (map (fun b => List.length (filter (fun a => on a b) l)) r).
Proof.
  induction l as [|a l IH]; simpl.
  - symmetry. apply list_sum_zero.
  - rewrite IH. clear IH. induction r as [|b r IHr]; simpl; [reflexivity|].
    destruct (on a b); simpl; lia.
Qed.

(** When every right row matches exactly one left row, the join counts
    each right row once. *)
Lemma left_join_counts_right_rows (l : list A) (r : list B) :
  (forall b, In b r -> List.length (filter (fun a => on a b) l) = 1%nat) ->
  Count (fun x : A * option B => option_map col (snd x)) (left_join on l r)
  = List.length r.
Proof.
  intros Hone. rewrite left_join_count, matches_either_way.
  clear - Hone. induction r as [|b r IH]; simpl; [reflexivity|].
  rewrite (Hone b (or_introl eq_refl)), IH; [reflexivity|].
  intros x Hx. apply Hone. right. exact Hx.
Qed.
End JoinTotals.

(** Among rows with distinct keys, one key is found once. *)
Lemma one_row_of_key {A : Type} (key : A -> Z) (l : list A) (k : Z) :
  NoDup (map key l) -> (exists x, In x l /\ key x = k) ->
  List.length (filter (fun y => k =? key y) l) = 1%nat.
Proof.
  intros Hnd [x [Hin <-]]. induction l as [|a l IH]; [destruct Hin|].
  simpl in Hnd. apply NoDup_cons_iff in Hnd. destruct Hnd as [Hfresh Hnd]. simpl.
  destruct Hin as [->|Hin].
  - rewrite Z.eqb_refl. simpl. f_equal. clear IH Hnd.
    induction l as [|b l IHl]; simpl; [reflexivity|].
    destruct (key x =? key b) eqn:E.
    + exfalso. apply Hfresh. left. symmetry. apply Z.eqb_eq. exact E.
    + apply IHl. intros Hin. apply Hfresh. right. exact Hin.
  - destruct (key x =? key a) eqn:E.
    + exfalso. apply Hfresh. apply Z.eqb_eq in E. rewrite <- E. apply in_map. exact Hin.
    + apply IH; assumption.
Qed.

Lemma students_counted_once (db : Database) :
  students_have_sections db ->
  Count joined_student (section_related_name db) = List.length (Student_objects db).
Proof.
  intros [Hnd Hfk]. unfold joined_student, section_related_name.
  apply (left_join_counts_right_rows (fun sec st => section st =? section_id sec) student_id).
  intros st Hst. apply one_row_of_key; [exact Hnd | apply Hfk; exact Hst].
Qed.

Lemma enrollments_counted_once (db : Database) :
  enrollments_have_sections db ->
  Count joined_enrollment (enrollments_related_name db)
  = List.length (Enrollment_objects db).
Proof.
  intros [Hnd Hfk]. unfold joined_enrollment, enrollments_related_name.
  apply (left_join_counts_right_rows (fun sec e => enr_section e =? section_id sec) enroll_id).
  intros e He. apply one_row_of_key; [exact Hnd | apply Hfk; exact He].
Qed.

Lemma Count_filter_le {R C : Type} (col : R -> option C) (q : R -> bool) (rows : list R) :
  (Count_filter col q rows <= Count col rows)%nat.
Proof.
  unfold Count_filter, Count. induction rows as [|r rows IH]; simpl; [lia|].
  destruct (q r); simpl; destruct (col r); simpl; lia.
Qed.

Lemma ordered_total {R : Type} (le : R -> R -> bool) (n : R -> nat) (rows : list R) :
  list_sum (map n (order_by le rows)) = list_sum (map n rows).
Proof. apply list_sum_perm, Permutation_map, order_by_perm. Qed.

(** X1.  In every row that [api_enrollments_per_section] returns, and in
    every row of the enrollment table of the student list page,
    [n_active] is at most the count of all Enrollments of the row. *)
Theorem active_never_exceeds_all (request : HttpRequest) (db : Database) :
  exists erows : list (string * nat * nat),
    api_enrollments_per_section request db =
      JsonResponse_ok (JDict [("results", JList (map values_enrollments erows))]) /\
    Forall (fun r => (snd r <= snd (fst r))%nat) erows /\
    Forall (fun r => (snd r <= snd (fst r))%nat)
           (ctx_enrollments_per_section (StudentListView_get_context_data request db)).
Proof.
  exists (enrollments_per_section db). split; [reflexivity|]. split.
  - apply Forall_forall. intros r Hr. unfold enrollments_per_section in Hr.
    apply order_by_In in Hr. apply in_map_iff in Hr. destruct Hr as [g [<- _]].
    simpl. apply Count_filter_le.
  - apply Forall_forall. intros r Hr. simpl in Hr. unfold enrollments_per_code in Hr.
    apply order_by_In in Hr. apply in_map_iff in Hr. destruct Hr as [g [<- _]].
    simpl. apply Count_filter_le.
Qed.

(** X2.  When every Student refers to exactly one Section, the student
    counts add up to the number of Students: those that
    [api_students_per_section] returns, and on the student list page
    those per Section and those per term, all total [total_students]. *)
Theorem student_counts_add_up (request : HttpRequest) (db : Database) :
  students_have_sections db ->
  let ctx := StudentListView_get_context_data request db in
  ctx_total_students ctx = List.length (Student_objects db) /\
  list_sum (map snd (ctx_students_per_section ctx)) = ctx_total_students ctx /\
  list_sum (map snd (ctx_students_per_term ctx)) = ctx_total_students ctx /\
  exists rows : list (string * nat),
    api_students_per_section request db =
      JsonResponse_ok (JDict [("labels", JList (map JStr (map fst rows)));
                              ("counts", JList (map JInt_of_nat (map snd rows)))]) /\
    list_sum (map snd rows) = ctx_total_students ctx.
Proof.
  intros Hdb. simpl. split; [reflexivity|].
  pose proof (students_counted_once db Hdb) as Htotal.
  split; [|split].
  - unfold students_per_section. rewrite ordered_total, map_map. simpl.
    rewrite <- Htotal. apply group_by_counts_add_up.
  - unfold students_per_term. rewrite ordered_total, map_map. simpl.
    rewrite <- Htotal. apply group_by_counts_add_up.
  - exists (students_per_section_code db). split; [reflexivity|].
    unfold students_per_section_code. rewrite ordered_total, map_map. simpl.
    rewrite <- Htotal. apply group_by_counts_add_up.
Qed.

(** On [term_db]: four Students, whichever way they are counted. *)
Lemma student_counts_add_up_term_db :
  list_sum (map snd (students_per_term term_db)) = 4%nat /\
  let ctx := StudentListView_get_context_data (mkRequest []) term_db in
  ctx_total_students ctx = List.length (Student_objects term_db) /\
  list_sum (map snd (ctx_students_per_section ctx)) = ctx_total_students ctx /\
  list_sum (map snd (ctx_students_per_term ctx)) = ctx_total_students ctx /\
  exists rows : list (string * nat),
    api_students_per_section (mkRequest []) term_db =
      JsonResponse_ok (JDict [("labels", JList (map JStr (map fst rows)));
                              ("counts", JList (map JInt_of_nat (map snd rows)))]) /\
    list_sum (map snd rows) = ctx_total_students ctx.
Proof.
  split; [reflexivity|].
  apply (student_counts_add_up (mkRequest []) term_db).
  split.
  - simpl. repeat (constructor; [simpl; intuition discriminate|]). constructor.
  - intros st Hin. simpl in Hin.
    destruct Hin as [<-|[<-|[<-|[<-|[]]]]]; simpl;
      [exists (mkSection 1 "A1" "Lab" "")
      |exists (mkSection 1 "A1" "Lab" "")
      |exists (mkSection 3 "C1" "Seminar" "")
      |exists (mkSection 2 "B1" "Lecture" "Fall 2025")];
      simpl; intuition.
Defined.

(** X3.  When every Enrollment refers to exactly one Section, the [n_all]
    counts that [api_enrollments_per_section] returns add up to the
    number of Enrollments, which is [total_enrollments] of the student
    list page, and so do the counts of the page's own enrollment table. *)
Theorem enrollment_counts_add_up (request : HttpRequest) (db : Database) :
  enrollments_have_sections db ->
  let ctx := StudentListView_get_context_data request db in
  ctx_total_enrollments ctx = List.length (Enrollment_objects db) /\
  list_sum (map (fun r => snd (fst r)) (ctx_enrollments_per_section ctx))
    = ctx_total_enrollments ctx /\
  exists erows : list (string * nat * nat),
    api_enrollments_per_section request db =
      JsonResponse_ok (JDict [("results", JList (map values_enrollments erows))]) /\
    list_sum (map (fun r => snd (fst r)) erows) = ctx_total_enrollments ctx.
Proof.
  intros Hdb. simpl. split; [reflexivity|].
  pose proof (enrollments_counted_once db Hdb) as Htotal. split.
  - unfold enrollments_per_code. rewrite ordered_total, map_map. simpl.
    rewrite <- Htotal.
    apply (group_by_counts_add_up string_dec
             (fun r : Section * option Enrollment => code (fst r)) joined_enrollment).
  - exists (enrollments_per_section db). split; [reflexivity|].
    unfold enrollments_per_section. rewrite ordered_total, map_map. simpl.
    rewrite <- Htotal.
    apply (group_by_counts_add_up Section_eq_dec
             (fun r : Section * option Enrollment => fst r) joined_enrollment).
Qed.

(** On [scenario_db]: three Enrollments. *)
Lemma enrollment_counts_add_up_scenario :
  let ctx := StudentListView_get_context_data (mkRequest []) scenario_db in
  ctx_total_enrollments ctx = List.length (Enrollment_objects scenario_db) /\
  list_sum (map (fun r => snd (fst r)) (ctx_enrollments_per_section ctx))
    = ctx_total_enrollments ctx /\
  exists erows : list (string * nat * nat),
    api_enrollments_per_section (mkRequest []) scenario_db =
      JsonResponse_ok (JDict [("results", JList (map values_enrollments erows))]) /\
    list_sum (map (fun r => snd (fst r)) erows) = ctx_total_enrollments ctx.
Proof.
  apply (enrollment_counts_add_up (mkRequest []) scenario_db).
  split.
  - simpl. constructor; [intros []|constructor].
  - intros e Hin. exists (mkSection 1 "CS101-A" "Intro to CS - A" "Fall 2025").
    split; [left; reflexivity|].
    simpl in Hin. destruct Hin as [<-|[<-|[<-|[]]]]; reflexivity.
Defined.

End AggregationTotals.

(* ================================================================== *)
(** ** The pages agree on their tables *)

Module PagesAgree.
Import Text Orm Queries Views Pages OrmFacts Spec Integrity Fixtures.

Lemma ascii_compare_refl (a : ascii) : Ascii.compare a a = Eq.
Proof. unfold Ascii.compare. apply N.compare_refl. Qed.

Lemma ascii_compare_lt_trans (a b c : ascii) :
  Ascii.compare a b = Lt -> Ascii.compare b c = Lt -> Ascii.compare a c = Lt.
Proof.
  unfold Ascii.compare. rewrite !N.compare_lt_iff. apply N.lt_trans.
Qed.

Lemma text_le_trans (a b c : string) :
  text_le a b = true -> text_le b c = true -> text_le a c = true.
Proof.
  unfold text_le, String.leb. revert b c.
  induction a as [|x a IH]; intros [|y b] [|z c]; simpl; try congruence.
  destruct (Ascii.compare x y) eqn:Exy; destruct (Ascii.compare y z) eqn:Eyz;
    try congruence.
  - apply Ascii.compare_eq_iff in Exy, Eyz. subst. rewrite ascii_compare_refl.
    apply IH.
  - apply Ascii.compare_eq_iff in Exy. subst. rewrite Eyz. reflexivity.
  - apply Ascii.compare_eq_iff in Eyz. subst. rewrite Exy. reflexivity.
  - rewrite (ascii_compare_lt_trans x y z Exy Eyz). reflexivity.
Qed.

Section SortedOnce.
Context {R : Type}.
Variable key : R -> string.

Let le_key (a b : R) : Prop := text_le (key a) (key b) = true.

Lemma same_key_same_row (l : list R) (a b : R) :
  NoDup (map key l) -> In a l -> In b l -> key a = key b -> a = b.
Proof.
  induction l as [|x l IH]; simpl; intros Hnd Ha Hb Hk; [destruct Ha|].
  apply NoDup_cons_iff in Hnd. destruct Hnd as [Hfresh Hnd].
  destruct Ha as [->|Ha]; destruct Hb as [->|Hb].
  - reflexivity.
  - exfalso. apply Hfresh. rewrite Hk. apply in_map. exact Hb.
  - exfalso. apply Hfresh. rewrite <- Hk. apply in_map. exact Ha.
  - apply IH; assumption.
Qed.

(** Rows with distinct keys can be put in order in one way only. *)
Lemma sorted_once (l1 l2 : list R) :
  NoDup (map key l1) -> Permutation l1 l2 ->
  Sorted le_key l1 -> Sorted le_key l2 -> l1 = l2.
Proof.
  intros Hnd Hperm S1 S2.
  assert (Htrans : Relations_1.Transitive le_key).
  { intros a b c Hab Hbc. exact (text_le_trans _ _ _ Hab Hbc). }
  apply (Sorted_StronglySorted Htrans) in S1, S2.
  revert l2 Hperm S2. induction S1 as [|a t1 S1 IH Ha]; intros l2 Hperm S2.
  - apply Permutation_nil in Hperm. symmetry. exact Hperm.
  - destruct S2 as [|b t2 S2 Hb].
    + apply Permutation_sym, Permutation_nil in Hperm. discriminate.
    + assert (Hab : a = b).
      { assert (Hb_in : In b (a :: t1)).
        { eapply Permutation_in; [apply Permutation_sym, Hperm | left; reflexivity]. }
        assert (Ha_in : In a (b :: t2)).
        { eapply Permutation_in; [exact Hperm | left; reflexivity]. }
        destruct Hb_in as [e|Hb_in]; [exact e|].
        destruct Ha_in as [e|Ha_in]; [symmetry; exact e|].
        apply (same_key_same_row (a :: t1)); [exact Hnd | left; reflexivity
                                              | right; exact Hb_in |].
        apply String.leb_antisym.
        - exact (proj1 (Forall_forall _ _) Ha b Hb_in).
        - exact (proj1 (Forall_forall _ _) Hb a Ha_in). }
      subst b. f_equal. apply IH.
      * simpl in Hnd. apply NoDup_cons_iff in Hnd. tauto.
      * eapply Permutation_cons_inv. exact Hperm.
      * exact S2.
Qed.
End SortedOnce.

Section KeyedGroups.
Context {A B K X : Type}.
Variable on : A -> B -> bool.
Variable K_eq_dec : forall x y : K, {x = y} + {x <> y}.
Variable k : A -> K.
Variable F : K -> list (A * option B) -> X.

Lemma group_of_key (l : list A) (r : list B) (a : A) :
  NoDup (map k l) -> In a l ->
  filter (has_key K_eq_dec (fun x : A * option B => k (fst x)) (k a)) (left_join on l r)
  = joined_rows on r a.
Proof.
  induction l as [|a0 l IH]; intros Hnd Hin; [destruct Hin|].
  simpl in Hnd. apply NoDup_cons_iff in Hnd. destruct Hnd as [Hfresh Hnd].
  rewrite left_join_cons, filter_app.
  rewrite (filter_row_key_joined_rows on K_eq_dec k).
  destruct Hin as [->|Hin].
  - destruct (K_eq_dec (k a) (k a)) as [_|n]; [|contradiction].
    rewrite <- (app_nil_r (joined_rows on r a)) at 2. f_equal.
    clear IH Hnd. induction l as [|b l IHl]; [reflexivity|].
    rewrite left_join_cons, filter_app.
    rewrite (filter_row_key_joined_rows on K_eq_dec k).
    destruct (K_eq_dec (k b) (k a)) as [e|_].
    + exfalso. apply Hfresh. left. exact e.
    + simpl. apply IHl. intros H. apply Hfresh. right. exact H.
  - destruct (K_eq_dec (k a0) (k a)) as [e|_].
    + exfalso. apply Hfresh. rewrite e. apply in_map. exact Hin.
    + simpl. apply IH; assumption.
Qed.

(** Grouping a join by a key that tells the left rows apart gives, up to
    order, one group per left row. *)
Lemma group_by_key_of_left_row (l : list A) (r : list B) :
  NoDup (map k l) ->
  Permutation
    (map (fun g => F (fst g) (snd g))
         (group_by K_eq_dec (fun x : A * option B => k (fst x)) (left_join on l r)))
    (map (fun a => F (k a) (joined_rows on r a)) l).
Proof.
  intros Hnd. unfold group_by. rewrite map_map. simpl.
  eapply perm_trans.
  - apply Permutation_map.
    apply (NoDup_Permutation (l' := map k l)); [apply NoDup_nodup | exact Hnd |].
    intros key. rewrite nodup_In.
    rewrite (left_join_row_keys on k l r key). rewrite in_map_iff.
    split; intros [a Ha]; exists a; tauto.
  - rewrite map_map. erewrite map_ext_in; [apply Permutation_refl|].
    intros a Ha. simpl. f_equal. apply group_of_key; assumption.
Qed.
End KeyedGroups.

Lemma students_per_section_rows (db : Database) :
  NoDup (map code (Section_objects db)) ->
  Permutation (students_per_section db)
    (map (fun s => (code s, name s,
                    Count joined_student
                          (joined_rows (fun sec st => section st =? section_id sec)
                                       (Student_objects db) s)))
         (Section_objects db)).
Proof.
  intros Hcodes. unfold students_per_section.
  eapply perm_trans; [apply order_by_perm|]. unfold section_related_name.
  apply (group_by_key_of_left_row _ code_name_eq_dec (fun s => (code s, name s))
           (fun key rows => (fst key, snd key, Count joined_student rows))).
  apply (Aggregation.NoDup_of_keys fst). rewrite map_map. exact Hcodes.
Qed.

Lemma section_page_students_rows (request : HttpRequest) (db : Database) :
  NoDup (map code (Section_objects db)) ->
  Permutation (sctx_students_per_section (SectionListView_get_context_data request db))
    (map (fun s => (code s, name s,
                    Count joined_student
                          (joined_rows (fun sec st => section st =? section_id sec)
                                       (Student_objects db) s)))
         (Section_objects db)).
Proof.
  intros Hcodes. simpl.
  eapply perm_trans; [apply order_by_perm|]. unfold section_related_name.
  apply (group_by_left_join _ Section_eq_dec
           (fun s rows => (code s, name s, Count joined_student rows))).
  apply (Aggregation.NoDup_of_keys code). exact Hcodes.
Qed.

Lemma enrollments_per_code_rows (db : Database) :
  NoDup (map code (Section_objects db)) ->
  Permutation (enrollments_per_code db)
    (map (fun s =>
            let rows := joined_rows (fun sec e => enr_section e =? section_id sec)
                                    (Enrollment_objects db) s in
            (code s, Count joined_enrollment rows,
             Count_filter joined_enrollment Q_is_active rows))
         (Section_objects db)).
Proof.
  intros Hcodes. unfold enrollments_per_code.
  eapply perm_trans; [apply order_by_perm|]. unfold enrollments_related_name.
  apply (group_by_key_of_left_row _ string_dec code
           (fun key rows => (key, Count joined_enrollment rows,
                             Count_filter joined_enrollment Q_is_active rows))).
  exact Hcodes.
Qed.

Lemma enrollments_per_section_rows (db : Database) :
  NoDup (map code (Section_objects db)) ->
  Permutation (enrollments_per_section db)
    (map (fun s =>
            let rows := joined_rows (fun sec e => enr_section e =? section_id sec)
                                    (Enrollment_objects db) s in
            (code s, Count joined_enrollment rows,
             Count_filter joined_enrollment Q_is_active rows))
         (Section_objects db)).
Proof.
  intros Hcodes. unfold enrollments_per_section.
  eapply perm_trans; [apply order_by_perm|]. unfold enrollments_related_name.
  apply (group_by_left_join _ Section_eq_dec
           (fun s rows => (code s, Count joined_enrollment rows,
                           Count_filter joined_enrollment Q_is_active rows))).
  apply (Aggregation.NoDup_of_keys code). exact Hcodes.
Qed.

(** X4.  When the Section codes are distinct, the student list page, the
    section list page and the reports page show the same table of
    students per Section, row for row, although the first and the last
    group by code and name and the second by Section; and the enrollment
    table of the student list page, grouped by code, is the one of the
    section list page, grouped by Section. *)
Theorem pages_show_the_same_tables (request : HttpRequest) (db : Database) :
  NoDup (map code (Section_objects db)) ->
  let student_page := StudentListView_get_context_data request db in
  let section_page := SectionListView_get_context_data request db in
  let reports_page := ReportsView_get_context_data db in
  ctx_students_per_section student_page = sctx_students_per_section section_page /\
  rctx_students_per_section reports_page = sctx_students_per_section section_page /\
  ctx_enrollments_per_section student_page = sctx_enrollments_per_section section_page.
Proof.
  intros Hcodes.
  assert (Hstudents : students_per_section db
                      = sctx_students_per_section
                          (SectionListView_get_context_data request db)).
  { apply (sorted_once (fun r : string * string * nat => fst (fst r))).
    - eapply Permutation_NoDup.
      + apply Permutation_sym, Permutation_map, students_per_section_rows, Hcodes.
      + rewrite map_map. exact Hcodes.
    - eapply perm_trans; [apply students_per_section_rows, Hcodes|].
      apply Permutation_sym, section_page_students_rows, Hcodes.
    - apply (order_by_sorted
               (fun a b : string * string * nat => text_le (fst (fst a)) (fst (fst b)))).
      intros a b. apply String.leb_total.
    - apply (order_by_sorted
               (fun a b : string * string * nat => text_le (fst (fst a)) (fst (fst b)))).
      intros a b. apply String.leb_total. }
  simpl. split; [exact Hstudents|]. split; [exact Hstudents|].
  apply (sorted_once (fun r : string * nat * nat => fst (fst r))).
  - eapply Permutation_NoDup.
    + apply Permutation_sym, Permutation_map, enrollments_per_code_rows, Hcodes.
    + rewrite map_map. exact Hcodes.
  - eapply perm_trans; [apply enrollments_per_code_rows, Hcodes|].
    apply Permutation_sym, enrollments_per_section_rows, Hcodes.
  - apply (order_by_sorted
             (fun a b : string * nat * nat => text_le (fst (fst a)) (fst (fst b)))).
    intros a b. apply String.leb_total.
  - apply (order_by_sorted
             (fun a b : string * nat * nat => text_le (fst (fst a)) (fst (fst b)))).
    intros a b. apply String.leb_total.
Qed.

Lemma pages_show_the_same_tables_example :
  let student_page :=
    StudentListView_get_context_data (mkRequest []) scenario_with_empty_section in
  let section_page :=
    SectionListView_get_context_data (mkRequest []) scenario_with_empty_section in
  let reports_page := ReportsView_get_context_data scenario_with_empty_section in
  ctx_students_per_section student_page = sctx_students_per_section section_page /\
  rctx_students_per_section reports_page = sctx_students_per_section section_page /\
  ctx_enrollments_per_section student_page = sctx_enrollments_per_section section_page.
Proof.
  apply (pages_show_the_same_tables (mkRequest []) scenario_with_empty_section).
  simpl. repeat (constructor; [simpl; intuition discriminate|]). constructor.
Defined.

(** Two Sections that share a code, as only a database without the
    [unique=True] of [code] could hold them: the student list page merges
    them, the section list page does not. *)
Example shared_code_tables_differ :
  let db := {| Section_objects := [mkSection 1 "A" "Lab" ""; mkSection 2 "A" "Lab" ""];
               Student_objects := [mkStudent 1 "Ann" "Lee" "" "ann@example.com" 1];
               Enrollment_objects := [] |} in
  ctx_students_per_section (StudentListView_get_context_data (mkRequest []) db)
    = [("A", "Lab", 1%nat)] /\
  sctx_students_per_section (SectionListView_get_context_data (mkRequest []) db)
    = [("A", "Lab", 1%nat); ("A", "Lab", 0%nat)].
Proof. split; reflexivity. Qed.

End PagesAgree.

(* ================================================================== *)
(** ** More on the roster endpoints: what the query is read as *)

Module QueryFacts.
Import Text Orm Queries Views OrmFacts TextFacts Spec TextProps Roster Fixtures.

Lemma lstrip_blank (s : string) : blank s = true -> lstrip s = "".
Proof.
  induction s as [|c s IH]; simpl; [reflexivity|].
  intros H. apply andb_true_iff in H. destruct H as [Hc Hs].
  rewrite Hc. apply IH. exact Hs.
Qed.

Lemma rstrip_blank (s : string) : blank s = true -> rstrip s = "".
Proof.
  induction s as [|c s IH]; simpl; [reflexivity|].
  intros H. apply andb_true_iff in H. destruct H as [Hc Hs].
  rewrite (IH Hs), Hc. reflexivity.
Qed.

Lemma lstrip_after_blank (pad s : string) :
  blank pad = true -> lstrip (pad ++ s) = lstrip s.
Proof.
  induction pad as [|c pad IH]; simpl; [reflexivity|].
  intros H. apply andb_true_iff in H. destruct H as [Hc Hpad].
  rewrite Hc. apply IH. exact Hpad.
Qed.

Lemma rstrip_before_blank (s pad : string) :
  blank pad = true -> rstrip (s ++ pad) = rstrip s.
Proof.
  intros Hpad. induction s as [|c s IH]; simpl.
  - apply rstrip_blank. exact Hpad.
  - rewrite IH. reflexivity.
Qed.

Lemma strip_before_blank (s pad : string) :
  blank pad = true -> strip (s ++ pad) = strip s.
Proof.
  intros Hpad. unfold strip. induction s as [|c s IH]; simpl.
  - rewrite (lstrip_blank pad Hpad). reflexivity.
  - destruct (isspace c); [exact IH|].
    apply (rstrip_before_blank (String c s)). exact Hpad.
Qed.

(** Whitespace around a text does not change what [strip] returns. *)
Lemma strip_padded (left_pad s right_pad : string) :
  blank left_pad = true -> blank right_pad = true ->
  strip (left_pad ++ s ++ right_pad) = strip s.
Proof.
  intros Hl Hr. unfold strip. rewrite (lstrip_after_blank left_pad _ Hl).
  apply (strip_before_blank s right_pad Hr).
Qed.

Lemma isspace_fold_char (c : ascii) : isspace (fold_char c) = isspace c.
Proof. destruct c as [[] [] [] [] [] [] [] []]; reflexivity. Qed.

Lemma fold_char_twice (c : ascii) : fold_char (fold_char c) = fold_char c.
Proof. destruct c as [[] [] [] [] [] [] [] []]; reflexivity. Qed.

Lemma fold_case_twice (s : string) : fold_case (fold_case s) = fold_case s.
Proof.
  induction s as [|c s IH]; simpl; [reflexivity|].
  rewrite fold_char_twice, IH. reflexivity.
Qed.

Lemma lstrip_fold_case (s : string) : lstrip (fold_case s) = fold_case (lstrip s).
Proof.
  induction s as [|c s IH]; simpl; [reflexivity|].
  rewrite isspace_fold_char. destruct (isspace c); [exact IH | reflexivity].
Qed.

Lemma rstrip_fold_case (s : string) : rstrip (fold_case s) = fold_case (rstrip s).
Proof.
  induction s as [|c s IH]; simpl; [reflexivity|].
  rewrite IH, isspace_fold_char.
  destruct (rstrip s); simpl; [destruct (isspace c)|]; reflexivity.
Qed.

Lemma strip_fold_case (s : string) : strip (fold_case s) = fold_case (strip s).
Proof. unfold strip. rewrite lstrip_fold_case. apply rstrip_fold_case. Qed.

Lemma truthy_fold_case (s : string) : truthy (fold_case s) = truthy s.
Proof. destruct s; reflexivity. Qed.

(** The roster depends on the query only through its case-folded form. *)
Lemma selected_by_folded_query (q1 q2 : string) (db : Database) :
  fold_case q1 = fold_case q2 -> selected q1 db = selected q2 db.
Proof.
  intros Hfold. unfold selected.
  rewrite <- (truthy_fold_case q1), <- (truthy_fold_case q2), Hfold.
  destruct (truthy (fold_case q2)); [|reflexivity].
  apply filter_ext. intros st. unfold Q_name_icontains, icontains.
  rewrite Hfold. reflexivity.
Qed.

Lemma api_students_by_folded_query (r1 r2 : HttpRequest) (db : Database) :
  fold_case (stripped_q r1) = fold_case (stripped_q r2) ->
  api_students r1 db = api_students r2 db /\
  StudentsAPI_get r1 db = StudentsAPI_get r2 db.
Proof.
  intros Hfold. rewrite !api_students_selected, !StudentsAPI_get_selected.
  rewrite (selected_by_folded_query _ _ db Hfold). split; reflexivity.
Qed.

Lemma stripped_q_single (v : string) : stripped_q (mkRequest [("q", v)]) = strip v.
Proof. rewrite stripped_q_raw. reflexivity. Qed.

(** X5.  The function view [api_students] and the class view
    [StudentsAPI.get] answer every request on every database with the
    same response, whether the filter is applied before [values] or
    after. *)
Theorem function_and_class_endpoints_agree (request : HttpRequest) (db : Database) :
  api_students request db = StudentsAPI_get request db.
Proof.
  rewrite api_students_selected, StudentsAPI_get_selected. reflexivity.
Qed.

(** X6.  Whitespace before and after the query makes no difference to
    the roster endpoints: [q] given as [left_pad ++ q ++ right_pad], the
    pads being whitespace, is answered as [q] is. *)
Theorem padding_of_query_ignored (left_pad q right_pad : string) (db : Database) :
  blank left_pad = true -> blank right_pad = true ->
  api_students (mkRequest [("q", (left_pad ++ q ++ right_pad)%string)]) db
    = api_students (mkRequest [("q", q)]) db /\
  StudentsAPI_get (mkRequest [("q", (left_pad ++ q ++ right_pad)%string)]) db
    = StudentsAPI_get (mkRequest [("q", q)]) db.
Proof.
  intros Hl Hr. apply api_students_by_folded_query.
  rewrite !stripped_q_single, (strip_padded _ _ _ Hl Hr). reflexivity.
Qed.

Lemma padding_of_query_ignored_example :
  api_students (mkRequest [("q", "  lee ")]) roster_db
    = api_students (mkRequest [("q", "lee")]) roster_db /\
  StudentsAPI_get (mkRequest [("q", "  lee ")]) roster_db
    = StudentsAPI_get (mkRequest [("q", "lee")]) roster_db.
Proof.
  apply (padding_of_query_ignored "  " "lee" " " roster_db); reflexivity.
Defined.

(** X7.  Two queries that differ only in the case of their ASCII letters
    are answered alike by the roster endpoints. *)
Theorem case_of_query_ignored (q1 q2 : string) (db : Database) :
  fold_case q1 = fold_case q2 ->
  api_students (mkRequest [("q", q1)]) db = api_students (mkRequest [("q", q2)]) db /\
  StudentsAPI_get (mkRequest [("q", q1)]) db = StudentsAPI_get (mkRequest [("q", q2)]) db.
Proof.
  intros Hfold. apply api_students_by_folded_query.
  rewrite !stripped_q_single, <- !strip_fold_case, Hfold. reflexivity.
Qed.

Lemma case_of_query_ignored_example :
  api_students (mkRequest [("q", "ANN")]) roster_db
    = api_students (mkRequest [("q", "ann")]) roster_db /\
  StudentsAPI_get (mkRequest [("q", "ANN")]) roster_db
    = StudentsAPI_get (mkRequest [("q", "ann")]) roster_db.
Proof.
  apply (case_of_query_ignored "ANN" "ann" roster_db). reflexivity.
Defined.

Lemma with_section_length_filter (db : Database) (keep : Student -> bool)
      (l : list Student) :
  (List.length (with_section db (filter keep l)) <= List.length (with_section db l))%nat.
Proof.
  unfold with_section, inner_join. induction l as [|st l IH]; simpl; [lia|].
  destruct (keep st); simpl; rewrite ?length_app; lia.
Qed.

Lemma with_section_incl (db : Database) (l l' : list Student) :
  incl l l' -> incl (with_section db l) (with_section db l').
Proof.
  intros Hincl r Hr. unfold with_section, inner_join in *.
  apply in_flat_map in Hr. destruct Hr as [st [Hst Hr]].
  apply in_flat_map. exists st. split; [apply Hincl; exact Hst | exact Hr].
Qed.

(** X8.  A query never adds to the roster: whatever [q] is, every result
    of the roster endpoint is also a result of the request without [q],
    and [count] is at most the count of that request. *)
Theorem query_only_narrows (request : HttpRequest) (db : Database) :
  exists rows all_rows : list (Student * Section),
    api_students request db = JsonResponse_ok (roster_payload rows) /\
    api_students (mkRequest []) db = JsonResponse_ok (roster_payload all_rows) /\
    incl rows all_rows /\
    (List.length rows <= List.length all_rows)%nat.
Proof.
  exists (order_by by_student_name (with_section db (selected (stripped_q request) db))),
         (order_by by_student_name (with_section db (Student_objects db))).
  split; [apply api_students_selected|].
  split; [apply api_students_selected|]. split.
  - intros r Hr. apply order_by_In in Hr. apply order_by_In.
    eapply with_section_incl; [|exact Hr].
    intros st. apply selected_subset.
  - rewrite !order_by_length. unfold selected.
    destruct (truthy (stripped_q request)); [apply with_section_length_filter | lia].
Qed.

(** X21.  What the search of the student list page finds, the roster
    endpoint finds too: when every Student refers to exactly one Section
    and [q] is not empty and has no whitespace at its ends, every Student
    among the page's search results for [q] is among the results of
    [api_students] for the same request. *)
Theorem page_search_within_api_results
        (request : HttpRequest) (db : Database) (q : string) :
  students_have_sections db ->
  QueryDict_get "q" (GET request) = Some q -> q <> "" -> strip q = q ->
  exists (found : list Student) (rows : list (Student * Section)),
    ctx_search_results (StudentListView_get_context_data request db) = Some found /\
    api_students request db = JsonResponse_ok (roster_payload rows) /\
    incl found (map fst rows).
Proof.
  intros Hdb Hget Hq Hstrip. apply truthy_nonempty in Hq.
  assert (Hsq : stripped_q request = q).
  { rewrite stripped_q_raw, Hget. exact Hstrip. }
  exists (order_by by_name
            (filter (fun st => icontains (first_name st) q) (Student_objects db))),
         (order_by by_student_name (with_section db (selected q db))).
  split; [|split].
  - unfold StudentListView_get_context_data. simpl. rewrite Hget, Hq. reflexivity.
  - rewrite api_students_selected, Hsq. reflexivity.
  - intros st Hst. apply order_by_In in Hst. apply filter_In in Hst.
    destruct Hst as [Hin Hfirst].
    eapply Permutation_in.
    + apply Permutation_sym. apply ordered_rows_students; [exact Hdb|].
      apply selected_subset.
    + unfold selected. rewrite Hq. apply filter_In. split; [exact Hin|].
      unfold Q_name_icontains. rewrite Hfirst. reflexivity.
Qed.

Lemma page_search_within_api_results_example :
  exists (found : list Student) (rows : list (Student * Section)),
    ctx_search_results
      (StudentListView_get_context_data (mkRequest [("q", "ann")]) roster_db)
      = Some found /\
    api_students (mkRequest [("q", "ann")]) roster_db
      = JsonResponse_ok (roster_payload rows) /\
    incl found (map fst rows).
Proof.
  apply (page_search_within_api_results (mkRequest [("q", "ann")]) roster_db "ann").
  - split.
    + simpl. constructor; [intros []|constructor].
    + intros st Hin. exists cs101. split; [left; reflexivity|].
      simpl in Hin. destruct Hin as [<-|[<-|[]]]; reflexivity.
  - reflexivity.
  - discriminate.
  - reflexivity.
Defined.

End QueryFacts.

(* ================================================================== *)
(** ** students/forms.py: what the cleaned names look like *)

Module FormFacts.
Import Text Forms TextProps QueryFacts.

Lemma lstrip_split (s : string) :
  exists pad, blank pad = true /\ s = (pad ++ lstrip s)%string.
Proof.
  induction s as [|c s [pad [Hpad Hs]]]; simpl.
  - exists EmptyString. split; reflexivity.
  - destruct (isspace c) eqn:Hc.
    + exists (String c pad). simpl. rewrite Hc, Hpad, <- Hs. split; reflexivity.
    + exists EmptyString. split; reflexivity.
Qed.

Lemma rstrip_split (s : string) :
  exists pad, blank pad = true /\ s = (rstrip s ++ pad)%string.
Proof.
  induction s as [|c s [pad [Hpad Hs]]]; simpl.
  - exists EmptyString. split; reflexivity.
  - destruct (rstrip s) as [|b kept] eqn:Hkept.
    + simpl in Hs. subst s. destruct (isspace c) eqn:Hc.
      * exists (String c pad). simpl. rewrite Hc, Hpad. split; reflexivity.
      * exists pad. split; [exact Hpad | reflexivity].
    + exists pad. split; [exact Hpad|]. simpl. rewrite Hs at 1. reflexivity.
Qed.

Lemma lstrip_head (s : string) :
  match lstrip s with
  | EmptyString => True
  | String c _ => isspace c = false
  end.
Proof.
  induction s as [|c s IH]; simpl; [exact I|].
  destruct (isspace c) eqn:Hc; [exact IH | exact Hc].
Qed.

Lemma rstrip_keeps_head (c : ascii) (s : string) :
  isspace c = false -> exists kept, rstrip (String c s) = String c kept.
Proof.
  intros Hc. simpl. destruct (rstrip s); [rewrite Hc|]; eexists; reflexivity.
Qed.

Lemma rstrip_last (s before : string) (c : ascii) :
  rstrip s = (before ++ String c EmptyString)%string -> isspace c = false.
Proof.
  revert before. induction s as [|a s IH]; intros before; simpl.
  - destruct before; discriminate.
  - destruct (rstrip s) as [|b kept] eqn:Hkept.
    + destruct (isspace a) eqn:Ha.
      * destruct before; discriminate.
      * destruct before as [|x before]; simpl; intros H; inversion H; subst.
        -- exact Ha.
        -- destruct before; discriminate.
    + destruct before as [|x before]; simpl; intros H; inversion H; subst.
      eapply IH. eassumption.
Qed.

Lemma strip_trimmed (s : string) : trimmed (strip s).
Proof.
  unfold trimmed, strip. split.
  - pose proof (lstrip_head s) as Hhead.
    destruct (lstrip s) as [|c t]; [exact I|].
    destruct (rstrip_keeps_head c t Hhead) as [kept ->]. exact Hhead.
  - intros before c. apply rstrip_last.
Qed.

Lemma strip_split (s : string) :
  exists left_pad right_pad,
    blank left_pad = true /\ blank right_pad = true /\
    s = (left_pad ++ strip s ++ right_pad)%string.
Proof.
  destruct (lstrip_split s) as [l [Hl Hs]].
  destruct (rstrip_split (lstrip s)) as [r [Hr Hls]].
  exists l, r. split; [exact Hl|]. split; [exact Hr|].
  unfold strip. rewrite <- Hls. exact Hs.
Qed.

(** X9.  [StudentForm.clean_first_name] and [clean_last_name] return the
    name they are given without the whitespace at its two ends: the name
    is the cleaned name with whitespace around it, the cleaned name
    neither starts nor ends with whitespace, and cleaning it again
    changes nothing. *)
Theorem cleaned_names_are_trimmed (submitted : string) :
  (exists left_pad right_pad,
      blank left_pad = true /\ blank right_pad = true /\
      submitted = (left_pad ++ clean_first_name submitted ++ right_pad)%string) /\
  trimmed (clean_first_name submitted) /\
  clean_first_name (clean_first_name submitted) = clean_first_name submitted /\
  clean_last_name submitted = clean_first_name submitted.
Proof.
  unfold clean_last_name, clean_first_name.
  split; [apply strip_split|]. split; [apply strip_trimmed|].
  split; [|reflexivity].
  destruct (strip_split submitted) as [l [r [Hl [Hr Hs]]]].
  rewrite Hs at 2. symmetry. apply strip_padded; assumption.
Qed.

End FormFacts.

(* ================================================================== *)
(** ** The list pages and the detail page *)

Module PageFacts.
Import Text Orm Queries Views Pages OrmFacts Spec Integrity NameOrder Roster Fixtures.

Lemma by_enrollment_meta_total (a b : Enrollment * Student) :
  by_enrollment_meta a b = true \/ by_enrollment_meta b a = true.
Proof.
  unfold by_enrollment_meta.
  destruct (enroll_id (fst b) <? enroll_id (fst a)) eqn:E1; [left; reflexivity|].
  destruct (enroll_id (fst a) <? enroll_id (fst b)) eqn:E2; [right; reflexivity|].
  apply by_name_total.
Qed.

Lemma by_enrollment_meta_newest_first (a b : Enrollment * Student) :
  by_enrollment_meta a b = true -> newest_first (fst a) (fst b).
Proof.
  unfold by_enrollment_meta, newest_first.
  destruct (enroll_id (fst b) <? enroll_id (fst a)) eqn:E1.
  - intros _. apply Z.ltb_lt in E1. lia.
  - destruct (enroll_id (fst a) <? enroll_id (fst b)) eqn:E2; [discriminate|].
    intros _. apply Z.ltb_ge in E2. exact E2.
Qed.

Lemma Enrollment_ordered_sorted (db : Database) (l : list Enrollment) :
  Sorted newest_first (Enrollment_ordered db l).
Proof.
  unfold Enrollment_ordered. apply Sorted_map.
  eapply Sorted_weaken; [|apply (order_by_sorted by_enrollment_meta)].
  - intros a b. apply by_enrollment_meta_newest_first.
  - apply by_enrollment_meta_total.
Qed.

(** A join in which every left row has one match keeps the left rows. *)
Lemma inner_join_keeps_left {A B : Type} (on : A -> B -> bool) (l : list A) (r : list B) :
  (forall a, In a l -> exists b, filter (on a) r = [b]) ->
  map fst (inner_join on l r) = l.
Proof.
  unfold inner_join. induction l as [|a l IH]; intros Hone; simpl; [reflexivity|].
  destruct (Hone a (or_introl eq_refl)) as [b Hb]. rewrite Hb. simpl.
  f_equal. apply IH. intros x Hx. apply Hone. right. exact Hx.
Qed.

Lemma Enrollment_ordered_perm (db : Database) (l : list Enrollment) :
  NoDup (map student_id (Student_objects db)) ->
  (forall e, In e l -> exists st, In st (Student_objects db) /\ student_id st = student e) ->
  Permutation (Enrollment_ordered db l) l.
Proof.
  intros Hnd Hfk. unfold Enrollment_ordered.
  eapply perm_trans; [apply Permutation_map, order_by_perm|].
  unfold with_student. rewrite inner_join_keeps_left; [apply Permutation_refl|].
  intros e He. destruct (Hfk e He) as [st [Hst Hid]]. exists st.
  rewrite <- Hid. apply (filter_by_key student_id); assumption.
Qed.

Lemma Student_get_found (db : Database) (st : Student) :
  NoDup (map student_id (Student_objects db)) -> In st (Student_objects db) ->
  Student_get db (student_id st) = Got st.
Proof.
  intros Hnd Hin. unfold Student_get.
  rewrite (filter_by_key student_id _ st Hnd Hin). reflexivity.
Qed.

(** X10.  [StudentDetail.get] answers 404 exactly when no Student has the
    key asked for.  When the Student keys are distinct and a Student has
    that key, it renders the detail template with that Student and with
    exactly the Enrollments whose [student] is the key, newest first,
    none more often than it is stored. *)
Theorem student_detail_outcomes (request : HttpRequest) (db : Database) (pk : Z) :
  (StudentDetail_get request db pk = Http404 <->
   ~ exists st, In st (Student_objects db) /\ student_id st = pk) /\
  (NoDup (map student_id (Student_objects db)) ->
   forall st, In st (Student_objects db) -> student_id st = pk ->
   exists enrollments,
     StudentDetail_get request db pk =
       Rendered "students/student_detail.html"
                {| single_student_var_for_looping := st;
                   enrollments_var_for_looping := enrollments |} /\
     (forall e, In e enrollments <->
                In e (Enrollment_objects db) /\ student e = pk) /\
     Sorted newest_first enrollments /\
     (NoDup (Enrollment_objects db) -> NoDup enrollments)).
Proof.
  split.
  - unfold StudentDetail_get, Student_get.
    destruct (filter (fun st => student_id st =? pk) (Student_objects db))
      as [|st [|st' more]] eqn:Hf.
    + split; [|reflexivity]. intros _ [st [Hin Hid]].
      assert (H : In st (filter (fun st => student_id st =? pk) (Student_objects db))).
      { apply filter_In. split; [exact Hin | apply Z.eqb_eq; exact Hid]. }
      rewrite Hf in H. destruct H.
    + split; [discriminate|]. intros Hno. exfalso. apply Hno. exists st.
      assert (H : In st (filter (fun st => student_id st =? pk) (Student_objects db))).
      { rewrite Hf. left. reflexivity. }
      apply filter_In in H. rewrite Z.eqb_eq in H. exact H.
    + split; [discriminate|]. intros Hno. exfalso. apply Hno. exists st.
      assert (H : In st (filter (fun st => student_id st =? pk) (Student_objects db))).
      { rewrite Hf. left. reflexivity. }
      apply filter_In in H. rewrite Z.eqb_eq in H. exact H.
  - intros Hnd st Hin <-. unfold StudentDetail_get.
    rewrite (Student_get_found db st Hnd Hin).
    set (mine := filter (fun e => student e =? student_id st) (Enrollment_objects db)).
    assert (Hperm : Permutation (Enrollment_ordered db mine) mine).
    { apply Enrollment_ordered_perm; [exact Hnd|].
      intros e He. apply filter_In in He. destruct He as [_ He].
      exists st. split; [exact Hin | symmetry; apply Z.eqb_eq; exact He]. }
    eexists. split; [reflexivity|]. split; [|split].
    + intros e. split.
      * intros He. eapply Permutation_in in He; [|exact Hperm].
        apply filter_In in He. rewrite Z.eqb_eq in He. exact He.
      * intros He. eapply Permutation_in; [apply Permutation_sym, Hperm|].
        apply filter_In. rewrite Z.eqb_eq. exact He.
    + apply Enrollment_ordered_sorted.
    + intros Hnd'. eapply Permutation_NoDup; [apply Permutation_sym, Hperm|].
      apply NoDup_filter. exact Hnd'.
Qed.

(** On [scenario_db], Alice's page lists her two Enrollments, the later
    one first, and there is no page for key 9. *)
Lemma student_detail_outcomes_scenario :
  StudentDetail_get (mkRequest []) scenario_db 9 = Http404 /\
  exists enrollments,
    StudentDetail_get (mkRequest []) scenario_db 1 =
      Rendered "students/student_detail.html"
               {| single_student_var_for_looping :=
                    mkStudent 1 "Alice" "Johnson" "" "alice@example.com" 1;
                  enrollments_var_for_looping := enrollments |} /\
    (forall e, In e enrollments <->
               In e (Enrollment_objects scenario_db) /\ student e = 1) /\
    Sorted newest_first enrollments /\
    (NoDup (Enrollment_objects scenario_db) -> NoDup enrollments).
Proof.
  split.
  - apply (proj1 (student_detail_outcomes (mkRequest []) scenario_db 9)).
    intros [st [Hin Hid]]. simpl in Hin.
    destruct Hin as [<-|[<-|[]]]; discriminate Hid.
  - apply (proj2 (student_detail_outcomes (mkRequest []) scenario_db 1)).
    + simpl. repeat (constructor; [simpl; intuition discriminate|]). constructor.
    + left. reflexivity.
    + reflexivity.
Defined.

(** X11.  The three list pages show their table in the order of the
    model's [Meta.ordering]: the Students by last name then first name,
    the Sections by code, the Enrollments newest first.  The Students and
    the Sections are always all there, each once; the Enrollments are
    when each refers to exactly one Student. *)
Theorem list_pages_show_each_row_once (db : Database) :
  (Permutation (StudentListView_object_list db) (Student_objects db) /\
   Sorted (fun a b => last_then_first (last_name a) (first_name a)
                                      (last_name b) (first_name b))
          (StudentListView_object_list db)) /\
  (Permutation (SectionListView_object_list db) (Section_objects db) /\
   Sorted (fun a b => ascending (code a) (code b)) (SectionListView_object_list db)) /\
  Sorted newest_first (EnrollmentListView_object_list db) /\
  (enrollments_have_students db ->
   Permutation (EnrollmentListView_object_list db) (Enrollment_objects db)).
Proof.
  split; [|split; [|split]].
  - split; [apply order_by_perm | apply order_by_name_sorted].
  - split; [apply order_by_perm|].
    apply (order_by_sorted (fun a b : Section => text_le (code a) (code b))).
    intros a b. apply String.leb_total.
  - apply Enrollment_ordered_sorted.
  - intros [Hnd Hfk]. apply Enrollment_ordered_perm; assumption.
Qed.

Lemma list_pages_show_each_row_once_roster :
  EnrollmentListView_object_list roster_db = [mkEnrollment 1 1 1 0 true] /\
  Permutation (EnrollmentListView_object_list roster_db) (Enrollment_objects roster_db).
Proof.
  split; [reflexivity|].
  apply (proj2 (proj2 (proj2 (list_pages_show_each_row_once roster_db)))).
  split.
  - simpl. repeat (constructor; [simpl; intuition discriminate|]). constructor.
  - intros e Hin. exists ann. split; [left; reflexivity|].
    simpl in Hin. destruct Hin as [<-|[]]. reflexivity.
Defined.

(** An Enrollment of a Student that is not stored is not listed. *)
Example dangling_enrollment_not_listed :
  EnrollmentListView_object_list
    {| Section_objects := [cs101]; Student_objects := [ann];
       Enrollment_objects := [mkEnrollment 1 7 1 0 true] |} = [].
Proof. reflexivity. Qed.

End PageFacts.

(* ================================================================== *)
(** ** URLs: from a Student to its page and back *)

Module UrlFacts.
Import Text Urls Pages.

Lemma string_of_uint_digits (d : Decimal.uint) :
  all_digits (NilEmpty.string_of_uint d) = true.
Proof. induction d; simpl; try rewrite IHd; reflexivity. Qed.

Lemma string_of_uint_nonempty (d : Decimal.uint) :
  d <> Decimal.Nil -> NilEmpty.string_of_uint d <> EmptyString.
Proof. destruct d; simpl; intros H; [contradiction|..]; discriminate. Qed.

(** [str] of a key that is not negative is a run of digits that [int]
    reads back as the key. *)
Lemma str_of_key (pk : Z) :
  0 <= pk ->
  all_digits (str_of_int pk) = true /\
  str_of_int pk <> EmptyString /\
  int_of_digits (str_of_int pk) = Some pk.
Proof.
  intros Hpk. unfold str_of_int, int_of_digits.
  assert (H : exists d, Z.to_int pk = Decimal.Pos d /\ d <> Decimal.Nil /\ Z.of_uint d = pk).
  { destruct pk as [|p|p]; [| |lia].
    - exists Decimal.zero. repeat split. discriminate.
    - exists (Pos.to_uint p). split; [reflexivity|].
      split; [apply DecimalPos.Unsigned.to_uint_nonnil|].
      exact (DecimalZ.of_to (Z.pos p)). }
  destruct H as [d [-> [Hd Hof]]]. simpl.
  assert (Hs : NilZero.string_of_uint d = NilEmpty.string_of_uint d).
  { destruct d; [contradiction|..]; reflexivity. }
  rewrite Hs. split; [apply string_of_uint_digits|].
  split; [apply string_of_uint_nonempty; exact Hd|].
  rewrite NilEmpty.usu. simpl. rewrite Hof. reflexivity.
Qed.

Lemma append_assoc (a b c : string) : ((a ++ b) ++ c = a ++ (b ++ c))%string.
Proof. induction a as [|x a IH]; simpl; [reflexivity | rewrite IH; reflexivity]. Qed.

Section Digits.
Context {R : Type}.
Variable continue : Z -> string -> option R.

Lemma after_digits_stops (taken rest : string) :
  no_digit_ahead rest -> after_digits continue taken rest = None.
Proof.
  destruct rest as [|c rest]; simpl; [reflexivity|]. intros ->. reflexivity.
Qed.

(** A run of digits followed by something else is taken whole, when the
    rest of the pattern matches what follows. *)
Lemma after_digits_run (digits taken rest : string) (n : Z) (r : R) :
  all_digits digits = true -> digits <> EmptyString -> no_digit_ahead rest ->
  int_of_digits (taken ++ digits) = Some n -> continue n rest = Some r ->
  after_digits continue taken (digits ++ rest) = Some r.
Proof.
  revert taken. induction digits as [|c digits IH]; intros taken Hall Hne Hrest Hint Hk.
  - contradiction.
  - simpl in Hall. apply andb_true_iff in Hall. destruct Hall as [Hc Hall].
    simpl. rewrite Hc.
    destruct digits as [|c' digits'].
    + simpl. rewrite (after_digits_stops _ rest Hrest). rewrite Hint. exact Hk.
    + rewrite (IH (taken ++ String c EmptyString)%string); try assumption.
      * reflexivity.
      * discriminate.
      * rewrite append_assoc. exact Hint.
Qed.
End Digits.

Lemma detail_route_matches (digits : string) (pk : Z) :
  all_digits digits = true -> digits <> EmptyString ->
  int_of_digits digits = Some pk ->
  match_route [Literal "student/"; IntConverter "primary_key"; Literal "/"]
              ("student/" ++ digits ++ "/")
  = Some [("primary_key", pk)].
Proof.
  intros Hall Hne Hint.
  change (match_route [Literal "student/"; IntConverter "primary_key"; Literal "/"]
                      ("student/" ++ digits ++ "/"))
    with (after_digits
            (fun n s' => option_map (cons ("primary_key", n)) (match_route [Literal "/"] s'))
            EmptyString (digits ++ "/")%string).
  apply (after_digits_run _ digits EmptyString "/" pk); try assumption; reflexivity.
Qed.

Lemma detail_url_resolves (digits : string) (pk : Z) :
  all_digits digits = true -> digits <> EmptyString ->
  int_of_digits digits = Some pk ->
  resolve ("/student/" ++ digits ++ "/") = Some (V_StudentDetail, [("primary_key", pk)]).
Proof.
  intros Hall Hne Hint.
  pose proof (detail_route_matches digits pk Hall Hne Hint) as Hm.
  change (resolve ("/student/" ++ digits ++ "/"))
    with (match match_route [Literal "student/"] ("student/" ++ digits ++ "/") with
          | Some kwargs => Some (V_StudentListView, kwargs)
          | None =>
              match match_route [Literal "student/"; IntConverter "primary_key"; Literal "/"]
                                ("student/" ++ digits ++ "/") with
              | Some kwargs => Some (V_StudentDetail, kwargs)
              | None => first_match (skipn 4 urlpatterns) ("student/" ++ digits ++ "/")
              end
          end).
  rewrite Hm.
  destruct digits as [|c digits]; [contradiction | reflexivity].
Qed.

(** X12.  The URL that [Student.get_absolute_url] gives for a Student
    whose key is not negative is [/student/<key>/], and resolving it
    leads to [StudentDetail] with that key as [primary_key]; for a
    negative key there is no URL ([NoReverseMatch]). *)
Theorem student_url_round_trip (st : Student) :
  (0 <= student_id st ->
   Student_get_absolute_url st
     = Some ("/student/" ++ str_of_int (student_id st) ++ "/")%string /\
   resolve ("/student/" ++ str_of_int (student_id st) ++ "/")
     = Some (V_StudentDetail, [("primary_key", student_id st)])) /\
  (student_id st < 0 -> Student_get_absolute_url st = None).
Proof.
  split.
  - intros Hpk. destruct (str_of_key (student_id st) Hpk) as [Hall [Hne Hint]].
    split; [|apply detail_url_resolves; assumption].
    unfold Student_get_absolute_url.
    change (reverse "student-detail-url" [("primary_key", student_id st)])
      with (match
              match match_route
                      [Literal "student/"; IntConverter "primary_key"; Literal "/"]
                      ("student/" ++ str_of_int (student_id st) ++ "/") with
              | Some _ => Some ("/student/" ++ str_of_int (student_id st) ++ "/")%string
              | None => None
              end
            with
            | Some url => Some url
            | None => None
            end).
    rewrite (detail_route_matches _ _ Hall Hne Hint). reflexivity.
  - intros Hneg. unfold Student_get_absolute_url.
    destruct (student_id st) as [|p|p] eqn:Hid; [lia | lia |].
    reflexivity.
Qed.

Lemma student_url_round_trip_example :
  Student_get_absolute_url (mkStudent 12 "Ann" "Lee" "" "ann@example.com" 1)
    = Some "/student/12/" /\
  resolve "/student/12/" = Some (V_StudentDetail, [("primary_key", 12)]).
Proof.
  apply (proj1 (student_url_round_trip
                  (mkStudent 12 "Ann" "Lee" "" "ann@example.com" 1))).
  simpl. lia.
Defined.

(** X13.  No route of students/urls.py takes the place of another: the
    URL of every pattern without parameters resolves to the view that
    pattern names, not to an earlier pattern, to the admin site or to the
    root redirect. *)
Theorem every_route_reaches_its_view (p : URLPattern) (text : string) :
  In p urlpatterns -> route p = [Literal text] ->
  resolve (String "/" text) = Some (callback p, []).
Proof.
  intros Hin Hroute. unfold urlpatterns in Hin. simpl in Hin.
  repeat (destruct Hin as [<-|Hin];
          [simpl in Hroute; first [discriminate Hroute
                                  | inversion Hroute; subst text; reflexivity]|]).
  destruct Hin.
Qed.

Lemma every_route_reaches_its_view_example :
  resolve "/api/class-students/" = Some (V_StudentsAPI, []).
Proof.
  apply (every_route_reaches_its_view
           (path [Literal "api/class-students/"] V_StudentsAPI "api-students")
           "api/class-students/").
  - simpl. do 14 right. left. reflexivity.
  - reflexivity.
Defined.

End UrlFacts.

(* ================================================================== *)
(** ** The chart reads what the API writes *)

Module ChartFacts.
Import Py Charts Queries Views Urls.

Lemma series_column (key : string) (column : string * nat * nat -> JSON)
      (rows : list (string * nat * nat)) :
  (forall r, getitem key (values_enrollments r) = Ok (column r)) ->
  comprehension (getitem key) (map values_enrollments rows) = Ok (map column rows).
Proof.
  intros Hkey. induction rows as [|r rows IH]; [reflexivity|].
  change (comprehension (getitem key) (map values_enrollments (r :: rows)))
    with (bind (getitem key (values_enrollments r))
               (fun b => bind (comprehension (getitem key) (map values_enrollments rows))
                              (fun bs => Ok (b :: bs)))).
  rewrite Hkey, IH. reflexivity.
Qed.

(** X14.  [enrollments_chart_png] asks for the URL named
    [api-enrollments-per-section], which is the one served by
    [api_enrollments_per_section]; and on the payload that view returns,
    for every database, the chart's reading of it raises nothing and
    yields the codes, the [n_all] counts and the [n_active] counts of the
    view's rows, in the same order.  A payload object without [results]
    gives three empty series rather than an error. *)
Theorem chart_reads_what_the_api_writes (request : HttpRequest) (db : Database) :
  (exists url,
      reverse "api-enrollments-per-section" [] = Some url /\
      resolve url = Some (V_api_enrollments_per_section, [])) /\
  enrollments_chart_series (payload (api_enrollments_per_section request db))
    = Ok {| labels := map (fun r => JStr (fst (fst r))) (enrollments_per_section db);
            all_counts :=
              map (fun r => JInt_of_nat (snd (fst r))) (enrollments_per_section db);
            active_counts :=
              map (fun r => JInt_of_nat (snd r)) (enrollments_per_section db) |} /\
  (forall members, assoc "results" members = None ->
     enrollments_chart_series (JDict members)
     = Ok {| labels := []; all_counts := []; active_counts := [] |}).
Proof.
  split; [|split].
  - exists "/api/sections/enrollments/". split; reflexivity.
  - unfold enrollments_chart_series, api_enrollments_per_section. simpl.
    rewrite (series_column "code" (fun r => JStr (fst (fst r)))) by reflexivity.
    rewrite (series_column "n_all" (fun r => JInt_of_nat (snd (fst r)))) by reflexivity.
    rewrite (series_column "n_active" (fun r => JInt_of_nat (snd r))) by reflexivity.
    reflexivity.
  - intros members Hnone. unfold enrollments_chart_series. simpl.
    rewrite Hnone. reflexivity.
Qed.

End ChartFacts.

(* ================================================================== *)
(** ** The weather endpoint: what gets past the [except] clause *)

Module WeatherRaises.
Import Weather Spec WeatherFacts Fixtures.

(** X15.  When the fetch brings a response, [WeatherNow.get] raises
    exactly when the status is outside 400..599 and the body is JSON but
    not an object; what it raises then is an [AttributeError].  In every
    other case it returns a response, with status 200 or 502. *)
Theorem weather_raises_only_on_non_object_json (request : HttpRequest) (r : Response) :
  ((exists e, WeatherNow_get request (Return r) = Raise e) <->
   (~ 400 <= resp_status r < 600 /\
    exists v, resp_json r = Some v /\ forall members, v <> JDict members)) /\
  (forall e, WeatherNow_get request (Return r) = Raise e ->
             exists message, e = AttributeError message) /\
  (forall response, WeatherNow_get request (Return r) = Return response ->
                    status_code response = 200 \/ status_code response = 502).
Proof.
  unfold WeatherNow_get. simpl.
  assert (Hstatus : 400 <= resp_status r < 600 \/ ~ 400 <= resp_status r < 600) by lia.
  destruct Hstatus as [Herr|Hpass].
  - destruct (raise_for_status_error r Herr) as [message ->]. simpl.
    split; [split|split].
    + intros [e He]. discriminate He.
    + intros [Hno _]. contradiction.
    + intros e He. discriminate He.
    + intros response [= <-]. right. reflexivity.
  - rewrite (raise_for_status_pass r Hpass). simpl. unfold json.
    destruct (resp_json r) as [v|]; simpl.
    + destruct v; simpl;
        (split; [split|split];
         [ try (intros [e He]; discriminate He);
           try (intros _; split; [exact Hpass|]; eexists; split; [reflexivity|];
                intros members; discriminate)
         | try (intros _; eexists; reflexivity);
           try (intros [_ [v [[= <-] Hv]]]; exfalso; eapply Hv; reflexivity)
         | try (intros e [= <-]; eexists; reflexivity);
           try (intros e He; discriminate He)
         | try (intros response He; discriminate He);
           try (intros response [= <-]; left; reflexivity) ]).
    + split; [split|split].
      * intros [e He]. discriminate He.
      * intros [_ [v [Hv _]]]. discriminate Hv.
      * intros e He. discriminate He.
      * intros response [= <-]. right. reflexivity.
Qed.

(** A body that is a JSON list. *)
Lemma weather_raises_on_list_body :
  exists e, WeatherNow_get (mkRequest [])
              (Return (mkResponse 200 "OK" forecast_url (Some (JList [])))) = Raise e.
Proof.
  apply (proj1 (weather_raises_only_on_non_object_json
                  (mkRequest []) (mkResponse 200 "OK" forecast_url (Some (JList []))))).
  split; [simpl; lia|].
  exists (JList []). split; [reflexivity|]. intros members. discriminate.
Defined.

End WeatherRaises.

(* ================================================================== *)
(** ** The writes keep what the schema promises *)

Module IntegrityFacts.
Import Store Writes Integrity StoreFacts.

Lemma key_below_maximum (k : Z) (keys : list Z) :
  In k keys -> k <= fold_right Z.max 0 keys.
Proof.
  induction keys as [|x keys IH]; simpl; intros Hin; [destruct Hin|].
  destruct Hin as [->|Hin]; [lia|]. specialize (IH Hin). lia.
Qed.

Lemma next_key_unused (keys : list Z) : ~ In (next_key keys) keys.
Proof.
  intros Hin. apply key_below_maximum in Hin. unfold next_key in Hin. lia.
Qed.

Section Rows.
Context {A K : Type}.
Variable key : A -> K.

Lemma distinct_with_new_row (rows : list A) (x : A) :
  NoDup (map key rows) -> ~ In (key x) (map key rows) ->
  NoDup (map key (rows ++ [x])).
Proof.
  intros Hnd Hfresh. rewrite map_app. simpl.
  eapply Permutation_NoDup; [apply Permutation_cons_append|].
  constructor; assumption.
Qed.

Lemma distinct_without_rows (keep : A -> bool) (rows : list A) :
  NoDup (map key rows) -> NoDup (map key (filter keep rows)).
Proof.
  intros Hnd. induction rows as [|row rows IH]; simpl in *.
  - constructor.
  - apply NoDup_cons_iff in Hnd. destruct Hnd as [Hfresh Hrest].
    destruct (keep row); simpl; [|apply IH; exact Hrest].
    apply NoDup_cons_iff. split; [|apply IH; exact Hrest].
    intros Hin. apply Hfresh.
    apply (incl_map key (incl_filter keep rows)). exact Hin.
Qed.
End Rows.

Lemma code_free (db : Database) (s : Section) :
  code_taken db s = false -> ~ In (code s) (map code (Section_objects db)).
Proof.
  intros Hfree Hin. apply in_map_iff in Hin. destruct Hin as [x [Hx Hin]].
  assert (H : code_taken db s = true).
  { apply existsb_exists. exists x. split; [exact Hin | apply String.eqb_eq; exact Hx]. }
  congruence.
Qed.

Lemma email_free (db : Database) (st : Student) :
  email_taken db st = false -> ~ In (email st) (map email (Student_objects db)).
Proof.
  intros Hfree Hin. apply in_map_iff in Hin. destruct Hin as [x [Hx Hin]].
  assert (H : email_taken db st = true).
  { apply email_taken_iff. exists x. split; assumption. }
  congruence.
Qed.

Lemma name_free (db : Database) (st : Student) :
  name_in_section_taken db st = false ->
  ~ In (name_in_section st) (map name_in_section (Student_objects db)).
Proof.
  intros Hfree Hin. apply in_map_iff in Hin. destruct Hin as [x [Hx Hin]].
  assert (H : name_in_section_taken db st = true).
  { apply name_in_section_taken_iff. exists x. inversion Hx. tauto. }
  congruence.
Qed.

Lemma pair_free (db : Database) (e : Enrollment) :
  enrollment_taken db e = false ->
  ~ In (student_in_section e) (map student_in_section (Enrollment_objects db)).
Proof.
  intros Hfree Hin. apply in_map_iff in Hin. destruct Hin as [x [Hx Hin]].
  assert (H : enrollment_taken db e = true).
  { apply enrollment_taken_iff. exists x. inversion Hx. tauto. }
  congruence.
Qed.

Lemma unreferenced (A : Type) (ref : A -> Z) (rows : list A) (pk : Z) (row : A) :
  existsb (fun x => ref x =? pk) rows = false -> In row rows -> ref row <> pk.
Proof.
  intros Hnone Hin Href.
  assert (H : existsb (fun x => ref x =? pk) rows = true).
  { apply existsb_exists. exists row. split; [exact Hin | apply Z.eqb_eq; exact Href]. }
  congruence.
Qed.

Lemma Section_insert_consistent (db : Database) (s : Section) :
  consistent db -> consistent (state_after db (Section_insert db s)).
Proof.
  intros H. unfold Section_insert.
  destruct (code_taken db s) eqn:Hcode; [exact H|].
  destruct H as [H1 H2 H3 H4 H5 H6 H7 H8 H9 H10]. constructor; simpl; try assumption.
  - apply (distinct_with_new_row section_id); [exact H1|]. apply next_key_unused.
  - apply (distinct_with_new_row code); [exact H2|]. apply (code_free db s Hcode).
  - intros st Hst. destruct (H6 st Hst) as [sec [Hsec Hid]].
    exists sec. split; [apply in_or_app; left; exact Hsec | exact Hid].
  - intros e He. destruct (H10 e He) as [sec [Hsec Hid]].
    exists sec. split; [apply in_or_app; left; exact Hsec | exact Hid].
Qed.

Lemma Student_insert_consistent (db : Database) (st : Student) :
  consistent db -> consistent (state_after db (Student_insert db st)).
Proof.
  intros H. unfold Student_insert.
  destruct (email_taken db st) eqn:Hemail; [exact H|].
  destruct (name_in_section_taken db st) eqn:Hname; [exact H|].
  destruct (section_exists db (section st)) eqn:Hsec; simpl; [|exact H].
  destruct H as [H1 H2 H3 H4 H5 H6 H7 H8 H9 H10]. constructor; simpl; try assumption.
  - apply (distinct_with_new_row student_id); [exact H3|]. apply next_key_unused.
  - apply (distinct_with_new_row email); [exact H4|]. apply (email_free db st Hemail).
  - apply (distinct_with_new_row name_in_section); [exact H5|].
    apply (name_free db st Hname).
  - intros x Hx. apply in_app_or in Hx. destruct Hx as [Hx|[<-|[]]]; [apply H6; exact Hx|].
    unfold section_exists in Hsec. apply existsb_exists in Hsec.
    destruct Hsec as [sec [Hin Hid]]. exists sec.
    split; [exact Hin | apply Z.eqb_eq; exact Hid].
  - intros e He. destruct (H9 e He) as [x [Hx Hid]].
    exists x. split; [apply in_or_app; left; exact Hx | exact Hid].
Qed.

Lemma Enrollment_insert_consistent (db : Database) (e : Enrollment) :
  consistent db -> consistent (state_after db (Enrollment_insert db e)).
Proof.
  intros H. unfold Enrollment_insert.
  destruct (enrollment_taken db e) eqn:Hpair; [exact H|].
  destruct (student_exists db (student e) && section_exists db (enr_section e)) eqn:Hfk;
    simpl; [|exact H].
  apply andb_true_iff in Hfk. destruct Hfk as [Hst Hsec].
  destruct H as [H1 H2 H3 H4 H5 H6 H7 H8 H9 H10]. constructor; simpl; try assumption.
  - apply (distinct_with_new_row enroll_id); [exact H7|]. apply next_key_unused.
  - apply (distinct_with_new_row student_in_section); [exact H8|].
    apply (pair_free db e Hpair).
  - intros x Hx. apply in_app_or in Hx. destruct Hx as [Hx|[<-|[]]]; [apply H9; exact Hx|].
    unfold student_exists in Hst. apply existsb_exists in Hst.
    destruct Hst as [st [Hin Hid]]. exists st.
    split; [exact Hin | apply Z.eqb_eq; exact Hid].
  - intros x Hx. apply in_app_or in Hx. destruct Hx as [Hx|[<-|[]]]; [apply H10; exact Hx|].
    unfold section_exists in Hsec. apply existsb_exists in Hsec.
    destruct Hsec as [sec [Hin Hid]]. exists sec.
    split; [exact Hin | apply Z.eqb_eq; exact Hid].
Qed.

Lemma Section_delete_consistent (db : Database) (pk : Z) :
  consistent db -> consistent (state_after db (Section_delete db pk)).
Proof.
  intros H. unfold Section_delete.
  destruct (existsb (fun st => section st =? pk) (Student_objects db)) eqn:Hst; [exact H|].
  destruct (existsb (fun e => enr_section e =? pk) (Enrollment_objects db)) eqn:He;
    [exact H|].
  destruct H as [H1 H2 H3 H4 H5 H6 H7 H8 H9 H10]. constructor; simpl; try assumption.
  - apply distinct_without_rows. exact H1.
  - apply distinct_without_rows. exact H2.
  - intros st Hin. destruct (H6 st Hin) as [sec [Hsec Hid]].
    exists sec. split; [|exact Hid]. apply filter_In. split; [exact Hsec|].
    apply negb_true_iff, Z.eqb_neq. rewrite Hid.
    apply (unreferenced _ section _ _ st Hst Hin).
  - intros e Hin. destruct (H10 e Hin) as [sec [Hsec Hid]].
    exists sec. split; [|exact Hid]. apply filter_In. split; [exact Hsec|].
    apply negb_true_iff, Z.eqb_neq. rewrite Hid.
    apply (unreferenced _ enr_section _ _ e He Hin).
Qed.

Lemma Student_delete_consistent (db : Database) (pk : Z) :
  consistent db -> consistent (state_after db (Student_delete db pk)).
Proof.
  intros [H1 H2 H3 H4 H5 H6 H7 H8 H9 H10]. constructor; simpl; try assumption.
  - apply distinct_without_rows. exact H3.
  - apply distinct_without_rows. exact H4.
  - apply distinct_without_rows. exact H5.
  - intros st Hin. apply filter_In in Hin. apply H6. tauto.
  - apply distinct_without_rows. exact H7.
  - apply distinct_without_rows. exact H8.
  - intros e Hin. apply filter_In in Hin. destruct Hin as [Hin Hkeep].
    destruct (H9 e Hin) as [st [Hst Hid]]. exists st. split; [|exact Hid].
    apply filter_In. split; [exact Hst|]. rewrite Hid. exact Hkeep.
  - intros e Hin. apply filter_In in Hin. apply H10. tauto.
Qed.

Lemma Enrollment_delete_consistent (db : Database) (pk : Z) :
  consistent db -> consistent (state_after db (Enrollment_delete db pk)).
Proof.
  intros [H1 H2 H3 H4 H5 H6 H7 H8 H9 H10]. constructor; simpl; try assumption.
  - apply distinct_without_rows. exact H7.
  - apply distinct_without_rows. exact H8.
  - intros e Hin. apply filter_In in Hin. apply H9. tauto.
  - intros e Hin. apply filter_In in Hin. apply H10. tauto.
Qed.

Lemma attempt_consistent (db : Database) (w : Write) :
  consistent db -> consistent (state_after db (attempt db w)).
Proof.
  destruct w; simpl.
  - apply Section_insert_consistent.
  - apply Student_insert_consistent.
  - apply Enrollment_insert_consistent.
  - apply Section_delete_consistent.
  - apply Student_delete_consistent.
  - apply Enrollment_delete_consistent.
Qed.

Lemma empty_db_consistent : consistent empty_db.
Proof. constructor; simpl; try constructor; intros x []. Qed.

(** X16.  The constraints of the schema are invariants of the writes:
    starting from tables with distinct primary keys, distinct Section
    codes, distinct Student emails, distinct (first name, last name,
    Section) triples, distinct (Student, Section) pairs of Enrollments and
    no foreign key without its row, any sequence of insertions and
    deletions of Sections, Students and Enrollments, accepted or
    rejected, leaves tables that have all of this again. *)
Theorem writes_keep_the_schema (db : Database) (ws : list Write) :
  consistent db -> consistent (run db ws).
Proof.
  unfold run. revert db. induction ws as [|w ws IH]; intros db H; simpl.
  - exact H.
  - apply IH. apply attempt_consistent. exact H.
Qed.

(** From no rows at all: a Section, two Students in it, an Enrollment of
    the first, a second one of the same that is rejected, and a deletion
    of the Section that is rejected. *)
Lemma writes_keep_the_schema_example :
  run empty_db [InsertSection (mkSection 0 "CS101-A" "Intro to CS - A" "Fall 2025");
                InsertStudent (mkStudent 0 "Ann" "Lee" "" "ann@example.com" 1);
                InsertStudent (mkStudent 0 "Bo" "Adams" "Annie" "bo@example.com" 1);
                InsertEnrollment (mkEnrollment 0 1 1 0 true);
                InsertEnrollment (mkEnrollment 0 1 1 0 false);
                DeleteSection 1]
    = Fixtures.roster_db /\
  consistent
    (run empty_db [InsertSection (mkSection 0 "CS101-A" "Intro to CS - A" "Fall 2025");
                   InsertStudent (mkStudent 0 "Ann" "Lee" "" "ann@example.com" 1);
                   InsertStudent (mkStudent 0 "Bo" "Adams" "Annie" "bo@example.com" 1);
                   InsertEnrollment (mkEnrollment 0 1 1 0 true);
                   InsertEnrollment (mkEnrollment 0 1 1 0 false);
                   DeleteSection 1]).
Proof.
  split.
  - reflexivity.
  - apply (writes_keep_the_schema empty_db).
    constructor; simpl; try constructor; intros x [].
Defined.

End IntegrityFacts.

(* ================================================================== *)
(** ** A save followed by the deletion of what was saved *)

Module WriteFacts.
Import Store Writes Integrity StoreFacts IntegrityFacts Fixtures.

Lemma filter_keeps_all {A : Type} (keep : A -> bool) (rows : list A) :
  (forall x, In x rows -> keep x = true) -> filter keep rows = rows.
Proof.
  induction rows as [|x rows IH]; simpl; intros H; [reflexivity|].
  rewrite (H x (or_introl eq_refl)). f_equal. apply IH.
  intros y Hy. apply H. right. exact Hy.
Qed.

Lemma allot_above (seq : Z) (keys : list Z) :
  seq < allot seq keys /\ forall k, In k keys -> k < allot seq keys.
Proof.
  unfold allot. split; [lia|].
  intros k Hin. apply key_below_maximum in Hin. lia.
Qed.

(** While no row with the largest key has been deleted, the key
    allotted is [next_key], and [Student_save] writes what
    [Student_insert] writes. *)
Lemma allot_next_key (seq : Z) (keys : list Z) :
  seq <= fold_right Z.max 0 keys -> allot seq keys = next_key keys.
Proof. unfold allot, next_key. lia. Qed.

Lemma Student_save_insert (s : Sequenced) (st : Student) :
  student_seq s <= fold_right Z.max 0 (map student_id (Student_objects (tables s))) ->
  match Student_save s st with
  | Saved s' => Student_insert (tables s) st = Written (tables s')
  | NotSaved e => Student_insert (tables s) st = Rejected e
  end.
Proof.
  intros Hseq. unfold Student_save, Student_insert_under, Student_insert.
  rewrite (allot_next_key _ _ Hseq).
  destruct (email_taken (tables s) st); [reflexivity|].
  destruct (name_in_section_taken (tables s) st); [reflexivity|].
  destruct (negb (section_exists (tables s) (section st))); reflexivity.
Qed.

(** X19.  Deleting the Student that was just saved gives back the
    tables, and the key is not given out again.  When every Enrollment
    refers to a stored Student, an accepted save puts the Student at the
    end of the Student table under a key [pk] that no stored Student
    has; deleting [pk] then leaves the three tables as they were before
    the save; and the next accepted save gets a key larger than [pk]. *)
Theorem delete_undoes_insert (s s' : Sequenced) (st : Student) :
  (forall e, In e (Enrollment_objects (tables s)) ->
             exists x, In x (Student_objects (tables s)) /\ student_id x = student e) ->
  Student_save s st = Saved s' ->
  let pk := student_seq s' in
  ~ In pk (map student_id (Student_objects (tables s))) /\
  Student_objects (tables s') =
    Student_objects (tables s) ++
    [mkStudent pk (first_name st) (last_name st) (nickname st) (email st)
               (section st)] /\
  tables (Student_remove s' pk) = tables s /\
  forall (again : Student) (s'' : Sequenced),
    Student_save (Student_remove s' pk) again = Saved s'' ->
    pk < student_seq s'' /\
    In (student_seq s'') (map student_id (Student_objects (tables s''))).
Proof.
  intros Hfk Hsave. unfold Student_save, Student_insert_under in Hsave.
  destruct (allot_above (student_seq s)
                        (map student_id (Student_objects (tables s))))
    as [_ Habove].
  set (key := allot (student_seq s) (map student_id (Student_objects (tables s))))
    in *.
  assert (Hfresh : ~ In key (map student_id (Student_objects (tables s)))).
  { intros Hin. apply Habove in Hin. lia. }
  destruct (email_taken (tables s) st); [discriminate|].
  destruct (name_in_section_taken (tables s) st); [discriminate|].
  destruct (negb (section_exists (tables s) (section st))); [discriminate|].
  injection Hsave as <-. cbn [student_seq tables Student_objects].
  split; [exact Hfresh|]. split; [reflexivity|]. split.
  - unfold Student_remove, Student_delete.
    cbn [tables state_after Student_objects Enrollment_objects Section_objects].
    rewrite filter_app. cbn [filter student_id]. rewrite Z.eqb_refl.
    cbn [negb]. rewrite app_nil_r, !filter_keeps_all.
    + destruct (tables s); reflexivity.
    + intros e He. apply negb_true_iff, Z.eqb_neq. intros Heq.
      destruct (Hfk e He) as [x [Hx Hid]]. apply Hfresh. rewrite <- Heq, <- Hid.
      apply in_map. exact Hx.
    + intros x Hx. apply negb_true_iff, Z.eqb_neq. intros Heq.
      apply Hfresh. rewrite <- Heq. apply in_map. exact Hx.
  - intros again s'' Hagain. unfold Student_save, Student_insert_under in Hagain.
    match type of Hagain with
    | context [allot ?seq ?keys] =>
      destruct (allot_above seq keys) as [Hseq _];
      set (key' := allot seq keys) in *
    end.
    cbn [student_seq Student_remove] in Hseq.
    destruct (email_taken _ again); [discriminate|].
    destruct (name_in_section_taken _ again); [discriminate|].
    destruct (negb (section_exists _ (section again))); [discriminate|].
    injection Hagain as <-. cbn [student_seq tables Student_objects].
    split; [exact Hseq|].
    rewrite map_app. apply in_or_app. right. left. reflexivity.
Qed.

(** Cy Young is saved to [roster_db] under key 3 and deleted; Di Zed,
    saved next, gets key 4. *)
Lemma delete_undoes_insert_roster :
  Student_save (mkSequenced roster_db 2)
               (mkStudent 0 "Cy" "Young" "" "cy@example.com" 1)
  = Saved (mkSequenced
             {| Section_objects := [cs101];
                Student_objects := [ann; bo; cy];
                Enrollment_objects := [mkEnrollment 1 1 1 0 true] |} 3) /\
  Student_save (Student_remove (mkSequenced search_db 3) 3)
               (mkStudent 0 "Di" "Zed" "" "di@example.com" 1)
  = Saved (mkSequenced
             {| Section_objects := [cs101];
                Student_objects :=
                  [ann; bo; mkStudent 4 "Di" "Zed" "" "di@example.com" 1];
                Enrollment_objects := [mkEnrollment 1 1 1 0 true] |} 4) /\
  ~ In 3 (map student_id (Student_objects roster_db)) /\
  Student_objects search_db = Student_objects roster_db ++ [cy] /\
  tables (Student_remove (mkSequenced search_db 3) 3) = roster_db /\
  forall (again : Student) (s'' : Sequenced),
    Student_save (Student_remove (mkSequenced search_db 3) 3) again = Saved s'' ->
    3 < student_seq s'' /\
    In (student_seq s'') (map student_id (Student_objects (tables s''))).
Proof.
  split; [reflexivity|]. split; [reflexivity|].
  apply (delete_undoes_insert
           (mkSequenced roster_db 2) (mkSequenced search_db 3)
           (mkStudent 0 "Cy" "Young" "" "cy@example.com" 1)).
  - intros e Hin. exists ann. split; [left; reflexivity|].
    simpl in Hin. destruct Hin as [<-|[]]. reflexivity.
  - reflexivity.
Defined.

End WriteFacts.

(* ================================================================== *)
(** ** The exports leave no Student out *)

Module ExportTotals.
Import Text Orm Queries Views Exports OrmFacts Spec Roster Fixtures.

(** X20.  When every Student refers to exactly one Section, both exports
    hold every Student exactly once: the CSV has one record per Student
    after its header, each record of five cells, [record_count] of the
    JSON export is the number of Students, and every Student's id, names
    and email are in a CSV record together with the code of its
    Section. *)
Theorem exports_hold_every_student
        (request : HttpRequest) (now now' : datetime) (db : Database) :
  students_have_sections db ->
  List.length (csv_records (export_students_csv request now db))
    = S (List.length (Student_objects db)) /\
  Forall (fun record => List.length record = 5%nat)
         (csv_records (export_students_csv request now db)) /\
  (exists students,
      payload (export_students_json request now now' db)
      = JDict [("generated_at", JStr (isoformat_seconds now));
               ("record_count", JInt_of_nat (List.length (Student_objects db)));
               ("students", JList students)] /\
      List.length students = List.length (Student_objects db)) /\
  (forall st, In st (Student_objects db) ->
     exists sec,
       In sec (Section_objects db) /\ section_id sec = section st /\
       In [str_of_int (student_id st); first_name st; last_name st; email st; code sec]
          (csv_records (export_students_csv request now db))).
Proof.
  intros Hdb.
  set (rows := order_by by_student_name (with_section db (Student_objects db))).
  assert (Hperm : Permutation (map fst rows) (Student_objects db)).
  { apply ordered_rows_students; [exact Hdb | tauto]. }
  assert (Hlen : List.length rows = List.length (Student_objects db)).
  { rewrite <- (length_map fst rows). apply Permutation_length. exact Hperm. }
  assert (Hcsv : csv_records (export_students_csv request now db)
                 = ["student_id"; "first_name"; "last_name"; "email"; "section_code"]
                     :: map writerow (map values_list_export rows)) by reflexivity.
  assert (Hjson : payload (export_students_json request now now' db)
                  = JDict [("generated_at", JStr (isoformat_seconds now));
                           ("record_count",
                            JInt_of_nat (List.length (map values_export rows)));
                           ("students", JList (map values_export rows))]) by reflexivity.
  rewrite Hcsv, Hjson. clear Hcsv Hjson.
  split; [|split; [|split]].
  - cbn [List.length]. rewrite !length_map, Hlen. reflexivity.
  - constructor; [reflexivity|].
    apply Forall_forall. intros record Hrec.
    apply in_map_iff in Hrec. destruct Hrec as [t [<- _]].
    destruct t as [[[[sid first] last] mail] sec_code]. reflexivity.
  - exists (map values_export rows). rewrite !length_map, Hlen. split; reflexivity.
  - intros st Hst.
    assert (Hin : In st (map fst rows)).
    { eapply Permutation_in; [apply Permutation_sym, Hperm | exact Hst]. }
    apply in_map_iff in Hin. destruct Hin as [[st' sec] [Heq Hrow]].
    cbn [fst] in Heq. subst st'.
    assert (Hjoin : In (st, sec) (with_section db (Student_objects db))).
    { apply (order_by_In by_student_name). exact Hrow. }
    apply with_section_snd in Hjoin. cbn [fst snd] in Hjoin. destruct Hjoin as [Hsec Hid].
    exists sec. split; [exact Hsec|]. split; [exact Hid|].
    right. rewrite map_map.
    apply in_map_iff. exists (st, sec). split; [reflexivity | exact Hrow].
Qed.

Lemma exports_hold_every_student_roster :
  List.length (csv_records (export_students_csv (mkRequest []) noon roster_db))
    = S (List.length (Student_objects roster_db)) /\
  Forall (fun record => List.length record = 5%nat)
         (csv_records (export_students_csv (mkRequest []) noon roster_db)) /\
  (exists students,
      payload (export_students_json (mkRequest []) noon noon roster_db)
      = JDict [("generated_at", JStr (isoformat_seconds noon));
               ("record_count", JInt_of_nat (List.length (Student_objects roster_db)));
               ("students", JList students)] /\
      List.length students = List.length (Student_objects roster_db)) /\
  (forall st, In st (Student_objects roster_db) ->
     exists sec,
       In sec (Section_objects roster_db) /\ section_id sec = section st /\
       In [str_of_int (student_id st); first_name st; last_name st; email st; code sec]
          (csv_records (export_students_csv (mkRequest []) noon roster_db))).
Proof.
  apply (exports_hold_every_student (mkRequest []) noon noon roster_db).
  split.
  - simpl. constructor; [intros []|constructor].
  - intros st Hin. exists cs101. split; [left; reflexivity|].
    simpl in Hin. destruct Hin as [<-|[<-|[]]]; reflexivity.
Defined.

End ExportTotals.
